(** * Verification of the post generator core (postGenarator.py)

    A shallow embedding of the submission-to-post pipeline: the geometry
    and style records with their dictionary (de)serialisation, the CSV
    submission repository, the download service, the text layout of the
    renderer and the generation coordinator.

    Conventions.
    - A Python [str] is a [string]; each [ascii] stands for the code point
      of the same number (0..255).
    - A Python [int] is a [Z].
    - A function that may raise returns a [result]; the exception classes
      that occur are the constructors of [exn].
    - What the program gets from its libraries and from the outside world
      (pathlib, csv, requests, PIL, str.upper, str.format) is a field of
      the record [World]. *)

From Stdlib Require Import ZArith List String Ascii Bool Lia DecimalString DecimalPos.
From stdpp Require Import base option list gmap strings.
Import ListNotations.

Set Warnings "-register-all".
Local Open Scope string_scope.
Local Open Scope list_scope.
Local Open Scope Z_scope.

(* ===================================================================== *)
(** * Python strings *)
(* ===================================================================== *)

Module PyStr.

Definition code (c : ascii) : nat := nat_of_ascii c.

Definition in_range (lo hi : nat) (c : ascii) : bool :=
  (lo <=? code c)%nat && (code c <=? hi)%nat.

(** [str.isspace] on one code point below 256: TAB..CR, FS..US, SPACE,
    NEL and NBSP. It is also the class [\s] of [re] on a [str]. *)
Definition isspace (c : ascii) : bool :=
  in_range 9 13 c || in_range 28 32 c || (code c =? 133)%nat || (code c =? 160)%nat.

Definition isupper_ascii (c : ascii) : bool := in_range 65 90 c.
Definition islower_ascii (c : ascii) : bool := in_range 97 122 c.
Definition isdigit (c : ascii) : bool := in_range 48 57 c.

(** The class [a-zA-Z0-9]. *)
Definition isalnum (c : ascii) : bool :=
  islower_ascii c || isupper_ascii c || isdigit c.

(** The class [a-zA-Z0-9_-]. *)
Definition isidchar (c : ascii) : bool :=
  isalnum c || (code c =? 95)%nat || (code c =? 45)%nat.

(** [str.lower] on one code point below 256: A..Z and the capital
    letters of Latin-1 (all of 192..222 but the sign 215) move up by 32. *)
Definition lower_char (c : ascii) : ascii :=
  if isupper_ascii c || (in_range 192 222 c && negb (code c =? 215)%nat)
  then ascii_of_nat (code c + 32)
  else c.

Fixpoint lower (s : string) : string :=
  match s with
  | EmptyString => EmptyString
  | String c s' => String (lower_char c) (lower s')
  end.

(** Truth value of a [str]: non-empty. *)
Definition truthy (s : string) : bool :=
  match s with EmptyString => false | String _ _ => true end.

(** [s.lstrip(chars)], [s.rstrip(chars)], [s.strip(chars)] with the set
    of characters given as a predicate. *)
Fixpoint lstrip_with (p : ascii -> bool) (s : string) : string :=
  match s with
  | EmptyString => EmptyString
  | String c s' => if p c then lstrip_with p s' else s
  end.

Fixpoint rstrip_with (p : ascii -> bool) (s : string) : string :=
  match s with
  | EmptyString => EmptyString
  | String c s' =>
      match rstrip_with p s' with
      | EmptyString => if p c then EmptyString else String c EmptyString
      | r => String c r
      end
  end.

Definition strip_with (p : ascii -> bool) (s : string) : string :=
  rstrip_with p (lstrip_with p s).

(** [s.strip()]. *)
Definition strip (s : string) : string := strip_with isspace s.

(** [s[:n]]. *)
Fixpoint take (n : nat) (s : string) : string :=
  match n, s with
  | S n', String c s' => String c (take n' s')
  | _, _ => EmptyString
  end.

Fixpoint drop (n : nat) (s : string) : string :=
  match n, s with
  | S n', String _ s' => drop n' s'
  | _, _ => s
  end.

(** [s.startswith(p)]. *)
Fixpoint startswith (p s : string) : bool :=
  match p, s with
  | EmptyString, _ => true
  | String a p', String b s' => Ascii.eqb a b && startswith p' s'
  | String _ _, EmptyString => false
  end.

(** [needle in hay]. *)
Fixpoint contains (needle hay : string) : bool :=
  startswith needle hay ||
  match hay with
  | EmptyString => false
  | String _ hay' => contains needle hay'
  end.

(** [sep.join(parts)]. *)
Fixpoint join (sep : string) (parts : list string) : string :=
  match parts with
  | [] => EmptyString
  | [x] => x
  | x :: rest => x +:+ sep +:+ join sep rest
  end.

(** [s.split(sep)] for a separator of one character: the pieces between
    the separators, empty ones included; never the empty list. *)
Fixpoint split_on (sep : ascii) (s : string) : list string :=
  match s with
  | EmptyString => [EmptyString]
  | String c s' =>
      if Ascii.eqb c sep then EmptyString :: split_on sep s'
      else match split_on sep s' with
           | [] => [String c EmptyString]
           | w :: ws => String c w :: ws
           end
  end.

(** [s.split()]: the maximal runs of non-space characters. *)
Fixpoint split (s : string) : list string :=
  match s with
  | EmptyString => []
  | String c s' =>
      if isspace c then split s'
      else match s' with
           | EmptyString => [String c EmptyString]
           | String c' _ =>
               if isspace c' then String c EmptyString :: split s'
               else match split s' with
                    | [] => [String c EmptyString]
                    | w :: ws => String c w :: ws
                    end
           end
  end.

(** [re.sub("[cls]+", repl, s)]: every maximal run of characters of the
    class is replaced by [repl]. [re_sub_run_go] is inside a run that
    has already been replaced. *)
Fixpoint re_sub_run_go (cls : ascii -> bool) (repl : string) (inrun : bool) (s : string) : string :=
  match s with
  | EmptyString => EmptyString
  | String c s' =>
      if cls c then
        if inrun then re_sub_run_go cls repl true s'
        else repl +:+ re_sub_run_go cls repl true s'
      else String c (re_sub_run_go cls repl false s')
  end.

Definition re_sub_run (cls : ascii -> bool) (repl : string) (s : string) : string :=
  re_sub_run_go cls repl false s.

(** The longest prefix of [s] in the class, and the rest. *)
Fixpoint span (cls : ascii -> bool) (s : string) : string * string :=
  match s with
  | EmptyString => (EmptyString, EmptyString)
  | String c s' =>
      if cls c then let '(a, b) := span cls s' in (String c a, b)
      else (EmptyString, s)
  end.

(** Every character of [s] satisfies [p]. *)
Fixpoint all_chars (p : ascii -> bool) (s : string) : bool :=
  match s with
  | EmptyString => true
  | String c s' => p c && all_chars p s'
  end.

(** The text of an [int]: [str(n)]. *)
Definition of_Z (n : Z) : string := NilZero.string_of_int (Z.to_int n).

(** [format(n, "0<w>d")]: the sign, then the digits padded with zeros on
    the left up to the width [w], sign included. *)
Fixpoint zeros (n : nat) : string :=
  match n with O => EmptyString | S n' => String "0" (zeros n') end.

Definition format_0d (w : nat) (n : Z) : string :=
  let digits := of_Z (Z.abs n) in
  let sign := if n <? 0 then "-" else EmptyString in
  sign +:+ zeros (w - String.length sign - String.length digits) +:+ digits.

End PyStr.

(* ===================================================================== *)
(** * Exceptions *)
(* ===================================================================== *)

Inductive exn : Type :=
| FileNotFoundError (msg : string)
| ValueError (msg : string)
| KeyError (key : string)
| TypeError (msg : string)
| AttributeError (msg : string)
| OSError (msg : string)
| OverflowError (msg : string)
| RequestException (msg : string)
| PhotoDownloadError (msg : string).

(** [str(err)] for the exceptions whose text the program prints. *)
Definition exn_str (e : exn) : string :=
  match e with
  | FileNotFoundError m | ValueError m | TypeError m | AttributeError m
  | OSError m | OverflowError m | RequestException m | PhotoDownloadError m => m
  | KeyError k => "'" +:+ k +:+ "'"
  end.

Inductive result (A : Type) : Type :=
| Ok (a : A)
| Raise (e : exn).
Arguments Ok {A} a.
Arguments Raise {A} e.

Definition rbind {A B} (r : result A) (k : A -> result B) : result B :=
  match r with
  | Ok a => k a
  | Raise e => Raise e
  end.

Declare Scope result_scope.
Delimit Scope result_scope with res.
Notation "'let?' x ':=' r 'in' k" := (rbind r (fun x => k))
  (at level 10, x pattern, r at level 100, k at level 200) : result_scope.

(* ===================================================================== *)
(** * Data model *)
(* ===================================================================== *)

Inductive Orientation := LANDSCAPE | PORTRAIT.

Definition Orientation_value (o : Orientation) : string :=
  match o with LANDSCAPE => "landscape" | PORTRAIT => "portrait" end.

Definition Orientation_from_size (width height : Z) : Orientation :=
  if width >=? height then LANDSCAPE else PORTRAIT.

Record Rectangle := mkRectangle {
  rect_x : Z; rect_y : Z; rect_width : Z; rect_height : Z }.

Record TextStyle := mkTextStyle {
  font_path : string;
  font_size : Z;
  fill : string;
  align : string;
  line_spacing : Z }.

Record TextField := mkTextField {
  tf_rect : Rectangle;
  tf_style : TextStyle;
  tf_prefix : string;
  tf_uppercase : bool }.

Record TemplateLayout := mkTemplateLayout {
  orientation : Orientation;
  template_path : string;
  photo_area : Rectangle;
  clicked_by : TextField;
  title : TextField;
  description : TextField;
  badge : option TextField;
  badge_format : string }.

Record ParticipantPhoto := mkParticipantPhoto {
  sequence : Z;
  submission_index : Z;
  participant_name : string;
  theme : string;
  photo_description : string;
  url : string;
  local_path : option string;
  photo_orientation : option Orientation }.

(** ** ParticipantPhoto.filename_slug *)

Definition _slug (value : string) : string :=
  let value :=
    PyStr.strip_with (fun c => Ascii.eqb c "-" || Ascii.eqb c " ")
      (PyStr.re_sub_run (fun c => negb (PyStr.isalnum c)) "-" (PyStr.strip value)) in
  if PyStr.truthy value then PyStr.take 60 (PyStr.lower value) else "item".

Definition filename_slug (self : ParticipantPhoto) : string :=
  PyStr.format_0d 3 (sequence self) +:+ "_" +:+ _slug (participant_name self)
    +:+ "_" +:+ _slug (theme self).

(* ===================================================================== *)
(** * The outside world *)
(* ===================================================================== *)

(** A GET of [requests.Session]: the address and the query parameters. *)
Record Request := mkRequest {
  req_url : string;
  req_params : list (string * string) }.

(** What the program reads of a [requests.Response]: [ok], the
    Content-Disposition header when there is one, the cookies in the order
    of [cookies.items()], and the body as [iter_content] delivers it: the
    bytes that arrive, and the exception with which the stream breaks
    after them, if it does. *)
Record Response := mkResponse {
  resp_ok : bool;
  resp_disposition : option string;
  resp_cookies : list (string * string);
  resp_content : string;
  resp_break : option exn }.

(** A font object of PIL. *)
Inductive Font :=
| TrueType (path : string) (size : Z)
| DefaultFont.

(** Libraries and environment. A path is the text [str(path)]. A call
    of a library that can raise gives a [result], the exception being
    the one the library raises; creating the directories is taken to
    succeed. *)
Record World := mkWorld {
  (** [str(Path(value).expanduser().resolve())] *)
  resolve_path : string -> string;
  (** [Path(p).exists()] *)
  path_exists : string -> bool;
  (** [dir / name] *)
  path_join : string -> string -> string;
  (** [Path(p).name] *)
  path_name : string -> string;
  (** [session.get]: the answer to a request after the requests already
      sent, or the exception that [requests] raises. *)
  session_get : list Request -> Request -> result Response;
  (** Opening the file at a path for writing, by [Path.open("wb")] and
      by [Image.save]. *)
  file_open : string -> result unit;
  (** [Image.open(p).size] *)
  image_open : string -> result (Z * Z);
  (** [.convert(mode)] of the image opened at a path, which reads its
      pixels. *)
  image_convert : string -> result unit;
  (** [ImageOps.fit] of the image opened at a path to a size. *)
  image_fit : string -> Z * Z -> result unit;
  (** [ImageFont.truetype(path, size)] *)
  truetype : string -> Z -> result unit;
  (** [draw.textsize(text, font=font)] *)
  textsize : Font -> string -> Z * Z;
  (** [draw.text(position, line, font=font, fill=fill)] *)
  draw_text : Z * Z -> string -> Font -> string -> result unit;
  (** The records that [csv.reader] yields for the file at a path, the
      header record first; [None] when [Path(p).exists()] is false. *)
  csv_records : string -> option (list (list string));
  (** [str.upper] *)
  str_upper : string -> string;
  (** [fmt.format(n)] *)
  str_format : string -> Z -> result string }.

(* ===================================================================== *)
(** * Dictionaries of template configurations *)
(* ===================================================================== *)

(** The objects that [json.load] delivers and [json.dump] accepts, floats
    left out. A [dict] keeps its items in insertion order, keys distinct. *)
Inductive pyval :=
| VNone
| VBool (b : bool)
| VInt (z : Z)
| VStr (s : string)
| VList (l : list pyval)
| VDict (items : list (string * pyval)).

Module Py.

(** [bool(v)]. *)
Definition truthy (v : pyval) : bool :=
  match v with
  | VNone => false
  | VBool b => b
  | VInt z => negb (z =? 0)
  | VStr s => PyStr.truthy s
  | VList l => match l with [] => false | _ => true end
  | VDict d => match d with [] => false | _ => true end
  end.

Fixpoint assoc (k : string) (items : list (string * pyval)) : option pyval :=
  match items with
  | [] => None
  | (k', v) :: rest => if String.eqb k k' then Some v else assoc k rest
  end.

(** [data[k]]. *)
Definition getitem (data : pyval) (k : string) : result pyval :=
  match data with
  | VDict items =>
      match assoc k items with
      | Some v => Ok v
      | None => Raise (KeyError k)
      end
  | _ => Raise (TypeError "object is not subscriptable with a str")
  end.

(** [data.get(k, default)]. *)
Definition get (data : pyval) (k : string) (default : pyval) : result pyval :=
  match data with
  | VDict items =>
      match assoc k items with
      | Some v => Ok v
      | None => Ok default
      end
  | _ => Raise (AttributeError "object has no attribute 'get'")
  end.

(** The digits of an integer literal given to [int]: at least one, a
    single underscore allowed between two digits. *)
Fixpoint int_digits (acc : Z) (after_digit : bool) (s : string) : option Z :=
  match s with
  | EmptyString => if after_digit then Some acc else None
  | String c s' =>
      if PyStr.isdigit c
      then int_digits (10 * acc + Z.of_nat (PyStr.code c - 48)) true s'
      else if Ascii.eqb c "_" && after_digit then int_digits acc false s'
      else None
  end.

Definition int_of_str (s : string) : option Z :=
  match PyStr.strip s with
  | String "-" d => option_map Z.opp (int_digits 0 false d)
  | String "+" d => int_digits 0 false d
  | d => int_digits 0 false d
  end.

(** [int(v)]. *)
Definition int (v : pyval) : result Z :=
  match v with
  | VInt z => Ok z
  | VBool b => Ok (Z.b2z b)
  | VStr s =>
      match int_of_str s with
      | Some z => Ok z
      | None => Raise (ValueError "invalid literal for int() with base 10")
      end
  | _ => Raise (TypeError "int() argument must be a string or a number")
  end.

(** A field annotated [str] that is filled without conversion. Python
    would store an object of any type; the typed record has no place
    for it and the embedding stops there. *)
Definition str_field (v : pyval) : result string :=
  match v with
  | VStr s => Ok s
  | _ => Raise (TypeError "field of type str holds another object")
  end.

End Py.

Local Open Scope result_scope.

Definition _resource_path (W : World) (value : pyval) : result string :=
  if Py.truthy value then
    match value with
    | VStr s => Ok (resolve_path W s)
    | _ => Raise (TypeError "expected str, bytes or os.PathLike object")
    end
  else Py.str_field value.

Definition Orientation_of_value (v : pyval) : result Orientation :=
  match v with
  | VStr "landscape" => Ok LANDSCAPE
  | VStr "portrait" => Ok PORTRAIT
  | _ => Raise (ValueError "is not a valid Orientation")
  end.

Definition Rectangle_to_dict (self : Rectangle) : pyval :=
  VDict [("x", VInt (rect_x self)); ("y", VInt (rect_y self));
         ("width", VInt (rect_width self)); ("height", VInt (rect_height self))].

Definition Rectangle_from_dict (data : pyval) : result Rectangle :=
  let? x := rbind (Py.getitem data "x") Py.int in
  let? y := rbind (Py.getitem data "y") Py.int in
  let? width := rbind (Py.getitem data "width") Py.int in
  let? height := rbind (Py.getitem data "height") Py.int in
  Ok (mkRectangle x y width height).

Definition TextStyle_to_dict (self : TextStyle) : pyval :=
  VDict [("font_path", VStr (font_path self));
         ("font_size", VInt (font_size self));
         ("fill", VStr (fill self));
         ("align", VStr (align self));
         ("line_spacing", VInt (line_spacing self))].

Definition TextStyle_from_dict (data : pyval) : result TextStyle :=
  let? font_path := rbind (Py.get data "font_path" (VStr EmptyString)) Py.str_field in
  let? font_size := rbind (Py.get data "font_size" (VInt 42)) Py.int in
  let? fill := rbind (Py.get data "fill" (VStr "#000000")) Py.str_field in
  let? align := rbind (Py.get data "align" (VStr "left")) Py.str_field in
  let? line_spacing := rbind (Py.get data "line_spacing" (VInt 6)) Py.int in
  Ok (mkTextStyle font_path font_size fill align line_spacing).

Definition TextField_to_dict (self : TextField) : pyval :=
  VDict [("rect", Rectangle_to_dict (tf_rect self));
         ("style", TextStyle_to_dict (tf_style self));
         ("prefix", VStr (tf_prefix self));
         ("uppercase", VBool (tf_uppercase self))].

Definition TextField_from_dict (data : pyval) : result TextField :=
  let? rect := rbind (Py.getitem data "rect") Rectangle_from_dict in
  let? style := rbind (Py.get data "style" (VDict [])) TextStyle_from_dict in
  let? prefix := rbind (Py.get data "prefix" (VStr EmptyString)) Py.str_field in
  let? uppercase := Py.get data "uppercase" (VBool false) in
  Ok (mkTextField rect style prefix (Py.truthy uppercase)).

(** A dataclass instance is always true, so [self.badge.to_dict() if
    self.badge else None] tests presence. *)
Definition TemplateLayout_to_dict (self : TemplateLayout) : pyval :=
  VDict [("orientation", VStr (Orientation_value (orientation self)));
         ("template_path", VStr (template_path self));
         ("photo_area", Rectangle_to_dict (photo_area self));
         ("clicked_by", TextField_to_dict (clicked_by self));
         ("title", TextField_to_dict (title self));
         ("description", TextField_to_dict (description self));
         ("badge", match badge self with
                   | Some b => TextField_to_dict b
                   | None => VNone
                   end);
         ("badge_format", VStr (badge_format self))].

Definition TemplateLayout_from_dict (W : World) (data : pyval) : result TemplateLayout :=
  let? badge := Py.get data "badge" VNone in
  let? orientation := rbind (Py.getitem data "orientation") Orientation_of_value in
  let? template_path := rbind (Py.getitem data "template_path") (_resource_path W) in
  let? photo_area := rbind (Py.getitem data "photo_area") Rectangle_from_dict in
  let? clicked_by := rbind (Py.getitem data "clicked_by") TextField_from_dict in
  let? title := rbind (Py.getitem data "title") TextField_from_dict in
  let? description := rbind (Py.getitem data "description") TextField_from_dict in
  let? badge :=
    (if Py.truthy badge
     then rbind (TextField_from_dict badge) (fun b => Ok (Some b))
     else Ok None) in
  let? badge_format := rbind (Py.get data "badge_format" (VStr "{0:02d}")) Py.str_field in
  Ok (mkTemplateLayout orientation template_path photo_area clicked_by title
        description badge badge_format).

Definition TemplateLayout_empty (o : Orientation) : TemplateLayout :=
  let style := mkTextStyle EmptyString 42 "#000000" "left" 6 in
  mkTemplateLayout o EmptyString
    (mkRectangle 0 0 100 100)
    (mkTextField (mkRectangle 0 0 100 40) style EmptyString false)
    (mkTextField (mkRectangle 0 50 100 40) style EmptyString false)
    (mkTextField (mkRectangle 0 100 100 200) style EmptyString false)
    None "{0:02d}".

Definition ensure_template_exists (W : World) (self : TemplateLayout) : result unit :=
  if negb (PyStr.truthy (template_path self))
  then Raise (ValueError "Template path is not set")
  else if negb (path_exists W (template_path self))
  then Raise (FileNotFoundError ("Template not found: " +:+ template_path self))
  else Ok tt.

(* ===================================================================== *)
(** * CSVSubmissionRepository *)
(* ===================================================================== *)

Module CSVSubmissionRepository.

(** The dictionary REQUIRED_KEYS, in the order of its items. *)
Definition REQUIRED_KEYS : list (string * string) :=
  [("full name", "participant_name");
   ("theme name", "theme");
   ("description about your photograph", "description");
   ("submit your view (photo upload)", "photo_links")].

Fixpoint required_alias (key : string) (items : list (string * string)) : option string :=
  match items with
  | [] => None
  | (label, alias) :: rest =>
      if String.eqb key label then Some alias else required_alias key rest
  end.

Definition _normalize_key (value : string) : string :=
  PyStr.strip (PyStr.re_sub_run PyStr.isspace " " (PyStr.lower value)).

Definition _split_links (value : string) : list string :=
  if negb (PyStr.truthy value) then []
  else
    let chunks := map PyStr.strip (PyStr.split_on "," value) in
    filter (fun chunk => PyStr.truthy chunk = true) chunks.

(** [sorted] on a list of [str]. *)
Fixpoint insert_sorted (x : string) (l : list string) : list string :=
  match l with
  | [] => [x]
  | y :: l' => if String.leb x y then x :: l else y :: insert_sorted x l'
  end.

Definition sorted (l : list string) : list string :=
  foldr insert_sorted [] l.

(** The loop of [_prepare_header_map] over the raw headers. *)
Definition header_map_of (headers : list string) : gmap string string :=
  foldl (fun hm raw_header =>
           match required_alias (_normalize_key raw_header) REQUIRED_KEYS with
           | Some alias => <[alias := raw_header]> hm
           | None => hm
           end) ∅ headers.

Definition missing_labels (hm : gmap string string) : list string :=
  map fst (filter (fun '(label, alias) => hm !! alias = None) REQUIRED_KEYS).

(** Returns the header map that the method leaves in [self._header_map]. *)
Definition _prepare_header_map (headers : list string) : result (gmap string string) :=
  let hm := header_map_of headers in
  let missing := missing_labels hm in
  match missing with
  | [] => Ok hm
  | _ =>
      let readable := PyStr.join ", " (sorted missing) in
      Raise (ValueError ("Missing expected columns in CSV: " +:+ readable))
  end.

(** A row of [csv.DictReader]: [dict(zip(fieldnames, record))], then
    [None] under every field name the record is too short for. The cells
    beyond the field names go under the key [None], which no header
    names. *)
Definition DictReader_row (fieldnames record : list string) : gmap string (option string) :=
  let d := foldl (fun d '(k, v) => <[k := Some v]> d) ∅ (zip fieldnames record) in
  foldl (fun d k => <[k := None]> d) d (drop (length record) fieldnames).

(** [row.get(header)], the empty text standing in for a missing or empty cell. *)
Definition row_get_or_empty (row : gmap string (option string)) (header : string) : string :=
  match row !! header with
  | Some (Some v) => v
  | _ => EmptyString
  end.

(** [mapped[alias]]. *)
Definition getitem (mapped : gmap string string) (alias : string) : result string :=
  match mapped !! alias with
  | Some v => Ok v
  | None => Raise (KeyError alias)
  end.

Definition _map_row (hm : gmap string string) (row : gmap string (option string))
  : result (option (gmap string string)) :=
  let mapped := (fun header => PyStr.strip (row_get_or_empty row header)) <$> hm in
  let? name := getitem mapped "participant_name" in
  if negb (PyStr.truthy name) then Ok None
  else
    let? theme := getitem mapped "theme" in
    if negb (PyStr.truthy theme) then Ok None else Ok (Some mapped).

(** The inner loop: one photo per link, [sequence] going up by one. *)
Fixpoint append_photos (entry : gmap string string) (submission_index : Z)
    (links : list string) (sequence : Z) (photos : list ParticipantPhoto)
  : result (Z * list ParticipantPhoto) :=
  match links with
  | [] => Ok (sequence, photos)
  | link :: rest =>
      let? name := getitem entry "participant_name" in
      let? theme := getitem entry "theme" in
      let? description := getitem entry "description" in
      let photo := mkParticipantPhoto sequence submission_index name theme
                     description link None None in
      append_photos entry submission_index rest (sequence + 1) (photos ++ [photo])
  end.

(** The loop over [enumerate(reader, start=1)]. *)
Fixpoint read_rows (hm : gmap string string) (rows : list (gmap string (option string)))
    (submission_index sequence : Z) (photos : list ParticipantPhoto)
  : result (list ParticipantPhoto) :=
  match rows with
  | [] => Ok photos
  | row :: rest =>
      let? entry := _map_row hm row in
      match entry with
      | None => read_rows hm rest (submission_index + 1) sequence photos
      | Some entry =>
          let? cell := getitem entry "photo_links" in
          let links := _split_links cell in
          match links with
          | [] => read_rows hm rest (submission_index + 1) sequence photos
          | _ =>
              let? (sequence, photos) :=
                append_photos entry submission_index links sequence photos in
              read_rows hm rest (submission_index + 1) sequence photos
          end
      end
  end.

(** [csv.DictReader] skips the records that are empty lists. *)
Definition DictReader_rows (fieldnames : list string) (records : list (list string))
  : list (gmap string (option string)) :=
  map (DictReader_row fieldnames)
      (filter (fun record => record ≠ []) records).

Definition read_submissions (W : World) (csv_path : string) : result (list ParticipantPhoto) :=
  match csv_records W csv_path with
  | None => Raise (FileNotFoundError ("CSV file not found: " +:+ csv_path))
  | Some records =>
      let fieldnames := match records with [] => [] | header :: _ => header end in
      let? hm := _prepare_header_map fieldnames in
      read_rows hm (DictReader_rows fieldnames (tail records)) 1 1 []
  end.

End CSVSubmissionRepository.

(* ===================================================================== *)
(** * Effects: requests sent, files written, fonts cached, progress *)
(* ===================================================================== *)

(** What PIL has been asked to put on a canvas. *)
Inductive DrawOp :=
| Paste (source : string) (size : Z * Z) (position : Z * Z)
| DrawText (position : Z * Z) (line : string) (font : Font) (fill : string).

(** An image in memory: the template it was opened from and the
    operations applied since, oldest first. *)
Record Canvas := mkCanvas {
  canvas_template : string;
  canvas_ops : list DrawOp }.

Inductive File :=
| Bytes (content : string)
| Png (image : Canvas).

Record State := mkState {
  sent : list Request;
  written : list (string * File);
  font_cache : gmap (string * Z) Font;
  progress : list string }.

Definition initial_state : State := mkState [] [] ∅ [].

(** A computation that reads and changes the state and returns or raises.
    The state reached when an exception is raised is kept. *)
Definition Run (A : Type) : Type := State -> result A * State.

Definition run_ret {A} (a : A) : Run A := fun st => (Ok a, st).
Definition run_raise {A} (e : exn) : Run A := fun st => (Raise e, st).
Definition run_bind {A B} (m : Run A) (k : A -> Run B) : Run B :=
  fun st =>
    match m st with
    | (Ok a, st') => k a st'
    | (Raise e, st') => (Raise e, st')
    end.
Definition run_lift {A} (r : result A) : Run A := fun st => (r, st).

Declare Scope run_scope.
Delimit Scope run_scope with run.
Notation "'let!' x ':=' m 'in' k" := (run_bind m (fun x => k))
  (at level 10, x pattern, m at level 100, k at level 200) : run_scope.
Local Open Scope run_scope.

(** [try: m except <class> as err: handler]; [catches] says which
    exceptions belong to the class. *)
Definition run_try {A} (m : Run A) (catches : exn -> bool) (handler : exn -> Run A) : Run A :=
  fun st =>
    match m st with
    | (Ok a, st') => (Ok a, st')
    | (Raise e, st') => if catches e then handler e st' else (Raise e, st')
    end.

Definition is_PhotoDownloadError (e : exn) : bool :=
  match e with PhotoDownloadError _ => true | _ => false end.

Definition is_ValueError (e : exn) : bool :=
  match e with ValueError _ => true | _ => false end.

(** [except OSError]: [FileNotFoundError] and the exceptions of
    [requests] are subclasses of [OSError]. *)
Definition is_OSError (e : exn) : bool :=
  match e with
  | OSError _ | FileNotFoundError _ | RequestException _ => true
  | _ => false
  end.

(** [session.get(url, params=params, ...)]. *)
Definition session_get_run (W : World) (req : Request) : Run Response :=
  fun st =>
    (session_get W (sent st) req,
     mkState (sent st ++ [req]) (written st) (font_cache st) (progress st)).

(** The state once a file has been written. *)
Definition add_file (path : string) (f : File) (st : State) : State :=
  mkState (sent st) (written st ++ [(path, f)]) (font_cache st) (progress st).

Definition write_file (path : string) (f : File) : Run unit :=
  fun st => (Ok tt, add_file path f st).

(** The state once a message has been given to the progress callback,
    when there is one. *)
Definition add_progress (progress_callback : bool) (message : string) (st : State) : State :=
  if progress_callback
  then mkState (sent st) (written st) (font_cache st) (progress st ++ [message])
  else st.

(** [if progress_callback: progress_callback(message)]. *)
Definition report (progress_callback : bool) (message : string) : Run unit :=
  fun st => (Ok tt, add_progress progress_callback message st).

(* ===================================================================== *)
(** * ImageDownloadService *)
(* ===================================================================== *)

Module ImageDownloadService.

Definition DRIVE_HOST : string := "drive.google.com".

(** [re.search] for a pattern made of a literal, a group [([cls]{min,})]
    and, when [close] is given, one more literal character: group 1 of
    the leftmost match. At a position the group takes the longest run of
    the class; a shorter one cannot be followed by [close] nor reach
    [min] when the longest does not. *)
Definition match_here (lit : string) (cls : ascii -> bool) (min : nat)
    (close : option ascii) (s : string) : option string :=
  if PyStr.startswith lit s then
    let '(group, rest) := PyStr.span cls (PyStr.drop (String.length lit) s) in
    if (min <=? String.length group)%nat then
      match close with
      | None => Some group
      | Some q =>
          match rest with
          | String c _ => if Ascii.eqb c q then Some group else None
          | EmptyString => None
          end
      end
    else None
  else None.

Fixpoint re_search (lit : string) (cls : ascii -> bool) (min : nat)
    (close : option ascii) (s : string) : option string :=
  match match_here lit cls min close s with
  | Some group => Some group
  | None =>
      match s with
      | EmptyString => None
      | String _ s' => re_search lit cls min close s'
      end
  end.

(** The three patterns, each [<literal>([a-zA-Z0-9_-]{10,})]. *)
Definition drive_id_patterns : list string := ["id="; "/d/"; "file/d/"].

Fixpoint first_match (patterns : list string) (url : string) : option string :=
  match patterns with
  | [] => None
  | lit :: rest =>
      match re_search lit PyStr.isidchar 10 None url with
      | Some group => Some group
      | None => first_match rest url
      end
  end.

Definition _extract_drive_id (url : string) : option string :=
  first_match drive_id_patterns url.

Fixpoint _drive_confirm_token (cookies : list (string * string)) : option string :=
  match cookies with
  | [] => None
  | (key, value) :: rest =>
      if PyStr.startswith "download_warning" key then Some value
      else _drive_confirm_token rest
  end.

(** The character of code 34, the double quote. *)
Definition dquote : ascii := ascii_of_nat 34.

(** [stem or 'download'] *)
Definition or_default (s default : string) : string :=
  if PyStr.truthy s then s else default.

Definition _resolve_filename (base : string) (content_disposition : option string) : string :=
  let fallback :=
    let stem := PyStr.re_sub_run (fun c => negb (PyStr.isidchar c)) EmptyString base in
    or_default stem "download" +:+ ".jpg" in
  match content_disposition with
  | Some cd =>
      if PyStr.truthy cd then
        match re_search "filename*=UTF-8''" (fun c => negb (Ascii.eqb c ";")) 1 None cd with
        | Some name => name
        | None =>
            match re_search ("filename=" +:+ String dquote EmptyString)
                    (fun c => negb (Ascii.eqb c dquote)) 1 (Some dquote) cd with
            | Some name => name
            | None => fallback
            end
        end
      else fallback
  | None => fallback
  end.

(** The end of both download paths: [output_dir / filename] is opened
    for writing, which may raise, and the chunks of the body are written
    to it as they arrive; when the stream breaks, the exception leaves
    with the file holding what had arrived. *)
Definition save_body (W : World) (response : Response) (base output_dir : string) : Run string :=
  let filename := _resolve_filename base (resp_disposition response) in
  let target := path_join W output_dir filename in
  let! _ := run_lift (file_open W target) in
  let! _ := write_file target (Bytes (resp_content response)) in
  match resp_break response with
  | Some err => run_raise err
  | None => run_ret target
  end.

Definition _download_generic (W : World) (url output_dir : string) : Run string :=
  let! response := session_get_run W (mkRequest url []) in
  if negb (resp_ok response)
  then run_raise (PhotoDownloadError ("Unable to download image: " +:+ url))
  else save_body W response url output_dir.

Definition download_url : string := "https://drive.google.com/uc?export=download".

Definition _download_from_drive (W : World) (url output_dir : string) : Run string :=
  match _extract_drive_id url with
  | None => run_raise (PhotoDownloadError ("Unable to parse Google Drive id: " +:+ url))
  | Some file_id =>
      if negb (PyStr.truthy file_id)
      then run_raise (PhotoDownloadError ("Unable to parse Google Drive id: " +:+ url))
      else
        let params := [("id", file_id)] in
        let! response := session_get_run W (mkRequest download_url params) in
        let token := _drive_confirm_token (resp_cookies response) in
        let! response :=
          match token with
          | Some token =>
              if PyStr.truthy token
              then session_get_run W (mkRequest download_url (params ++ [("confirm", token)]))
              else run_ret response
          | None => run_ret response
          end in
        if negb (resp_ok response)
        then run_raise (PhotoDownloadError ("Drive download failed for id " +:+ file_id))
        else save_body W response file_id output_dir
  end.

Definition download (W : World) (url output_dir : string) : Run string :=
  if negb (PyStr.truthy url)
  then run_raise (PhotoDownloadError "Empty URL provided")
  else if PyStr.contains DRIVE_HOST url
  then _download_from_drive W url output_dir
  else _download_generic W url output_dir.

End ImageDownloadService.

(* ===================================================================== *)
(** * OrientationDetector, FontProvider, TemplateManager *)
(* ===================================================================== *)

Definition OrientationDetector_detect (W : World) (image_path : string) : result Orientation :=
  let? (width, height) := image_open W image_path in
  Ok (Orientation_from_size width height).

Module FontProvider.

(** [except OSError] gives the default font; any other exception of
    [truetype] leaves [_load]. *)
Definition _load (W : World) (style : TextStyle) : result Font :=
  let font_path := ImageDownloadService.or_default (font_path style) "arial.ttf" in
  match truetype W font_path (font_size style) with
  | Ok _ => Ok (TrueType font_path (font_size style))
  | Raise err => if is_OSError err then Ok DefaultFont else Raise err
  end.

Definition get (W : World) (style : TextStyle) : Run Font :=
  fun st =>
    let key := (ImageDownloadService.or_default (font_path style) "default", font_size style) in
    match font_cache st !! key with
    | Some font => (Ok font, st)
    | None =>
        match _load W style with
        | Ok font =>
            (Ok font,
             mkState (sent st) (written st) (<[key := font]> (font_cache st)) (progress st))
        | Raise err => (Raise err, st)
        end
    end.

End FontProvider.

#[global] Instance Orientation_eq_dec : EqDecision Orientation.
Proof. solve_decision. Defined.

#[global] Instance Orientation_countable : Countable Orientation.
Proof.
  refine (inj_countable'
            (fun o => match o with LANDSCAPE => true | PORTRAIT => false end)
            (fun b : bool => if b then LANDSCAPE else PORTRAIT) _).
  intros []; reflexivity.
Defined.

Module TemplateManager.

Record t := mk {
  _layouts : gmap Orientation TemplateLayout;
  _sources : gmap Orientation (option string) }.

Definition empty : t := mk ∅ ∅.

Definition set_layout (self : t) (layout : TemplateLayout) (source : option string) : t :=
  mk (<[orientation layout := layout]> (_layouts self))
     (<[orientation layout :=
          match source with
          | Some p => if PyStr.truthy p then Some p else None
          | None => None
          end]> (_sources self)).

Definition get_layout (self : t) (o : Orientation) : result TemplateLayout :=
  match _layouts self !! o with
  | Some layout => Ok layout
  | None => Raise (ValueError ("No template configured for " +:+ Orientation_value o))
  end.

(** [self._sources.get(orientation)]: the recorded source, [None] also
    when nothing was recorded. *)
Definition get_source_path (self : t) (o : Orientation) : option string :=
  match _sources self !! o with
  | Some source => source
  | None => None
  end.

End TemplateManager.

(* ===================================================================== *)
(** * TemplateRenderer *)
(* ===================================================================== *)

Module TemplateRenderer.

(** Truth value of a list: non-empty. *)
Definition nonempty {A} (l : list A) : bool :=
  match l with [] => false | _ => true end.

(** The loop of [_wrap_text] over the words, with the variables [lines]
    and [current]. *)
Fixpoint wrap_loop (W : World) (font : Font) (max_width : Z) (words : list string)
    (lines current : list string) : list string * list string :=
  match words with
  | [] => (lines, current)
  | word :: rest =>
      let candidate :=
        if nonempty current then PyStr.join " " (current ++ [word]) else word in
      let '(width, _) := textsize W font candidate in
      if (width <=? max_width) || negb (nonempty current)
      then wrap_loop W font max_width rest lines (current ++ [word])
      else wrap_loop W font max_width rest (lines ++ [PyStr.join " " current]) [word]
  end.

Definition _wrap_text (W : World) (text : string) (font : Font) (max_width : Z) : list string :=
  if negb (PyStr.truthy text) then []
  else
    let words := PyStr.split text in
    if negb (nonempty words) then []
    else
      let '(lines, current) := wrap_loop W font max_width words [] [] in
      if nonempty current then lines ++ [PyStr.join " " current] else lines.

Definition x_position (field : TextField) (line_width : Z) : Z :=
  let x := rect_x (tf_rect field) in
  if String.eqb (align (tf_style field)) "center"
  then x + Z.max ((rect_width (tf_rect field) - line_width) / 2) 0
  else if String.eqb (align (tf_style field)) "right"
  then x + Z.max (rect_width (tf_rect field) - line_width) 0
  else x.

(** The loop of [_draw_text] over the lines, with the variable [y]; the
    calls of [draw.text] are added to [ops]. *)
Fixpoint draw_lines (W : World) (font : Font) (field : TextField) (lines : list string)
    (y : Z) (ops : list DrawOp) : result (list DrawOp) :=
  match lines with
  | [] => Ok ops
  | line :: rest =>
      let '(line_width, line_height) := textsize W font line in
      let? _ := draw_text W (x_position field line_width, y) line font
                  (fill (tf_style field)) in
      let ops := ops ++ [DrawText (x_position field line_width, y) line font
                           (fill (tf_style field))] in
      let y := y + line_height + line_spacing (tf_style field) in
      if y >? rect_y (tf_rect field) + rect_height (tf_rect field)
      then Ok ops
      else draw_lines W font field rest y ops
  end.

Definition content_of (W : World) (field : TextField) (text : string) : string :=
  let content := PyStr.strip (tf_prefix field +:+ text) in
  if tf_uppercase field then str_upper W content else content.

Definition _draw_text (W : World) (draw : Canvas) (field : TextField) (text : string) : Run Canvas :=
  let! font := FontProvider.get W (tf_style field) in
  let content := content_of W field text in
  let lines := _wrap_text W content font (rect_width (tf_rect field)) in
  let! ops := run_lift (draw_lines W font field lines (rect_y (tf_rect field))
                          (canvas_ops draw)) in
  run_ret (mkCanvas (canvas_template draw) ops).

(** A [Path] is always true, so [if not source_path] never raises. The
    photo is opened, converted and fitted to the photo area, each of
    which may raise, and then pasted. *)
Definition _paste_photo (W : World) (canvas : Canvas) (area : Rectangle) (source_path : string)
  : result Canvas :=
  let? _ := image_open W source_path in
  let? _ := image_convert W source_path in
  let? _ := image_fit W source_path (rect_width area, rect_height area) in
  Ok (mkCanvas (canvas_template canvas)
        (canvas_ops canvas ++
         [Paste source_path (rect_width area, rect_height area) (rect_x area, rect_y area)])).

Definition render (W : World) (layout : TemplateLayout) (photo : ParticipantPhoto) : Run Canvas :=
  let! _ := run_lift (ensure_template_exists W layout) in
  let! _ := run_lift (image_open W (template_path layout)) in
  let! _ := run_lift (image_convert W (template_path layout)) in
  let template := mkCanvas (template_path layout) [] in
  let! source_path :=
    match local_path photo with
    | Some p => run_ret p
    | None => run_raise (TypeError "expected str, bytes or os.PathLike object, not NoneType")
    end in
  let! template := run_lift (_paste_photo W template (photo_area layout) source_path) in
  let! draw := _draw_text W template (clicked_by layout) (participant_name photo) in
  let! draw := _draw_text W draw (title layout) (theme photo) in
  let! draw := _draw_text W draw (description layout) (photo_description photo) in
  match badge layout with
  | Some badge_field =>
      if PyStr.truthy (badge_format layout) then
        let! badge_text := run_lift (str_format W (badge_format layout) (sequence photo)) in
        _draw_text W draw badge_field badge_text
      else run_ret draw
  | None => run_ret draw
  end.

End TemplateRenderer.

(* ===================================================================== *)
(** * PostGenerationService *)
(* ===================================================================== *)

Module PostGenerationService.

(** The body of the loop of [generate] for one photo; the value is the
    list [results] after it. [continue] leaves the list as it is. *)
Definition process_photo (W : World) (template_manager : TemplateManager.t)
    (output_dir cache_dir : string) (progress_callback : bool)
    (index : Z) (photo : ParticipantPhoto) (results : list string) : Run (list string) :=
  let! _ := report progress_callback
              ("Downloading (" +:+ PyStr.of_Z index +:+ "): " +:+ url photo) in
  let! downloaded :=
    run_try
      (let! local := ImageDownloadService.download W (url photo) cache_dir in
       run_ret (Some local))
      is_PhotoDownloadError
      (fun err =>
         let! _ := report progress_callback ("Download failed: " +:+ exn_str err) in
         run_ret None) in
  match downloaded with
  | None => run_ret results
  | Some local =>
      let! detected := run_lift (OrientationDetector_detect W local) in
      let photo := mkParticipantPhoto (sequence photo) (submission_index photo)
                     (participant_name photo) (theme photo) (photo_description photo)
                     (url photo) (Some local) (Some detected) in
      let! found :=
        run_try
          (let! layout := run_lift (TemplateManager.get_layout template_manager detected) in
           run_ret (Some layout))
          is_ValueError
          (fun err =>
             let! _ := report progress_callback (exn_str err) in
             run_ret None) in
      match found with
      | None => run_ret results
      | Some layout =>
          let! _ := report progress_callback
                      ("Rendering (" +:+ PyStr.of_Z index +:+ ") using "
                       +:+ Orientation_value detected +:+ " template") in
          let! composed := TemplateRenderer.render W layout photo in
          let filename := filename_slug photo +:+ ".png" in
          let output_path := path_join W output_dir filename in
          let! _ := run_lift (file_open W output_path) in
          let! _ := write_file output_path (Png composed) in
          let results := results ++ [output_path] in
          let! _ := report progress_callback ("Saved " +:+ path_name W output_path) in
          run_ret results
      end
  end.

Fixpoint generate_loop (W : World) (template_manager : TemplateManager.t)
    (output_dir cache_dir : string) (progress_callback : bool)
    (photos : list ParticipantPhoto) (index : Z) (results : list string) : Run (list string) :=
  match photos with
  | [] => run_ret results
  | photo :: rest =>
      let! results := process_photo W template_manager output_dir cache_dir
                        progress_callback index photo results in
      generate_loop W template_manager output_dir cache_dir progress_callback
        rest (index + 1) results
  end.

Definition generate (W : World) (template_manager : TemplateManager.t)
    (photos : list ParticipantPhoto) (output_dir cache_dir : string)
    (progress_callback : bool) : Run (list string) :=
  generate_loop W template_manager output_dir cache_dir progress_callback photos 1 [].

End PostGenerationService.

(* ===================================================================== *)
(** * The application: editor geometry and the generation worker *)
(* ===================================================================== *)

Module TemplateEditor.

(** [_normalize_rect]: the corners of a drag put in order, refused when
    the drag is shorter than 5 pixels in one direction. *)
Definition _normalize_rect (x0 y0 x1 y1 : Z) : option (Z * Z * Z * Z) :=
  let left := Z.min x0 x1 in
  let right := Z.max x0 x1 in
  let top := Z.min y0 y1 in
  let bottom := Z.max y0 y1 in
  if (Z.abs (right - left) <? 5) || (Z.abs (bottom - top) <? 5)
  then None
  else Some (left, top, right, bottom).

End TemplateEditor.

Module SnapshotApp.

(** [_on_generation_finished(message)]: the message becomes the status
    and goes to the log, which is the list [progress] of the state. *)
Definition _on_generation_finished (message : string) : Run string :=
  fun st => (Ok message, add_progress true message st).

(** The body of the thread started by [_start_generation], run to its
    end; the value is the final status. [except Exception] catches every
    exception of [exn]. *)
Definition worker (W : World) (template_manager : TemplateManager.t)
    (csv_path output_dir cache_dir : string) : Run string :=
  match CSVSubmissionRepository.read_submissions W csv_path with
  | Raise err => _on_generation_finished ("Failed to parse CSV: " +:+ exn_str err)
  | Ok photos =>
      if negb (TemplateRenderer.nonempty photos)
      then _on_generation_finished "No photos found in CSV"
      else
        let! outcome :=
          run_try
            (let! results := PostGenerationService.generate W template_manager photos
                               output_dir cache_dir true in
             run_ret (Ok results))
            (fun _ => true)
            (fun err => run_ret (Raise err)) in
        match outcome with
        | Raise err => _on_generation_finished ("Generation failed: " +:+ exn_str err)
        | Ok results =>
            _on_generation_finished
              ("Done. Generated " +:+ PyStr.of_Z (Z.of_nat (length results))
               +:+ " posts in " +:+ output_dir)
        end
  end.

(** What [_start_generation] does before it returns: an error dialog, or
    the start of the worker. *)
Inductive Started :=
| ErrorDialog (title message : string)
| WorkerStarted.

Definition _start_generation (template_manager : TemplateManager.t) (csv_path : string)
  : Run Started :=
  if negb (PyStr.truthy csv_path)
  then run_ret (ErrorDialog "Missing CSV" "Select the responses CSV file first.")
  else
    run_try
      (let! _ := run_lift (TemplateManager.get_layout template_manager LANDSCAPE) in
       let! _ := run_lift (TemplateManager.get_layout template_manager PORTRAIT) in
       let! _ := report true "Starting generation..." in
       run_ret WorkerStarted)
      is_ValueError
      (fun err => run_ret (ErrorDialog "Missing Template" (exn_str err))).

(** [orientation.value.title()] *)
Definition Orientation_title (o : Orientation) : string :=
  match o with LANDSCAPE => "Landscape" | PORTRAIT => "Portrait" end.

(** [_load_template_config] for the path chosen in the dialog and the
    dictionary read from that file: the new registry and the message box
    shown, if any. An exception of [from_dict] is not caught. *)
Definition _load_template_config (W : World) (template_manager : TemplateManager.t)
    (o : Orientation) (path : string) (data : pyval)
  : result (TemplateManager.t * option (string * string)) :=
  if negb (PyStr.truthy path) then Ok (template_manager, None)
  else
    let? layout := TemplateLayout_from_dict W data in
    if negb (bool_decide (orientation layout = o))
    then Ok (template_manager,
             Some ("Orientation mismatch",
                   "Selected configuration is for a different orientation."))
    else Ok (TemplateManager.set_layout template_manager layout (Some path),
             Some ("Loaded", Orientation_title o +:+ " template loaded from " +:+ path)).

End SnapshotApp.

(* ===================================================================== *)
(** * Concrete worlds and inputs for the examples *)
(* ===================================================================== *)

Module Examples.

(** [resolve] and [/] of pathlib for plain names in a POSIX file system
    without links, the working directory being /home/user. *)
Definition posix_resolve (s : string) : string :=
  if PyStr.startswith "/" s then s else "/home/user/" +:+ s.

Definition posix_join (dir name : string) : string :=
  if PyStr.startswith "/" name then name else dir +:+ "/" +:+ name.

Definition ok_response : Response :=
  mkResponse true None [] "JFIF" None.

(** A world given by its network, its images and its CSV files: every
    file exists and can be written, an image that opens can be
    converted and fitted, no TrueType face is installed, a text is 10
    wide per character and 12 high, and every text can be drawn. *)
Definition world_of (session : list Request -> Request -> result Response)
    (images : string -> result (Z * Z)) (csv : string -> option (list (list string)))
  : World :=
  mkWorld posix_resolve (fun _ => true) posix_join id
    session
    (fun _ => Ok tt)
    images
    (fun _ => Ok tt)
    (fun _ _ => Ok tt)
    (fun _ _ => Raise (OSError "cannot open resource"))
    (fun _ text => (10 * Z.of_nat (String.length text), 12))
    (fun _ _ _ _ => Ok tt)
    csv
    id
    (fun _ n => Ok (PyStr.format_0d 2 n)).

(** Every request is answered with success and every file opens as a
    4x3 image. *)
Definition demo_world : World :=
  world_of (fun _ _ => Ok ok_response) (fun _ => Ok (4, 3)) (fun _ => None).

(** The world [demo_world] with one CSV file, the same at every path. *)
Definition world_with_csv (records : list (list string)) : World :=
  world_of (fun _ _ => Ok ok_response) (fun _ => Ok (4, 3)) (fun _ => Some records).

Definition records_without_theme : list (list string) :=
  [["Full  Name"; "Description about your photograph"; "Submit your view (Photo Upload)"];
   ["Ann"; "a hill"; "http://example.org/a.jpg"]].

(** Two submissions with links, one without a theme, one blank line
    and one submission whose links cell has no link. *)
Definition records_of_contest : list (list string) :=
  [["Timestamp"; "Full Name"; "Theme  name"; "Description about your photograph";
    "Submit your view (Photo Upload)"];
   ["t1"; " Ann "; "Hills"; "a hill"; "http://example.org/a.jpg, http://example.org/b.jpg"];
   ["t2"; "Bob"; " "; "no theme"; "http://example.org/c.jpg"];
   [];
   ["t3"; "Cid"; "Sea"; "waves"; " , "];
   ["t4"; "Dee"; "Sky"; "clouds"; "http://example.org/d.jpg,"]].


Definition absolute_layout : TemplateLayout :=
  mkTemplateLayout LANDSCAPE "/srv/templates/landscape.png"
    (mkRectangle 0 0 100 100)
    (mkTextField (mkRectangle 0 0 100 40) (mkTextStyle EmptyString 42 "#000000" "left" 6)
       "By " false)
    (mkTextField (mkRectangle 0 50 100 40) (mkTextStyle EmptyString 42 "#000000" "center" 6)
       EmptyString true)
    (mkTextField (mkRectangle 0 100 100 200) (mkTextStyle EmptyString 20 "#333333" "left" 4)
       EmptyString false)
    (Some (mkTextField (mkRectangle 5 5 30 30)
             (mkTextStyle EmptyString 24 "#ffffff" "center" 0) "#" false))
    "{0:02d}".

(** A drive whose first answer is a warning page that fails and sets
    the cookie of the confirm token, and whose later answers succeed. *)
Definition warning_response : Response :=
  mkResponse false None [("NID", "511"); ("download_warning_13058876669334088843", "t0k3n")]
    "<html>" None.

Definition confirm_world : World :=
  world_of
    (fun history _ => match history with [] => Ok warning_response | _ => Ok ok_response end)
    (fun _ => Ok (4, 3)) (fun _ => None).

(** A drive that answers with success and sets the cookie with an
    empty value. *)
Definition empty_token_response : Response :=
  mkResponse true None [("download_warning_13058876669334088843", EmptyString)] "JFIF"
    None.

Definition empty_token_world : World :=
  world_of (fun _ _ => Ok empty_token_response) (fun _ => Ok (4, 3)) (fun _ => None).

Definition drive_url : string := "https://drive.google.com/file/d/0123456789a/view".

(** A world in which what is downloaded into the directory cache does
    not open as an image (a page of HTML, say); other files do. *)
Definition not_an_image (path : string) : exn :=
  OSError ("cannot identify image file '" +:+ posix_resolve path +:+ "'").

Definition html_world : World :=
  world_of (fun _ _ => Ok (mkResponse true None [] "<html>" None))
    (fun p => if PyStr.startswith "cache/" p then Raise (not_an_image p) else Ok (4, 3))
    (fun _ => None).

Definition both_layouts : TemplateManager.t :=
  TemplateManager.set_layout
    (TemplateManager.set_layout TemplateManager.empty absolute_layout None)
    (mkTemplateLayout PORTRAIT "/srv/templates/portrait.png"
       (photo_area absolute_layout) (clicked_by absolute_layout) (title absolute_layout)
       (description absolute_layout) None "{0:02d}")
    None.

Definition no_url : ParticipantPhoto :=
  mkParticipantPhoto 6 1 "Ann" "Hills" "a hill" EmptyString None None.

(** A registry with a portrait layout only, and one whose landscape
    layout is the empty layout of the editor, without a template. *)
Definition portrait_only : TemplateManager.t :=
  TemplateManager.set_layout TemplateManager.empty
    (mkTemplateLayout PORTRAIT "/srv/templates/portrait.png"
       (photo_area absolute_layout) (clicked_by absolute_layout) (title absolute_layout)
       (description absolute_layout) None "{0:02d}")
    None.

Definition without_template : TemplateManager.t :=
  TemplateManager.set_layout TemplateManager.empty (TemplateLayout_empty LANDSCAPE) None.

(** A world without network: every request raises. *)
Definition offline_world : World :=
  world_of (fun _ _ => Raise (RequestException "Connection refused"))
    (fun _ => Ok (4, 3)) (fun _ => Some records_of_contest).





Definition jane : ParticipantPhoto :=
  mkParticipantPhoto 7 1 "Jane O'Brien!!" "Sunset / Hills" "Evening light"
    "http://example.org/a.jpg" None None.

End Examples.

(* ===================================================================== *)
(** * Vocabulary of the properties *)
(* ===================================================================== *)

(** The classes of characters a slug is written in. *)
Definition is_hyphen (c : ascii) : bool := Ascii.eqb c "-".
Definition raw_slug_char (c : ascii) : bool := PyStr.isalnum c || is_hyphen c.
Definition slug_char (c : ascii) : bool :=
  PyStr.islower_ascii c || PyStr.isdigit c || is_hyphen c.
Definition not_alnum (c : ascii) : bool := negb (PyStr.isalnum c).
Definition hyphen_or_space (c : ascii) : bool := Ascii.eqb c "-" || Ascii.eqb c " ".
Definition not_space (c : ascii) : bool := negb (PyStr.isspace c).

(** A word: not empty, no white space in it. *)
Definition is_word (w : string) : Prop :=
  w <> EmptyString /\ PyStr.all_chars not_space w = true.

(** The rendered width of a line. *)
Definition width_of (W : World) (font : Font) (line : string) : Z :=
  fst (textsize W font line).

(** What is asked of the words of one wrapped line: within the width, or
    a single word. *)
Definition fits (W : World) (font : Font) (max_width : Z) (g : list string) : Prop :=
  g <> [] /\ (width_of W font (PyStr.join " " g) <= max_width \/ exists w, g = [w]).




(** ** Columns of a header, in the words of the specification *)

(** A column is present when some header of the file, lower-cased and
    with its white space collapsed, is the label. *)
Definition column_present (label : string) (headers : list string) : bool :=
  existsb (fun h => String.eqb (CSVSubmissionRepository._normalize_key h) label) headers.

(** The required columns that the header lacks, in the order of
    REQUIRED_KEYS. *)
Definition missing_columns (headers : list string) : list string :=
  List.filter (fun label => negb (column_present label headers))
    (map fst CSVSubmissionRepository.REQUIRED_KEYS).

(** ** Entries of a file, in the words of the specification *)

(** The trimmed cell of a row in the column that the header map gives to
    an alias. *)
Definition cell (hm : gmap string string) (row : gmap string (option string))
    (alias : string) : string :=
  match hm !! alias with
  | Some header => PyStr.strip (CSVSubmissionRepository.row_get_or_empty row header)
  | None => EmptyString
  end.

(** The non-empty trimmed pieces between the commas of a links cell. *)
Definition link_tokens (links : string) : list string :=
  List.filter PyStr.truthy (map PyStr.strip (PyStr.split_on "," links)).

(** A row counts when its trimmed name and theme are both non-empty. *)
Definition row_counts (hm : gmap string string) (row : gmap string (option string)) : bool :=
  PyStr.truthy (cell hm row "participant_name") && PyStr.truthy (cell hm row "theme").

(** An entry before it gets its sequence number: row number, name,
    theme, description, link. *)
Definition entry : Type := Z * string * string * string * string.

Definition entry_of (p : ParticipantPhoto) : entry :=
  (submission_index p, participant_name p, theme p, photo_description p, url p).

Definition row_entries (hm : gmap string string) (i : Z)
    (row : gmap string (option string)) : list entry :=
  if row_counts hm row
  then map (fun link => (i, cell hm row "participant_name", cell hm row "theme",
                         cell hm row "description", link))
         (link_tokens (cell hm row "photo_links"))
  else [].

(** The entries of the rows in row order, then link order; the first row
    has the number [i]. *)
Fixpoint expected_entries (hm : gmap string string) (i : Z)
    (rows : list (gmap string (option string))) : list entry :=
  match rows with
  | [] => []
  | row :: rest => row_entries hm i row ++ expected_entries hm (i + 1) rest
  end.

(** The number of links that the rows contribute. *)
Fixpoint total_links (hm : gmap string string) (rows : list (gmap string (option string))) : nat :=
  match rows with
  | [] => 0
  | row :: rest =>
      ((if row_counts hm row then length (link_tokens (cell hm row "photo_links")) else 0)
       + total_links hm rest)%nat
  end.

(** The photos of a list of entries, numbered from [sequence] on. *)
Fixpoint numbered (sequence : Z) (entries : list entry) : list ParticipantPhoto :=
  match entries with
  | [] => []
  | (i, name, theme, description, link) :: rest =>
      mkParticipantPhoto sequence i name theme description link None None
      :: numbered (sequence + 1) rest
  end.


(** The photo after [generate] has recorded the downloaded file and its
    orientation on it. *)
Definition located (photo : ParticipantPhoto) (local : string) (o : Orientation)
  : ParticipantPhoto :=
  mkParticipantPhoto (sequence photo) (submission_index photo) (participant_name photo)
    (theme photo) (photo_description photo) (url photo) (Some local) (Some o).

(** The progress messages of [generate]. *)
Definition msg_downloading (index : Z) (photo : ParticipantPhoto) : string :=
  "Downloading (" +:+ PyStr.of_Z index +:+ "): " +:+ url photo.
Definition msg_rendering (index : Z) (o : Orientation) : string :=
  "Rendering (" +:+ PyStr.of_Z index +:+ ") using " +:+ Orientation_value o +:+ " template".

(** A computation that leaves the progress messages as they are. *)
Definition keeps_progress {A} (m : Run A) : Prop :=
  forall st, progress (snd (m st)) = progress st.

(** ** Vocabulary of the further properties *)

(** The registry after a series of calls of [set_layout], oldest first. *)
Definition register_all (calls : list (TemplateLayout * option string)) : TemplateManager.t :=
  foldl (fun tm call => TemplateManager.set_layout tm (fst call) (snd call))
    TemplateManager.empty calls.

(** The last layout of an orientation among the calls. *)
Fixpoint last_registered (o : Orientation) (calls : list (TemplateLayout * option string))
  : option TemplateLayout :=
  match calls with
  | [] => None
  | call :: rest =>
      match last_registered o rest with
      | Some l => Some l
      | None => if bool_decide (orientation (fst call) = o) then Some (fst call) else None
      end
  end.

(** The key under which [FontProvider] caches the font of a style. *)
Definition font_key (style : TextStyle) : string * Z :=
  (ImageDownloadService.or_default (font_path style) "default", font_size style).

(** [TextStyle()] *)
Definition default_style : TextStyle := mkTextStyle EmptyString 42 "#000000" "left" 6.

(** The text [rest] does not go on with a character of the class. *)
Definition stops_outside (cls : ascii -> bool) (rest : string) : Prop :=
  match rest with
  | EmptyString => True
  | String c _ => cls c = false
  end.

(** The key of a cookie marks the warning of the drive. *)
Definition is_warning (cookie : string * string) : bool :=
  PyStr.startswith "download_warning" (fst cookie).

(** The name that [_resolve_filename] makes of [base] when the header
    gives none. *)
Definition fallback_name (base : string) : string :=
  ImageDownloadService.or_default
    (PyStr.re_sub_run (fun c => negb (PyStr.isidchar c)) EmptyString base) "download"
  +:+ ".jpg".

(** What a download that started in [st] and ended as [out] has left
    behind: at most two requests, none for an empty URL, the font cache
    and the progress messages as they were, and at most one file, none
    without a request; when a path is returned, one file of bytes at
    that path. *)
Definition left_behind (url : string) (st : State) (out : result string * State) : Prop :=
  exists requests files,
    sent (snd out) = sent st ++ requests
    /\ (length requests <= 2)%nat
    /\ (url = EmptyString -> requests = [])
    /\ font_cache (snd out) = font_cache st
    /\ progress (snd out) = progress st
    /\ written (snd out) = written st ++ files
    /\ (length files <= 1)%nat
    /\ (requests = [] -> files = [])
    /\ match fst out with
       | Ok target => exists body, files = [(target, Bytes body)]
       | Raise _ => forall file, In file files -> exists path body, file = (path, Bytes body)
       end.

(** White space occurs in [s] only as single spaces; [after_space] says
    that a space stands just before [s]. *)
Fixpoint single_spaced (after_space : bool) (s : string) : bool :=
  match s with
  | EmptyString => true
  | String c s' =>
      if PyStr.isspace c
      then Ascii.eqb c " " && negb after_space && single_spaced true s'
      else single_spaced false s'
  end.

(** A character that [str.lower] leaves as it is. *)
Definition is_lowered (c : ascii) : bool := Ascii.eqb (PyStr.lower_char c) c.

(** The last header of the file that normalises to a label. *)
Fixpoint last_header (label : string) (headers : list string) : option string :=
  match headers with
  | [] => None
  | h :: rest =>
      match last_header label rest with
      | Some h' => Some h'
      | None =>
          if String.eqb (CSVSubmissionRepository._normalize_key h) label
          then Some h else None
      end
  end.

(** The number that the digits of a text stand for, zeros in front
    allowed. *)
Definition digits_value (s : string) : option Z :=
  option_map Z.of_uint (NilEmpty.uint_of_string s).

(** What every photo that [read_submissions] returns satisfies. *)
Definition fresh_photo (p : ParticipantPhoto) : Prop :=
  participant_name p <> EmptyString
  /\ PyStr.strip (participant_name p) = participant_name p
  /\ theme p <> EmptyString
  /\ PyStr.strip (theme p) = theme p
  /\ PyStr.strip (photo_description p) = photo_description p
  /\ local_path p = None
  /\ photo_orientation p = None.

(** The path under which [generate] saves the post of a photo. *)
Definition output_path_of (W : World) (output_dir : string) (p : ParticipantPhoto) : string :=
  path_join W output_dir (filename_slug p +:+ ".png").


(** The line of the words [g], with the first word of the line after it
    added, is wider than [max_width]. *)
Definition overflows (W : World) (font : Font) (max_width : Z) (g next : list string) : Prop :=
  match next with
  | [] => True
  | w :: _ => max_width < width_of W font (PyStr.join " " (g ++ [w]))
  end.

(** Every line but the last was ended because the next word did not fit. *)
Fixpoint broken_when_full (W : World) (font : Font) (max_width : Z)
    (groups : list (list string)) : Prop :=
  match groups with
  | [] => True
  | g :: rest =>
      match rest with
      | [] => True
      | next :: _ => overflows W font max_width g next
      end /\ broken_when_full W font max_width rest
  end.







(** ** The slug, in the words of the specification *)

(** The maximal runs of letters and digits of a text, in their order. *)
Fixpoint alnum_runs (s : string) : list string :=
  match s with
  | EmptyString => []
  | String c s' =>
      if PyStr.isalnum c then
        match s' with
        | EmptyString => [String c EmptyString]
        | String d _ =>
            if PyStr.isalnum d then
              match alnum_runs s' with
              | [] => [String c EmptyString]
              | run :: runs => String c run :: runs
              end
            else String c EmptyString :: alnum_runs s'
        end
      else alnum_runs s'
  end.

(** The sanitized form of a text: its runs of letters and digits in
    lower case, joined by single hyphens and cut after 60 characters;
    the placeholder when the text has no letter and no digit. *)
Definition slug_of (value : string) : string :=
  match alnum_runs value with
  | [] => "item"
  | runs => PyStr.take 60 (PyStr.join "-" (map PyStr.lower runs))
  end.

(** A run: not empty, letters and digits only. *)
Definition is_run (run : string) : Prop :=
  run <> EmptyString /\ PyStr.all_chars PyStr.isalnum run = true.

(* ===================================================================== *)
(** * Part II. Properties *)
(* ===================================================================== *)

(* ===================================================================== *)
(** * Properties of the string functions *)
(* ===================================================================== *)

#[local] Arguments String.append !s1 s2 : simpl nomatch.

Section StringFacts.

Lemma append_empty_r (s : string) : s +:+ EmptyString = s.
Proof. induction s as [|c s IH]; simpl; [reflexivity | now rewrite IH]. Qed.

Lemma append_assoc (a b c : string) : (a +:+ b) +:+ c = a +:+ (b +:+ c).
Proof. induction a as [|x a IH]; simpl; [reflexivity | now rewrite IH]. Qed.

Lemma length_append (a b : string) :
  String.length (a +:+ b) = (String.length a + String.length b)%nat.
Proof. induction a as [|x a IH]; simpl; [reflexivity | now rewrite IH]. Qed.

Lemma startswith_spec (p s : string) :
  PyStr.startswith p s = true <-> exists post, s = p +:+ post.
Proof.
  revert s; induction p as [|a p IH]; intros s; simpl.
  - split; [intros _; now exists s | reflexivity].
  - destruct s as [|b s].
    + split; [discriminate | intros [post H]; discriminate].
    + rewrite andb_true_iff, Ascii.eqb_eq, IH. split.
      * intros [-> [post ->]]. now exists post.
      * intros [post H]. injection H as -> ->. split; [reflexivity | now exists post].
Qed.

(** [needle in hay] holds exactly when [hay] is some text, then
    [needle], then some text. *)
Lemma contains_spec (needle hay : string) :
  PyStr.contains needle hay = true <-> exists pre post, hay = pre +:+ needle +:+ post.
Proof.
  induction hay as [|c hay IH].
  - simpl. rewrite orb_false_r, startswith_spec. split.
    + intros [post H]. now exists EmptyString, post.
    + intros [pre [post H]]. destruct pre; [now exists post | discriminate].
  - cbn [PyStr.contains]. rewrite orb_true_iff, startswith_spec, IH. split.
    + intros [[post H] | [pre [post H]]].
      * now exists EmptyString, post.
      * exists (String c pre), post. simpl. now rewrite H.
    + intros [[|x pre] [post H]].
      * left. now exists post.
      * right. simpl in H. injection H as -> ->. now exists pre, post.
Qed.

Lemma truthy_false (s : string) : PyStr.truthy s = false <-> s = EmptyString.
Proof. destruct s; simpl; split; congruence. Qed.

Lemma truthy_true (s : string) : PyStr.truthy s = true <-> s <> EmptyString.
Proof. destruct s; simpl; split; congruence. Qed.

End StringFacts.

(* ===================================================================== *)
(** * The download service: which path a URL takes *)
(* ===================================================================== *)

Section DownloadRouting.

Import ImageDownloadService.

(** C10. [download] hands a URL to the drive path exactly when the text
    "drive.google.com" occurs somewhere in it, wherever that is: a URL
    in which it occurs goes to [_download_from_drive], a non-empty URL
    in which it does not occur goes to [_download_generic], and the
    empty URL (in which it cannot occur) is refused. A URL of another
    host that carries the text in its query is therefore taken as a
    drive URL. *)
Theorem download_routes_on_substring (W : World) (url output_dir : string) :
  ((exists pre post, url = pre +:+ DRIVE_HOST +:+ post) ->
     download W url output_dir = _download_from_drive W url output_dir)
  /\ (~ (exists pre post, url = pre +:+ DRIVE_HOST +:+ post) ->
      (url <> EmptyString ->
         download W url output_dir = _download_generic W url output_dir)
      /\ (url = EmptyString ->
            download W url output_dir = run_raise (PhotoDownloadError "Empty URL provided")))
  /\ download W "http://example.org/view?from=drive.google.com" output_dir
     = _download_from_drive W "http://example.org/view?from=drive.google.com" output_dir.
Proof.
  split; [|split].
  - intros Hocc. unfold download.
    assert (Hne : PyStr.truthy url = true).
    { destruct Hocc as [pre [post ->]]. destruct pre; reflexivity. }
    rewrite Hne. simpl.
    apply contains_spec in Hocc. now rewrite Hocc.
  - intros Hno. split.
    + intros Hne. unfold download.
      apply truthy_true in Hne. rewrite Hne. simpl.
      destruct (PyStr.contains DRIVE_HOST url) eqn:Hc; [|reflexivity].
      apply contains_spec in Hc. contradiction.
    + intros ->. reflexivity.
  - reflexivity.
Qed.

Lemma download_routes_on_substring_witness :
  download Examples.demo_world "https://drive.google.com/file/d/0123456789a/view" "cache"
  = _download_from_drive Examples.demo_world
      "https://drive.google.com/file/d/0123456789a/view" "cache".
Proof.
  apply (download_routes_on_substring Examples.demo_world
           "https://drive.google.com/file/d/0123456789a/view" "cache").
  exists "https://", "/file/d/0123456789a/view". reflexivity.
Defined.

End DownloadRouting.

(* ===================================================================== *)
(** * File name slugs *)
(* ===================================================================== *)

Section Slug.

Lemma all_chars_append p a b :
  PyStr.all_chars p (a +:+ b) = PyStr.all_chars p a && PyStr.all_chars p b.
Proof.
  induction a as [|c a IH]; simpl; [reflexivity|].
  now rewrite IH, andb_assoc.
Qed.

Lemma lstrip_suffix p s : exists t, s = t +:+ PyStr.lstrip_with p s.
Proof.
  induction s as [|c s [t IH]]; simpl.
  - now exists EmptyString.
  - destruct (p c).
    + exists (String c t). simpl. now rewrite <- IH.
    + now exists EmptyString.
Qed.

Lemma rstrip_prefix p s : exists t, s = PyStr.rstrip_with p s +:+ t.
Proof.
  induction s as [|c s [t IH]]; simpl.
  - now exists EmptyString.
  - destruct (PyStr.rstrip_with p s) as [|d r] eqn:E.
    + destruct (p c).
      * now exists (String c s).
      * exists s. reflexivity.
    + exists t. simpl. now rewrite IH at 1.
Qed.

Lemma take_prefix n s : s = PyStr.take n s +:+ PyStr.drop n s.
Proof.
  revert s; induction n as [|n IH]; intros [|c s]; simpl; try reflexivity.
  now rewrite <- IH.
Qed.

Lemma length_take n s : (String.length (PyStr.take n s) <= n)%nat.
Proof.
  revert s; induction n as [|n IH]; intros [|c s]; simpl; try lia.
  specialize (IH s). lia.
Qed.

Lemma all_chars_strip_with p q s :
  PyStr.all_chars p s = true -> PyStr.all_chars p (PyStr.strip_with q s) = true.
Proof.
  intros H. unfold PyStr.strip_with.
  destruct (lstrip_suffix q s) as [t Ht].
  destruct (rstrip_prefix q (PyStr.lstrip_with q s)) as [u Hu].
  rewrite Ht, Hu, !all_chars_append, !andb_true_iff in H. tauto.
Qed.

Lemma all_chars_take p n s :
  PyStr.all_chars p s = true -> PyStr.all_chars p (PyStr.take n s) = true.
Proof.
  intros H. rewrite (take_prefix n s), all_chars_append, andb_true_iff in H. tauto.
Qed.

Lemma all_chars_lower p q s :
  (forall c, p c = true -> q (PyStr.lower_char c) = true) ->
  PyStr.all_chars p s = true -> PyStr.all_chars q (PyStr.lower s) = true.
Proof.
  intros Hpq. induction s as [|c s IH]; simpl; [reflexivity|].
  rewrite !andb_true_iff. intros [Hc Hs]. auto.
Qed.

Lemma all_chars_re_sub p cls repl b s :
  PyStr.all_chars p repl = true ->
  (forall c, cls c = false -> p c = true) ->
  PyStr.all_chars p (PyStr.re_sub_run_go cls repl b s) = true.
Proof.
  intros Hr Hk. revert b; induction s as [|c s IH]; intros b; simpl; [reflexivity|].
  destruct (cls c) eqn:Hc.
  - destruct b; [apply IH|]. rewrite all_chars_append, Hr. apply IH.
  - simpl. now rewrite (Hk c Hc), IH.
Qed.

(** Substrings: what does not occur in a text does not occur in a part
    of it. *)
Lemma contains_false_part needle pre mid post :
  PyStr.contains needle (pre +:+ mid +:+ post) = false ->
  PyStr.contains needle mid = false.
Proof.
  intros H. destruct (PyStr.contains needle mid) eqn:E; [|reflexivity].
  apply contains_spec in E as [a [b ->]].
  assert (PyStr.contains needle (pre +:+ (a +:+ needle +:+ b) +:+ post) = true); [|congruence].
  apply contains_spec. exists (pre +:+ a), (b +:+ post).
  now rewrite !append_assoc.
Qed.

Lemma contains_false_strip_with needle q s :
  PyStr.contains needle s = false ->
  PyStr.contains needle (PyStr.strip_with q s) = false.
Proof.
  intros H. unfold PyStr.strip_with.
  destruct (lstrip_suffix q s) as [t Ht].
  destruct (rstrip_prefix q (PyStr.lstrip_with q s)) as [u Hu].
  rewrite Ht, Hu in H. now apply contains_false_part in H.
Qed.

Lemma contains_false_take needle n s :
  PyStr.contains needle s = false -> PyStr.contains needle (PyStr.take n s) = false.
Proof.
  intros H. rewrite (take_prefix n s) in H.
  apply (contains_false_part needle EmptyString _ (PyStr.drop n s)). exact H.
Qed.

Lemma lower_char_hyphen c : Ascii.eqb "-" (PyStr.lower_char c) = Ascii.eqb "-" c.
Proof. destruct c as [[] [] [] [] [] [] [] []]; reflexivity. Qed.

Lemma contains_hyphens_lower s :
  PyStr.contains "--" (PyStr.lower s) = PyStr.contains "--" s.
Proof.
  induction s as [|c s IH]; [reflexivity|].
  cbn [PyStr.lower PyStr.contains]. rewrite IH. f_equal.
  cbn [PyStr.startswith]. rewrite lower_char_hyphen. f_equal.
  destruct s as [|d s]; [reflexivity|].
  cbn [PyStr.lower PyStr.startswith]. now rewrite lower_char_hyphen.
Qed.

Lemma alnum_not_hyphen c : PyStr.isalnum c = true -> Ascii.eqb "-" c = false.
Proof. destruct c as [[] [] [] [] [] [] [] []]; simpl; intros H; try reflexivity; discriminate. Qed.

Lemma startswith_cons a p b s :
  PyStr.startswith (String a p) (String b s) = Ascii.eqb a b && PyStr.startswith p s.
Proof. reflexivity. Qed.

Lemma contains_cons needle c s :
  PyStr.contains needle (String c s)
  = PyStr.startswith needle (String c s) || PyStr.contains needle s.
Proof. reflexivity. Qed.

(** After the substitution no two hyphens are adjacent; inside a run the
    output does not even begin with one. *)
Lemma re_sub_no_double b s :
  PyStr.contains "--" (PyStr.re_sub_run_go not_alnum "-" b s) = false
  /\ (b = true -> PyStr.startswith "-" (PyStr.re_sub_run_go not_alnum "-" b s) = false).
Proof.
  revert b; induction s as [|c s IH]; intros b.
  - split; [reflexivity|]. intros ->. reflexivity.
  - cbn [PyStr.re_sub_run_go]. destruct (not_alnum c) eqn:Hn.
    + destruct (IH true) as [IH1 IH2]. destruct b.
      * split; [exact IH1 | exact IH2].
      * split; [|discriminate].
        change ("-" +:+ PyStr.re_sub_run_go not_alnum "-" true s)
          with (String "-" (PyStr.re_sub_run_go not_alnum "-" true s)).
        rewrite contains_cons, IH1, orb_false_r.
        change "--" with (String "-" "-").
        rewrite startswith_cons, (IH2 eq_refl). reflexivity.
    + assert (Hc : Ascii.eqb "-" c = false).
      { apply alnum_not_hyphen. unfold not_alnum in Hn. now apply negb_false_iff in Hn. }
      destruct (IH false) as [IH1 _]. split.
      * change "--" with (String "-" "-").
        rewrite contains_cons, startswith_cons, Hc, IH1. reflexivity.
      * intros _. change "-" with (String "-" EmptyString).
        now rewrite startswith_cons, Hc.
Qed.

(** A text without letters and digits is replaced by nothing or by one
    hyphen. *)
Lemma re_sub_all_class b s :
  PyStr.all_chars not_alnum s = true ->
  PyStr.re_sub_run_go not_alnum "-" b s = EmptyString
  \/ PyStr.re_sub_run_go not_alnum "-" b s = "-".
Proof.
  revert b; induction s as [|c s IH]; intros b H; [now left|].
  simpl in H. apply andb_true_iff in H as [Hc Hs].
  cbn [PyStr.re_sub_run_go]. rewrite Hc.
  assert (Ht : PyStr.re_sub_run_go not_alnum "-" true s = EmptyString).
  { clear IH Hc. induction s as [|d s IHs]; [reflexivity|].
    simpl in Hs. apply andb_true_iff in Hs as [Hd Hs].
    cbn [PyStr.re_sub_run_go]. rewrite Hd. auto. }
  destruct b; [left; exact Ht | right; now rewrite Ht].
Qed.

Lemma lower_nonempty s : PyStr.truthy s = true -> PyStr.truthy (PyStr.take 60 (PyStr.lower s)) = true.
Proof. destruct s; [discriminate | reflexivity]. Qed.

Lemma lower_slug_char c : raw_slug_char c = true -> slug_char (PyStr.lower_char c) = true.
Proof. destruct c as [[] [] [] [] [] [] [] []]; simpl; intros H; try reflexivity; discriminate. Qed.

Lemma of_Z_digits n : 0 <= n -> PyStr.all_chars PyStr.isdigit (PyStr.of_Z n) = true.
Proof.
  intros Hn. unfold PyStr.of_Z.
  destruct n as [|p|p]; [reflexivity| |lia].
  simpl. unfold NilZero.string_of_uint.
  assert (H : forall d, PyStr.all_chars PyStr.isdigit (NilEmpty.string_of_uint d) = true).
  { induction d; simpl; auto. }
  destruct (Pos.to_uint p); try apply H. reflexivity.
Qed.

Lemma all_chars_zeros k : PyStr.all_chars PyStr.isdigit (PyStr.zeros k) = true.
Proof. induction k; simpl; auto. Qed.

Lemma length_zeros k : String.length (PyStr.zeros k) = k.
Proof. induction k; simpl; auto. Qed.

Lemma of_Z_short n : 0 <= n < 1000 -> (1 <= String.length (PyStr.of_Z n) <= 3)%nat.
Proof.
  intros Hn.
  assert (H : forallb (fun k => let l := String.length (PyStr.of_Z (Z.of_nat k)) in
                                (1 <=? l)%nat && (l <=? 3)%nat) (seq 0 1000) = true)
    by (vm_compute; reflexivity).
  rewrite forallb_forall in H. specialize (H (Z.to_nat n)).
  rewrite Z2Nat.id in H by lia.
  assert (Hin : In (Z.to_nat n) (seq 0 1000)) by (apply in_seq; lia).
  apply H in Hin. cbv beta zeta in Hin. apply andb_true_iff in Hin as [H1 H2].
  apply Nat.leb_le in H1, H2. lia.
Qed.

(** The number of a photo that is not negative, written by the format
    [03d]: at least three digits, zeros in front. *)
Lemma format_nonnegative n :
  0 <= n ->
  PyStr.format_0d 3 n = PyStr.zeros (3 - String.length (PyStr.of_Z n)) +:+ PyStr.of_Z n
  /\ PyStr.all_chars PyStr.isdigit (PyStr.format_0d 3 n) = true
  /\ (3 <= String.length (PyStr.format_0d 3 n))%nat
  /\ (n < 1000 -> String.length (PyStr.format_0d 3 n) = 3%nat).
Proof.
  intros Hseq.
  assert (Hfmt : PyStr.format_0d 3 n
                 = PyStr.zeros (3 - String.length (PyStr.of_Z n)) +:+ PyStr.of_Z n).
  { unfold PyStr.format_0d.
    destruct (Z.ltb_spec n 0) as [?|_]; [lia|].
    rewrite Z.abs_eq by lia. reflexivity. }
  split; [exact Hfmt|]. rewrite Hfmt. split; [|split].
  - now rewrite all_chars_append, all_chars_zeros, of_Z_digits.
  - rewrite length_append, length_zeros. lia.
  - intros Hlt. rewrite length_append, length_zeros.
    pose proof (of_Z_short n) as Hs. lia.
Qed.

(** A negative number keeps its sign in front, and the width of three
    counts the sign. *)
Lemma format_negative n :
  n < 0 ->
  PyStr.format_0d 3 n
  = "-" +:+ PyStr.zeros (2 - String.length (PyStr.of_Z (- n))) +:+ PyStr.of_Z (- n).
Proof.
  intros Hn. unfold PyStr.format_0d.
  destruct (Z.ltb_spec n 0) as [_|?]; [|lia].
  rewrite Z.abs_neq by lia. reflexivity.
Qed.

(** The shape of a slug. *)
Lemma slug_shape value :
  (String.length (_slug value) <= 60)%nat
  /\ PyStr.all_chars slug_char (_slug value) = true
  /\ PyStr.contains "--" (_slug value) = false
  /\ _slug value <> EmptyString
  /\ (PyStr.all_chars not_alnum value = true -> _slug value = "item").
Proof.
  unfold _slug.
  fold hyphen_or_space. fold not_alnum.
  set (cleaned := PyStr.strip_with hyphen_or_space
                    (PyStr.re_sub_run not_alnum "-" (PyStr.strip value))).
  assert (Hraw : PyStr.all_chars raw_slug_char cleaned = true).
  { apply all_chars_strip_with, all_chars_re_sub; [reflexivity|].
    intros c Hc. unfold not_alnum in Hc. apply negb_false_iff in Hc.
    unfold raw_slug_char. now rewrite Hc. }
  assert (Hdd : PyStr.contains "--" cleaned = false).
  { apply contains_false_strip_with. apply (re_sub_no_double false). }
  destruct (PyStr.truthy cleaned) eqn:Ht.
  + split; [apply length_take|]. split; [|split; [|split]].
    * apply all_chars_take. apply (all_chars_lower raw_slug_char); [|exact Hraw].
      exact lower_slug_char.
    * apply contains_false_take. now rewrite contains_hyphens_lower.
    * apply truthy_true. now apply lower_nonempty.
    * intros Hall. exfalso.
      assert (Hs : PyStr.all_chars not_alnum (PyStr.strip value) = true)
        by now apply all_chars_strip_with.
      subst cleaned. unfold PyStr.re_sub_run in Ht.
      destruct (re_sub_all_class false _ Hs) as [E|E]; rewrite E in Ht; discriminate.
  + repeat split; try reflexivity; [simpl; lia | discriminate].
Qed.

End Slug.

(* ===================================================================== *)
(** * Word wrap *)
(* ===================================================================== *)

Section WordWrap.

Import TemplateRenderer.

Variable W : World.
Variable font : Font.
Variable max_width : Z.

Let fits := fits W font max_width.

Lemma split_words s : Forall is_word (PyStr.split s).
Proof.
  induction s as [|c s IH]; [constructor|].
  cbn [PyStr.split]. destruct (PyStr.isspace c) eqn:Hc; [exact IH|].
  assert (Hone : is_word (String c EmptyString)).
  { split; [discriminate|]. simpl. unfold not_space. now rewrite Hc. }
  destruct s as [|d s]; [now constructor|].
  destruct (PyStr.isspace d) eqn:Hd; [now constructor|].
  destruct (PyStr.split (String d s)) as [|w ws] eqn:E; [now constructor|].
  inversion IH as [|? ? [Hw1 Hw2] Hws]; subst. constructor; [|exact Hws].
  split; [discriminate|]. simpl. unfold not_space at 1. now rewrite Hc.
Qed.

Lemma split_word_then_space w s :
  is_word w -> PyStr.split (w +:+ String " " s) = w :: PyStr.split s.
Proof.
  intros [Hne Hall]. induction w as [|c w IH]; [congruence|].
  simpl in Hall. apply andb_true_iff in Hall as [Hc Hw].
  unfold not_space in Hc. apply negb_true_iff in Hc.
  change (String c w +:+ String " " s) with (String c (w +:+ String " " s)).
  cbn [PyStr.split]. rewrite Hc.
  destruct w as [|d w].
  - reflexivity.
  - change (String d w +:+ String " " s) with (String d (w +:+ String " " s)) in *.
    assert (Hd : PyStr.isspace d = false).
    { simpl in Hw. apply andb_true_iff in Hw as [Hd _].
      unfold not_space in Hd. now apply negb_true_iff in Hd. }
    cbv iota. rewrite Hd, IH; [reflexivity | discriminate | exact Hw].
Qed.

Lemma split_word w : is_word w -> PyStr.split w = [w].
Proof.
  intros [Hne Hall]. induction w as [|c w IH]; [congruence|].
  simpl in Hall. apply andb_true_iff in Hall as [Hc Hw].
  unfold not_space in Hc. apply negb_true_iff in Hc.
  cbn [PyStr.split]. rewrite Hc.
  destruct w as [|d w]; [reflexivity|].
  assert (Hd : PyStr.isspace d = false).
  { simpl in Hw. apply andb_true_iff in Hw as [Hd _].
    unfold not_space in Hd. now apply negb_true_iff in Hd. }
  cbv iota. rewrite Hd, IH; [reflexivity | discriminate | exact Hw].
Qed.

(** A line made of words splits back into these words. *)
Lemma split_join g :
  Forall is_word g -> PyStr.split (PyStr.join " " g) = g.
Proof.
  induction g as [|w g IH]; intros Hg; [reflexivity|].
  inversion Hg as [|? ? Hw Hrest]; subst.
  destruct g as [|w' g].
  - simpl. now apply split_word.
  - change (PyStr.join " " (w :: w' :: g))
      with (w +:+ String " " (PyStr.join " " (w' :: g))).
    rewrite split_word_then_space by exact Hw. now rewrite IH.
Qed.

Lemma nonempty_true {A} (l : list A) : nonempty l = true <-> l <> [].
Proof. destruct l; simpl; split; congruence. Qed.

(** The loop keeps every finished line and the current one within the
    width unless it is a single word, and loses no word. *)
Lemma wrap_loop_spec words :
  forall groups current,
    Forall fits groups ->
    (current = [] \/ fits current) ->
    exists groups' current',
      wrap_loop W font max_width words (map (PyStr.join " ") groups) current
      = (map (PyStr.join " ") groups', current')
      /\ Forall fits groups'
      /\ (current' = [] \/ fits current')
      /\ concat groups' ++ current' = concat groups ++ current ++ words.
Proof.
  induction words as [|word rest IH]; intros groups current Hg Hc.
  - exists groups, current. simpl. now rewrite app_nil_r.
  - cbn [wrap_loop].
    destruct (textsize W font
                (if nonempty current then PyStr.join " " (current ++ [word]) else word))
      as [width height] eqn:Hsize.
    destruct ((width <=? max_width) || negb (nonempty current)) eqn:Hkeep.
    + destruct (IH groups (current ++ [word]) Hg) as (g' & c' & E & Hg' & Hc' & Hall).
      { right. split; [now destruct current|].
        destruct current as [|w0 cur]; [right; now exists word|].
        left. simpl nonempty in *. cbv iota in Hsize. simpl negb in Hkeep.
        rewrite orb_false_r in Hkeep. apply Z.leb_le in Hkeep.
        unfold width_of. now rewrite Hsize. }
      exists g', c'. rewrite E. repeat split; try assumption.
      rewrite Hall. now rewrite <- !app_assoc.
    + apply orb_false_iff in Hkeep as [_ Hcur]. apply negb_false_iff in Hcur.
      apply nonempty_true in Hcur.
      destruct Hc as [Hc|Hc]; [contradiction|].
      destruct (IH (groups ++ [current]) [word]) as (g' & c' & E & Hg' & Hc' & Hall).
      { apply Forall_app. split; [exact Hg | now constructor]. }
      { right. split; [discriminate | right; now exists word]. }
      exists g', c'. rewrite map_app in E. simpl in E. rewrite E.
      repeat split; try assumption.
      rewrite Hall, concat_app. simpl. now rewrite app_nil_r, <- !app_assoc.
Qed.

(** C6. The lines of [_wrap_text] are groups of whole words of the text,
    joined by one space, in the order of the text and with no word left
    out: splitting the lines again gives the words of the text. Each
    line either has a rendered width within [max_width] or consists of
    a single word. *)
Theorem wrap_text_fits (text : string) :
  exists groups : list (list string),
    _wrap_text W text font max_width = map (PyStr.join " ") groups
    /\ concat groups = PyStr.split text
    /\ Forall is_word (PyStr.split text)
    /\ Forall (fun g => g <> []
                        /\ (fst (textsize W font (PyStr.join " " g)) <= max_width
                            \/ exists w, g = [w])) groups
    /\ concat (map PyStr.split (_wrap_text W text font max_width)) = PyStr.split text
    /\ Forall (fun line => fst (textsize W font line) <= max_width
                           \/ exists w, PyStr.split line = [w])
         (_wrap_text W text font max_width).
Proof.
  assert (Hmain : exists groups : list (list string),
             _wrap_text W text font max_width = map (PyStr.join " ") groups
             /\ concat groups = PyStr.split text /\ Forall fits groups).
  { unfold _wrap_text. destruct (PyStr.truthy text) eqn:Ht; simpl negb; cbv iota.
    2:{ exists []. apply truthy_false in Ht. subst. repeat split; constructor. }
    destruct (nonempty (PyStr.split text)) eqn:Hw; simpl negb; cbv iota.
    2:{ exists []. destruct (PyStr.split text); [|discriminate]. repeat split; constructor. }
    destruct (wrap_loop_spec (PyStr.split text) [] []) as (g' & c' & E & Hg' & Hc' & Hall);
      [constructor | now left |].
    simpl in E, Hall. rewrite E.
    destruct c' as [|w c'].
    - exists g'. simpl. rewrite app_nil_r in Hall. auto.
    - exists (g' ++ [w :: c']). cbn [nonempty]. rewrite map_app. simpl map.
      split; [reflexivity|]. split.
      + rewrite concat_app. simpl. now rewrite app_nil_r.
      + apply Forall_app. split; [exact Hg'|]. constructor; [|constructor].
        destruct Hc' as [Hc'|Hc']; [discriminate | exact Hc']. }
  destruct Hmain as (groups & Elines & Ewords & Hfits).
  pose proof (split_words text) as Hwords.
  assert (Hgw : Forall (Forall is_word) groups).
  { rewrite <- Ewords in Hwords. clear -Hwords.
    induction groups as [|g gs IH]; [constructor|].
    simpl in Hwords. apply Forall_app in Hwords as [H1 H2]. constructor; auto. }
  exists groups. split; [exact Elines|]. split; [exact Ewords|]. split; [exact Hwords|].
  split; [exact Hfits|]. rewrite Elines. split.
  - rewrite <- Ewords. clear -Hgw.
    induction Hgw as [|g gs Hg _ IH]; [reflexivity|].
    simpl. now rewrite split_join, IH.
  - clear -Hfits Hgw. induction Hfits as [|g gs [Hne Hg] _ IH]; [constructor|].
    inversion Hgw as [|? ? Hgw1 Hgw2]; subst.
    constructor; [|apply IH; exact Hgw2].
    destruct Hg as [Hg | [w ->]]; [left; exact Hg|].
    right. exists w. simpl. apply split_word. now inversion Hgw1.
Qed.

End WordWrap.

(* ===================================================================== *)
(** * Drawing the lines of a field *)
(* ===================================================================== *)

Section DrawText.

Import TemplateRenderer.

Variable W : World.



End DrawText.


(* ===================================================================== *)
(** * The header of the CSV file *)
(* ===================================================================== *)

Section CSVHeader.

Import CSVSubmissionRepository.

(** Label and alias determine each other in REQUIRED_KEYS. *)
Lemma required_alias_spec key label alias :
  In (label, alias) REQUIRED_KEYS ->
  (required_alias key REQUIRED_KEYS = Some alias <-> key = label).
Proof.
  intros Hin. unfold REQUIRED_KEYS in *.
  destruct Hin as [H|[H|[H|[H|[]]]]]; inversion H; subst; clear H;
    cbn [required_alias];
    repeat match goal with
           | |- context [String.eqb key ?l] =>
               destruct (String.eqb_spec key l) as [->|?]
           end;
    split; intros E; try reflexivity; try discriminate E; try contradiction;
    try (vm_compute; reflexivity); try (vm_compute in E; discriminate E).
Qed.

Lemma header_map_step (hm : gmap string string) raw alias :
  match required_alias (_normalize_key raw) REQUIRED_KEYS with
  | Some a => <[a := raw]> hm
  | None => hm
  end !! alias = None
  <-> hm !! alias = None
      /\ required_alias (_normalize_key raw) REQUIRED_KEYS <> Some alias.
Proof.
  destruct (required_alias (_normalize_key raw) REQUIRED_KEYS) as [a|].
  - rewrite lookup_insert_None. split; intros [H1 H2]; split; congruence.
  - split; [intros H; split; [exact H | discriminate] | tauto].
Qed.

Lemma header_map_fold headers : forall (hm : gmap string string) alias,
  foldl (fun hm raw_header =>
           match required_alias (_normalize_key raw_header) REQUIRED_KEYS with
           | Some alias => <[alias := raw_header]> hm
           | None => hm
           end) hm headers !! alias = None
  <-> hm !! alias = None
      /\ forall h, In h headers ->
           required_alias (_normalize_key h) REQUIRED_KEYS <> Some alias.
Proof.
  induction headers as [|h headers IH]; intros hm alias; cbn [foldl].
  - split; [intros H; split; [exact H | intros ? []] | tauto].
  - rewrite IH, header_map_step. split.
    + intros [[H1 H2] H3]. split; [exact H1|]. intros h' [<-|Hin]; auto.
    + intros [H1 H2]. repeat split; auto; [apply H2; now left | intros h' Hh'; apply H2; now right].
Qed.

(** An alias has no entry in the header map exactly when its column is
    not present. *)
Lemma header_map_missing headers label alias :
  In (label, alias) REQUIRED_KEYS ->
  (header_map_of headers !! alias = None <-> column_present label headers = false).
Proof.
  intros Hin. unfold header_map_of. rewrite header_map_fold, lookup_empty.
  unfold column_present. split.
  - intros [_ H]. apply not_true_is_false. intros Hex.
    apply existsb_exists in Hex as [h [Hh E]]. apply String.eqb_eq in E.
    apply (H h Hh). now apply (required_alias_spec _ label alias Hin).
  - intros Hno. split; [reflexivity|]. intros h Hh E.
    apply (required_alias_spec _ label alias Hin) in E.
    assert (existsb (fun h => String.eqb (_normalize_key h) label) headers = true); [|congruence].
    apply existsb_exists. exists h. split; [exact Hh | now apply String.eqb_eq].
Qed.

Lemma missing_labels_on keys headers :
  (forall la, In la keys -> In la REQUIRED_KEYS) ->
  map fst (filter (fun '(label, alias) => header_map_of headers !! alias = None) keys)
  = List.filter (fun label => negb (column_present label headers)) (map fst keys).
Proof.
  induction keys as [|[label alias] keys IH]; intros Hsub; [reflexivity|].
  rewrite filter_cons. cbn [map fst List.filter].
  assert (Hla : In (label, alias) REQUIRED_KEYS) by (apply Hsub; now left).
  pose proof (header_map_missing headers label alias Hla) as Hm.
  rewrite <- IH by (intros la Hin; apply Hsub; now right).
  destruct (decide (header_map_of headers !! alias = None)) as [E|E].
  - apply Hm in E. rewrite E. reflexivity.
  - destruct (column_present label headers) eqn:Hp; [reflexivity|].
    exfalso. apply E. now apply Hm.
Qed.

Lemma missing_labels_spec headers :
  missing_labels (header_map_of headers) = missing_columns headers.
Proof. apply missing_labels_on. auto. Qed.

(** C8. When the header of the file lacks a required column, no header
    being the label once lower-cased and with its white space
    collapsed, [read_submissions] raises a [ValueError] whatever the
    data rows are. Its message lists the labels of the missing
    columns, sorted and separated by commas, so each missing label is
    part of the message; no list of photos is returned. *)
Theorem read_submissions_missing_columns (W : World) (csv_path : string)
    (records : list (list string)) :
  csv_records W csv_path = Some records ->
  missing_columns (hd [] records) <> [] ->
  read_submissions W csv_path
  = Raise (ValueError ("Missing expected columns in CSV: "
                       +:+ PyStr.join ", " (sorted (missing_columns (hd [] records)))))
  /\ (forall label, In label (missing_columns (hd [] records)) ->
        PyStr.contains label
          ("Missing expected columns in CSV: "
           +:+ PyStr.join ", " (sorted (missing_columns (hd [] records)))) = true).
Proof.
  intros Hfile Hmiss. split.
  - unfold read_submissions. rewrite Hfile.
    replace (match records with [] => [] | header :: _ => header end)
      with (hd [] records) by now destruct records.
    unfold _prepare_header_map. rewrite missing_labels_spec.
    destruct (missing_columns (hd [] records)); [congruence | reflexivity].
  - clear Hfile. revert Hmiss. set (hs := hd [] records).
    unfold missing_columns, REQUIRED_KEYS. cbn [map fst List.filter].
    destruct (column_present "full name" hs),
             (column_present "theme name" hs),
             (column_present "description about your photograph" hs),
             (column_present "submit your view (photo upload)" hs);
      cbn [negb]; cbv iota; intros Hne label Hin;
      try congruence;
      repeat (destruct Hin as [<-|Hin]; [vm_compute; reflexivity|]);
      destruct Hin.
Qed.

Lemma read_submissions_missing_columns_witness :
  read_submissions (Examples.world_with_csv Examples.records_without_theme) "responses.csv"
  = Raise (ValueError "Missing expected columns in CSV: theme name").
Proof.
  apply (read_submissions_missing_columns
           (Examples.world_with_csv Examples.records_without_theme)
           "responses.csv" Examples.records_without_theme).
  - reflexivity.
  - vm_compute. discriminate.
Defined.

End CSVHeader.

(* ===================================================================== *)
(** * The rows of the CSV file *)
(* ===================================================================== *)

Section CSVRows.

Import CSVSubmissionRepository.

Lemma filter_truthy (l : list string) :
  filter (fun chunk => PyStr.truthy chunk = true) l = List.filter PyStr.truthy l.
Proof.
  induction l as [|x l IH]; [reflexivity|].
  rewrite filter_cons. cbn [List.filter]. rewrite IH.
  destruct (decide (PyStr.truthy x = true)) as [E|E].
  - now rewrite E.
  - now apply not_true_is_false in E as ->.
Qed.

Lemma split_links_tokens (value : string) : _split_links value = link_tokens value.
Proof.
  unfold _split_links, link_tokens. destruct value; [reflexivity|].
  cbn [PyStr.truthy negb]. apply filter_truthy.
Qed.

Lemma link_tokens_nonempty (value : string) :
  Forall (fun link => link <> EmptyString) (link_tokens value).
Proof.
  unfold link_tokens. apply List.Forall_forall. intros x Hin.
  apply filter_In in Hin as [_ Hx]. now apply truthy_true.
Qed.

(** A header map that a successful [_prepare_header_map] returns has
    the four aliases. *)
Lemma prepared_complete headers hm :
  _prepare_header_map headers = Ok hm ->
  hm = header_map_of headers
  /\ missing_columns headers = []
  /\ forall label alias, In (label, alias) REQUIRED_KEYS -> is_Some (hm !! alias).
Proof.
  unfold _prepare_header_map. intros H.
  destruct (missing_labels (header_map_of headers)) eqn:E; [|discriminate].
  injection H as <-. rewrite missing_labels_spec in E.
  split; [reflexivity|]. split; [exact E|].
  intros label alias Hin.
  destruct (header_map_of headers !! alias) eqn:Hl; [now eexists|].
  exfalso. apply (header_map_missing headers label alias Hin) in Hl.
  assert (Hm : In label (missing_columns headers)); [|rewrite E in Hm; exact Hm].
  unfold missing_columns. apply filter_In. split.
  - apply in_map_iff. now exists (label, alias).
  - now rewrite Hl.
Qed.

Section WithHeaderMap.

Variable hm : gmap string string.
Hypothesis Hcomplete :
  forall label alias, In (label, alias) REQUIRED_KEYS -> is_Some (hm !! alias).

Lemma mapped_lookup row label alias :
  In (label, alias) REQUIRED_KEYS ->
  getitem ((fun header => PyStr.strip (row_get_or_empty row header)) <$> hm) alias
  = Ok (cell hm row alias).
Proof.
  intros Hin. destruct (Hcomplete label alias Hin) as [header Hh].
  unfold getitem, cell. now rewrite lookup_fmap, Hh.
Qed.

Lemma map_row_spec row :
  _map_row hm row
  = Ok (if row_counts hm row
        then Some ((fun header => PyStr.strip (row_get_or_empty row header)) <$> hm)
        else None).
Proof.
  unfold _map_row, row_counts.
  rewrite (mapped_lookup row "full name" "participant_name") by (simpl; tauto).
  cbn [rbind].
  destruct (PyStr.truthy (cell hm row "participant_name")); [|reflexivity].
  cbn [negb andb].
  rewrite (mapped_lookup row "theme name" "theme") by (simpl; tauto).
  cbn [rbind].
  now destruct (PyStr.truthy (cell hm row "theme")).
Qed.

Lemma append_photos_spec row i links : forall sequence photos,
  append_photos ((fun header => PyStr.strip (row_get_or_empty row header)) <$> hm)
    i links sequence photos
  = Ok (sequence + Z.of_nat (length links),
        photos ++ numbered sequence
                    (map (fun link => (i, cell hm row "participant_name",
                                       cell hm row "theme",
                                       cell hm row "description", link)) links)).
Proof.
  induction links as [|link links IH]; intros sequence photos.
  - simpl. now rewrite Z.add_0_r, app_nil_r.
  - cbn [append_photos].
    rewrite (mapped_lookup row "full name" "participant_name") by (simpl; tauto).
    rewrite (mapped_lookup row "theme name" "theme") by (simpl; tauto).
    rewrite (mapped_lookup row "description about your photograph" "description")
      by (simpl; tauto).
    cbn [rbind]. rewrite IH. cbn [map numbered length].
    rewrite <- app_assoc. cbn [app]. do 2 f_equal. lia.
Qed.

Lemma numbered_app es1 : forall sequence es2,
  numbered sequence (es1 ++ es2)
  = numbered sequence es1 ++ numbered (sequence + Z.of_nat (length es1)) es2.
Proof.
  induction es1 as [|[[[[i n] t] d] u] es1 IH]; intros sequence es2.
  - simpl. now rewrite Z.add_0_r.
  - cbn [app numbered length]. rewrite IH. do 3 f_equal. lia.
Qed.

Lemma length_expected_entries rows : forall i,
  length (expected_entries hm i rows) = total_links hm rows.
Proof.
  induction rows as [|row rows IH]; intros i; [reflexivity|].
  cbn [expected_entries total_links]. rewrite length_app, IH. f_equal.
  unfold row_entries. destruct (row_counts hm row); [apply length_map | reflexivity].
Qed.

Lemma read_rows_spec rows : forall i sequence photos,
  read_rows hm rows i sequence photos
  = Ok (photos ++ numbered sequence (expected_entries hm i rows)).
Proof.
  induction rows as [|row rows IH]; intros i sequence photos.
  - simpl. now rewrite app_nil_r.
  - cbn [read_rows expected_entries]. rewrite map_row_spec. cbn [rbind].
    unfold row_entries. destruct (row_counts hm row) eqn:Hc.
    2:{ rewrite IH. reflexivity. }
    rewrite (mapped_lookup row "submit your view (photo upload)" "photo_links")
      by (simpl; tauto).
    cbn [rbind]. rewrite split_links_tokens.
    destruct (link_tokens (cell hm row "photo_links")) as [|link links] eqn:Hl.
    { rewrite IH. reflexivity. }
    rewrite append_photos_spec. cbn [rbind]. rewrite IH, <- app_assoc.
    now rewrite numbered_app, length_map.
Qed.

End WithHeaderMap.

Lemma sequence_numbered es : forall s : nat,
  map sequence (numbered (Z.of_nat s) es) = map Z.of_nat (seq s (length es)).
Proof.
  induction es as [|[[[[i n] t] d] u] es IH]; intros s; [reflexivity|].
  cbn [numbered map length seq sequence]. f_equal.
  replace (Z.of_nat s + 1) with (Z.of_nat (S s)) by lia. apply IH.
Qed.

Lemma entry_of_numbered es : forall s, map entry_of (numbered s es) = es.
Proof.
  induction es as [|[[[[i n] t] d] u] es IH]; intros s; [reflexivity|].
  cbn [numbered map]. now rewrite IH.
Qed.

Lemma expected_links_nonempty hm rows : forall i,
  Forall (fun e : entry => snd e <> EmptyString) (expected_entries hm i rows).
Proof.
  induction rows as [|row rows IH]; intros i; [constructor|].
  cbn [expected_entries]. apply Forall_app. split; [|apply IH].
  unfold row_entries. destruct (row_counts hm row); [|constructor].
  apply List.Forall_forall. intros e Hin. apply in_map_iff in Hin as [link [<- Hl]].
  cbn [snd]. pose proof (link_tokens_nonempty (cell hm row "photo_links")) as Hne.
  rewrite List.Forall_forall in Hne. now apply Hne.
Qed.

Lemma numbered_urls es :
  Forall (fun e : entry => snd e <> EmptyString) es ->
  forall s, Forall (fun p => url p <> EmptyString) (numbered s es).
Proof.
  induction 1 as [|[[[[i n] t] d] u] es He _ IH]; intros s; [constructor|].
  cbn [numbered]. constructor; [exact He | apply IH].
Qed.

(** C2. For a file whose header has the four required columns,
    [read_submissions] returns one photo for every non-empty trimmed
    link of every row whose trimmed name and theme are not empty, in
    row order and then in the order of the links of the row. Their
    sequence numbers are 1, 2, ..., L, where L is the total number of
    such links. A row with an empty name, an empty theme or no link
    gives no photo and uses no number. *)
Theorem read_submissions_sequences (W : World) (csv_path : string)
    (records : list (list string)) (hm : gmap string string) :
  csv_records W csv_path = Some records ->
  _prepare_header_map (hd [] records) = Ok hm ->
  exists photos,
    read_submissions W csv_path = Ok photos
    /\ length photos = total_links hm (DictReader_rows (hd [] records) (tail records))
    /\ map sequence photos
       = map Z.of_nat
           (seq 1 (total_links hm (DictReader_rows (hd [] records) (tail records))))
    /\ map entry_of photos
       = expected_entries hm 1 (DictReader_rows (hd [] records) (tail records))
    /\ Forall (fun p => url p <> EmptyString) photos
    /\ (forall i row,
          PyStr.truthy (cell hm row "participant_name") = false
          \/ PyStr.truthy (cell hm row "theme") = false
          \/ link_tokens (cell hm row "photo_links") = [] ->
          row_entries hm i row = []).
Proof.
  intros Hfile Hprep.
  destruct (prepared_complete _ _ Hprep) as (_ & _ & Hcomplete).
  set (rows := DictReader_rows (hd [] records) (tail records)).
  exists (numbered 1 (expected_entries hm 1 rows)).
  assert (Hlen : length (numbered 1 (expected_entries hm 1 rows)) = total_links hm rows).
  { rewrite <- (length_expected_entries hm rows 1).
    rewrite <- (length_map entry_of), entry_of_numbered. reflexivity. }
  split; [|split; [exact Hlen | split; [|split; [|split]]]].
  - unfold read_submissions. rewrite Hfile.
    replace (match records with [] => [] | header :: _ => header end)
      with (hd [] records) by now destruct records.
    rewrite Hprep. cbn [rbind]. fold rows.
    now rewrite (read_rows_spec hm Hcomplete).
  - rewrite (sequence_numbered _ 1), length_expected_entries. reflexivity.
  - apply entry_of_numbered.
  - apply numbered_urls, expected_links_nonempty.
  - intros i row H. unfold row_entries, row_counts.
    destruct H as [-> | [-> | ->]]; [reflexivity | now rewrite andb_false_r |].
    now destruct (_ && _).
Qed.

Lemma read_submissions_sequences_witness :
  exists photos,
    read_submissions (Examples.world_with_csv Examples.records_of_contest) "responses.csv"
    = Ok photos
    /\ map sequence photos = [1; 2; 3]
    /\ map url photos
       = ["http://example.org/a.jpg"; "http://example.org/b.jpg"; "http://example.org/d.jpg"]
    /\ map submission_index photos = [1; 1; 4].
Proof.
  destruct (read_submissions_sequences
              (Examples.world_with_csv Examples.records_of_contest) "responses.csv"
              Examples.records_of_contest
              (header_map_of (hd [] Examples.records_of_contest))
              eq_refl eq_refl) as (photos & Hread & _).
  exists photos. split; [exact Hread|].
  vm_compute in Hread. injection Hread as <-. repeat split.
Defined.

End CSVRows.

(* ===================================================================== *)
(** * Saving and loading a layout *)
(* ===================================================================== *)

Section LayoutRoundTrip.

Lemma Rectangle_round_trip (r : Rectangle) :
  Rectangle_from_dict (Rectangle_to_dict r) = Ok r.
Proof. destruct r. reflexivity. Qed.

Lemma TextStyle_round_trip (t : TextStyle) :
  TextStyle_from_dict (TextStyle_to_dict t) = Ok t.
Proof. destruct t. reflexivity. Qed.

Lemma TextField_round_trip (f : TextField) :
  TextField_from_dict (TextField_to_dict f) = Ok f.
Proof.
  destruct f as [r t pre up]. unfold TextField_from_dict, TextField_to_dict.
  cbn [Py.getitem Py.get Py.assoc String.eqb Ascii.eqb Bool.eqb rbind
       tf_rect tf_style tf_prefix tf_uppercase].
  rewrite Rectangle_round_trip. cbn [rbind]. rewrite TextStyle_round_trip. reflexivity.
Qed.







End LayoutRoundTrip.

(* ===================================================================== *)
(** * The confirm token of the drive *)
(* ===================================================================== *)

Section DriveDownload.

Import ImageDownloadService.

Lemma match_here_min lit cls min close s g :
  match_here lit cls min close s = Some g -> (min <= String.length g)%nat.
Proof.
  unfold match_here. destruct (PyStr.startswith lit s); [|discriminate].
  destruct (PyStr.span cls _) as [group rest].
  destruct (min <=? String.length group)%nat eqn:Hmin; [|discriminate].
  apply Nat.leb_le in Hmin.
  destruct close as [q|].
  - destruct rest as [|c rest]; [discriminate|].
    destruct (Ascii.eqb c q); [|discriminate]. now intros [= <-].
  - now intros [= <-].
Qed.

Lemma re_search_min lit cls min close s g :
  re_search lit cls min close s = Some g -> (min <= String.length g)%nat.
Proof.
  induction s as [|c s IH]; cbn [re_search];
    destruct (match_here lit cls min close _) eqn:E.
  - intros [= <-]. eapply match_here_min, E.
  - discriminate.
  - intros [= <-]. eapply match_here_min, E.
  - exact IH.
Qed.

(** An identifier that is found has ten characters or more. *)
Lemma extract_drive_id_long url file_id :
  _extract_drive_id url = Some file_id -> (10 <= String.length file_id)%nat.
Proof.
  unfold _extract_drive_id, drive_id_patterns. cbn [first_match].
  repeat match goal with
         | |- context [re_search ?l ?c ?m ?q url] =>
             let E := fresh "E" in
             destruct (re_search l c m q url) eqn:E;
             [intros [= <-]; eapply re_search_min, E|]
         end.
  discriminate.
Qed.

(** The token is the value of the first cookie whose key begins with
    download_warning. *)
Lemma drive_confirm_token_first pre key token post :
  Forall (fun kv : string * string => PyStr.startswith "download_warning" (fst kv) = false) pre ->
  PyStr.startswith "download_warning" key = true ->
  _drive_confirm_token (pre ++ (key, token) :: post) = Some token.
Proof.
  intros Hpre Hkey. induction Hpre as [|[k v] pre Hk _ IH].
  - cbn [app _drive_confirm_token]. now rewrite Hkey.
  - cbn [app _drive_confirm_token]. cbn [fst] in Hk. now rewrite Hk.
Qed.

(** The three ways in which the saving of a body ends. *)
Lemma save_body_cases (W : World) (response : Response) (base output_dir : string)
    (st : State) :
  let target := path_join W output_dir (_resolve_filename base (resp_disposition response)) in
  save_body W response base output_dir st
  = match file_open W target with
    | Raise err => (Raise err, st)
    | Ok _ =>
        match resp_break response with
        | Some err => (Raise err, add_file target (Bytes (resp_content response)) st)
        | None => (Ok target, add_file target (Bytes (resp_content response)) st)
        end
    end.
Proof.
  cbv zeta. unfold save_body, run_bind, run_lift, write_file.
  destruct (file_open W _) as [[]|err]; [|reflexivity].
  destruct (resp_break response); reflexivity.
Qed.

(** C5, as the code has it. For a drive URL with an identifier, when
    the first answer carries a cookie whose key begins with
    download_warning and the value of the first such cookie is not
    empty, exactly two requests are sent: the GET of the export
    address with the identifier, then the same GET with the parameter
    confirm set to that value. Whatever the success flag of the first
    answer, the second answer is the final one: when it is successful
    its body is saved, and the download succeeds when the file in the
    output directory can be opened and the body arrives whole (else the
    exception of the opening or of the stream leaves the download, the
    file then holding what had arrived); when it is not successful the
    download fails with a download error. A URL without an identifier
    fails with a download error before any request. *)
Theorem drive_download_confirms (W : World) (url output_dir : string) (st : State)
    (file_id : string) (r1 r2 : Response) (pre post : list (string * string))
    (key token : string) :
  _extract_drive_id url = Some file_id ->
  session_get W (sent st) (mkRequest download_url [("id", file_id)]) = Ok r1 ->
  resp_cookies r1 = pre ++ (key, token) :: post ->
  Forall (fun kv : string * string => PyStr.startswith "download_warning" (fst kv) = false) pre ->
  PyStr.startswith "download_warning" key = true ->
  token <> EmptyString ->
  session_get W (sent st ++ [mkRequest download_url [("id", file_id)]])
    (mkRequest download_url [("id", file_id); ("confirm", token)]) = Ok r2 ->
  let requests := [mkRequest download_url [("id", file_id)];
                   mkRequest download_url [("id", file_id); ("confirm", token)]] in
  let target := path_join W output_dir (_resolve_filename file_id (resp_disposition r2)) in
  let st2 := mkState (sent st ++ requests) (written st) (font_cache st) (progress st) in
  (resp_ok r2 = true ->
     (file_open W target = Ok tt -> resp_break r2 = None ->
        _download_from_drive W url output_dir st
        = (Ok target, add_file target (Bytes (resp_content r2)) st2))
     /\ (forall err, file_open W target = Raise err ->
           _download_from_drive W url output_dir st = (Raise err, st2))
     /\ (forall err, file_open W target = Ok tt -> resp_break r2 = Some err ->
           _download_from_drive W url output_dir st
           = (Raise err, add_file target (Bytes (resp_content r2)) st2)))
  /\ (resp_ok r2 = false ->
        _download_from_drive W url output_dir st
        = (Raise (PhotoDownloadError ("Drive download failed for id " +:+ file_id)), st2))
  /\ (forall other : string,
        _extract_drive_id other = None ->
        _download_from_drive W other output_dir st
        = (Raise (PhotoDownloadError ("Unable to parse Google Drive id: " +:+ other)), st)).
Proof.
  intros Hid Hget1 Hcookies Hpre Hkey Htoken Hget2 requests target st2.
  assert (Hlong := extract_drive_id_long _ _ Hid).
  assert (Hfid : PyStr.truthy file_id = true) by (destruct file_id; [simpl in Hlong; lia | reflexivity]).
  assert (Htok : PyStr.truthy token = true) by now apply truthy_true.
  assert (Hrun : forall k : Response -> Run string,
             run_bind (session_get_run W (mkRequest download_url [("id", file_id)]))
               (fun response =>
                  run_bind
                    match _drive_confirm_token (resp_cookies response) with
                    | Some token =>
                        if PyStr.truthy token
                        then session_get_run W
                               (mkRequest download_url ([("id", file_id)] ++ [("confirm", token)]))
                        else run_ret response
                    | None => run_ret response
                    end k) st
             = k r2 st2).
  { intros k. unfold run_bind, session_get_run. cbn [sent written font_cache progress].
    rewrite Hget1, Hcookies, (drive_confirm_token_first pre key token post Hpre Hkey), Htok.
    cbn [sent written font_cache progress app]. rewrite Hget2.
    subst st2 requests. rewrite <- app_assoc. reflexivity. }
  unfold _download_from_drive.
  split; [|split].
  - intros Hok. rewrite Hid, Hfid. cbn [negb]. rewrite Hrun, Hok. cbn [negb].
    rewrite save_body_cases. fold target.
    split; [|split].
    + intros Hopen Hwhole. now rewrite Hopen, Hwhole.
    + intros err Hopen. now rewrite Hopen.
    + intros err Hopen Hbreak. now rewrite Hopen, Hbreak.
  - intros Hbad. rewrite Hid, Hfid. cbn [negb]. rewrite Hrun, Hbad. reflexivity.
  - intros other Hnone. now rewrite Hnone.
Qed.

Lemma drive_download_confirms_witness :
  _download_from_drive Examples.confirm_world Examples.drive_url "cache" initial_state
  = (Ok "cache/0123456789a.jpg",
     mkState
       [mkRequest download_url [("id", "0123456789a")];
        mkRequest download_url [("id", "0123456789a"); ("confirm", "t0k3n")]]
       [("cache/0123456789a.jpg", Bytes "JFIF")] ∅ []).
Proof.
  refine (proj1 (proj1 (drive_download_confirms Examples.confirm_world Examples.drive_url
                          "cache" initial_state "0123456789a" Examples.warning_response
                          Examples.ok_response [("NID", "511")] []
                          "download_warning_13058876669334088843" "t0k3n"
                          _ _ _ _ _ _ _) _) _ _);
    try reflexivity.
  - repeat constructor.
  - discriminate.
Defined.

(** With a cookie of that name whose value is empty the GET is not
    sent again: one request, and the first answer is final. *)
Lemma drive_empty_token_one_request :
  _extract_drive_id Examples.drive_url = Some "0123456789a"
  /\ session_get Examples.empty_token_world [] (mkRequest download_url [("id", "0123456789a")])
     = Ok Examples.empty_token_response
  /\ resp_cookies Examples.empty_token_response
     = [("download_warning_13058876669334088843", EmptyString)]
  /\ PyStr.startswith "download_warning" "download_warning_13058876669334088843" = true
  /\ _download_from_drive Examples.empty_token_world Examples.drive_url "cache" initial_state
     = (Ok "cache/0123456789a.jpg",
        mkState [mkRequest download_url [("id", "0123456789a")]]
          [("cache/0123456789a.jpg", Bytes "JFIF")] ∅ [])
  /\ length (sent (snd (_download_from_drive Examples.empty_token_world Examples.drive_url
                          "cache" initial_state))) <> 2%nat.
Proof.
  repeat split; try reflexivity. vm_compute. discriminate.
Qed.

End DriveDownload.

(* ===================================================================== *)
(** * The generation of a batch *)
(* ===================================================================== *)

Section Preservation.

Variable W : World.

Lemma keeps_ret {A} (a : A) : keeps_progress (run_ret a).
Proof. intros st. reflexivity. Qed.

Lemma keeps_raise {A} (e : exn) : keeps_progress (@run_raise A e).
Proof. intros st. reflexivity. Qed.

Lemma keeps_lift {A} (r : result A) : keeps_progress (run_lift r).
Proof. intros st. reflexivity. Qed.


Lemma keeps_session_get req : keeps_progress (session_get_run W req).
Proof. intros st. reflexivity. Qed.

Lemma keeps_write_file path f : keeps_progress (write_file path f).
Proof. intros st. reflexivity. Qed.

Lemma keeps_font_get style : keeps_progress (FontProvider.get W style).
Proof.
  intros st. unfold FontProvider.get. destruct (font_cache st !! _); [reflexivity|].
  now destruct (FontProvider._load W style).
Qed.

Create HintDb keeps.
Hint Resolve keeps_ret keeps_raise keeps_lift keeps_session_get keeps_write_file
  keeps_font_get : keeps.





End Preservation.

Section Generate.

Import PostGenerationService.

Variable W : World.
Variable template_manager : TemplateManager.t.
Variables output_dir cache_dir : string.
Variable progress_callback : bool.

Let process := process_photo W template_manager output_dir cache_dir progress_callback.
Let loop := generate_loop W template_manager output_dir cache_dir progress_callback.


(** Any other exception of the download leaves the loop body. *)
Lemma process_download_escape index photo results st e st1 :
  ImageDownloadService.download W (url photo) cache_dir
    (add_progress progress_callback (msg_downloading index photo) st)
  = (Raise e, st1) ->
  is_PhotoDownloadError e = false ->
  process index photo results st = (Raise e, st1).
Proof.
  intros Hd He. unfold process, process_photo, run_bind, run_try, report.
  fold (msg_downloading index photo). rewrite Hd, He. reflexivity.
Qed.

(** An image that does not open at detection leaves the loop body. *)
Lemma process_detect_error index photo results st local st1 e :
  ImageDownloadService.download W (url photo) cache_dir
    (add_progress progress_callback (msg_downloading index photo) st)
  = (Ok local, st1) ->
  OrientationDetector_detect W local = Raise e ->
  process index photo results st = (Raise e, st1).
Proof.
  intros Hd He. unfold process, process_photo, run_bind, run_try, report, run_lift, run_ret.
  fold (msg_downloading index photo). rewrite Hd, He. reflexivity.
Qed.

(** A missing layout is reported and the photo is skipped. *)
Lemma process_no_layout index photo results st local st1 o :
  ImageDownloadService.download W (url photo) cache_dir
    (add_progress progress_callback (msg_downloading index photo) st)
  = (Ok local, st1) ->
  OrientationDetector_detect W local = Ok o ->
  TemplateManager._layouts template_manager !! o = None ->
  process index photo results st
  = (Ok results,
     add_progress progress_callback ("No template configured for " +:+ Orientation_value o) st1).
Proof.
  intros Hd Ho Hl.
  unfold process, process_photo, run_bind, run_try, report, run_lift, run_ret.
  fold (msg_downloading index photo). rewrite Hd, Ho.
  unfold TemplateManager.get_layout. rewrite Hl. reflexivity.
Qed.

(** An exception of the renderer leaves the loop body. *)
Lemma process_render_error index photo results st local st1 o layout e st2 :
  ImageDownloadService.download W (url photo) cache_dir
    (add_progress progress_callback (msg_downloading index photo) st)
  = (Ok local, st1) ->
  OrientationDetector_detect W local = Ok o ->
  TemplateManager.get_layout template_manager o = Ok layout ->
  TemplateRenderer.render W layout (located photo local o)
    (add_progress progress_callback (msg_rendering index o) st1)
  = (Raise e, st2) ->
  process index photo results st = (Raise e, st2).
Proof.
  intros Hd Ho Hl Hr.
  unfold process, process_photo, run_bind, run_try, report, run_lift, run_ret.
  fold (msg_downloading index photo). rewrite Hd, Ho, Hl.
  fold (located photo local o). fold (msg_rendering index o). cbn [is_ValueError].
  rewrite Hr. reflexivity.
Qed.


Lemma loop_app before : forall rest index results st,
  loop (before ++ rest) index results st
  = match loop before index results st with
    | (Ok results', st') => loop rest (index + Z.of_nat (length before)) results' st'
    | (Raise e, st') => (Raise e, st')
    end.
Proof.
  induction before as [|photo before IH]; intros rest index results st.
  - cbn [app length]. unfold loop at 2. cbn [generate_loop]. unfold run_ret.
    now rewrite Z.add_0_r.
  - cbn [app length]. unfold loop. cbn [generate_loop]. unfold run_bind.
    fold process. destruct (process index photo results st) as [[results'|e] st']; [|reflexivity].
    fold loop. rewrite IH. replace (index + 1 + Z.of_nat (length before))
      with (index + Z.of_nat (S (length before))) by lia. reflexivity.
Qed.



(** [generate] catches the download error of [download] and the
    [ValueError] of the layout lookup, and nothing else. When the file
    downloaded for a photo does not open as an image at orientation
    detection, the exception of [Image.open] leaves [generate]: the
    call returns no list of paths, the failure is not given to the
    progress callback, and the photos after it are not processed; the
    photos before it have been processed. An exception of the renderer
    leaves [generate] in the same way. *)
Lemma generate_decode_error_escapes
    (before rest : list ParticipantPhoto) (photo : ParticipantPhoto)
    (st st0 st1 : State) (results : list string) (local : string) :
  generate W template_manager before output_dir cache_dir progress_callback st
  = (Ok results, st0) ->
  ImageDownloadService.download W (url photo) cache_dir
    (add_progress progress_callback
       (msg_downloading (1 + Z.of_nat (length before)) photo) st0)
  = (Ok local, st1) ->
  (forall e, image_open W local = Raise e ->
     generate W template_manager (before ++ photo :: rest) output_dir cache_dir
       progress_callback st
     = (Raise e, st1))
  /\ (forall o layout e st2,
        OrientationDetector_detect W local = Ok o ->
        TemplateManager.get_layout template_manager o = Ok layout ->
        TemplateRenderer.render W layout (located photo local o)
          (add_progress progress_callback
             (msg_rendering (1 + Z.of_nat (length before)) o) st1)
        = (Raise e, st2) ->
        generate W template_manager (before ++ photo :: rest) output_dir cache_dir
          progress_callback st
        = (Raise e, st2)).
Proof.
  intros Hbefore Hd. unfold generate in Hbefore |- *. fold loop in Hbefore |- *. split.
  - intros e Hopen. rewrite loop_app, Hbefore. unfold loop. cbn [generate_loop].
    unfold run_bind. fold process.
    rewrite (process_detect_error _ photo results st0 local st1 e Hd); [reflexivity|].
    unfold OrientationDetector_detect. now rewrite Hopen.
  - intros o layout e st2 Ho Hl Hr. rewrite loop_app, Hbefore. unfold loop.
    cbn [generate_loop]. unfold run_bind. fold process.
    now rewrite (process_render_error _ photo results st0 local st1 o layout e st2 Hd Ho Hl Hr).
Qed.

End Generate.

Section GenerateExamples.

Import PostGenerationService.



Lemma generate_decode_error_escapes_witness :
  fst (generate Examples.html_world Examples.both_layouts
         ([Examples.no_url] ++ Examples.jane :: [Examples.no_url])
         "out" "cache" true initial_state)
  = Raise (Examples.not_an_image "cache/httpexampleorgajpg.jpg").
Proof.
  pose (W := Examples.html_world).
  pose (before := generate W Examples.both_layouts [Examples.no_url] "out" "cache" true
                    initial_state).
  pose (downloaded := ImageDownloadService.download W (url Examples.jane) "cache"
                        (add_progress true (msg_downloading 2 Examples.jane) (snd before))).
  refine (f_equal fst
            (proj1 (generate_decode_error_escapes
                      W Examples.both_layouts "out" "cache" true
                      [Examples.no_url] [Examples.no_url] Examples.jane
                      initial_state (snd before) (snd downloaded) []
                      "cache/httpexampleorgajpg.jpg" _ _) _ _));
    vm_compute; reflexivity.
Defined.

(** C1. A photo whose download is a page of HTML, followed by a photo
    without URL: the download succeeds, the detector cannot open the
    file, and the exception of [Image.open] leaves [generate]. The
    failure is not given to the progress callback, no list of paths is
    returned and the second photo is never reached, whereas the failed
    download of that second photo alone is reported and skipped. *)
Lemma generate_decode_error_not_caught :
  fst (ImageDownloadService.download Examples.html_world (url Examples.jane) "cache"
         (add_progress true (msg_downloading 1 Examples.jane) initial_state))
  = Ok "cache/httpexampleorgajpg.jpg"
  /\ OrientationDetector_detect Examples.html_world "cache/httpexampleorgajpg.jpg"
     = Raise (Examples.not_an_image "cache/httpexampleorgajpg.jpg")
  /\ fst (generate Examples.html_world Examples.both_layouts
            [Examples.jane; Examples.no_url] "out" "cache" true initial_state)
     = Raise (Examples.not_an_image "cache/httpexampleorgajpg.jpg")
  /\ progress (snd (generate Examples.html_world Examples.both_layouts
                      [Examples.jane; Examples.no_url] "out" "cache" true initial_state))
     = ["Downloading (1): http://example.org/a.jpg"]
  /\ generate Examples.html_world Examples.both_layouts [Examples.no_url]
       "out" "cache" true initial_state
     = (Ok [], mkState [] [] ∅ ["Downloading (1): "; "Download failed: Empty URL provided"]).
Proof. repeat split; vm_compute; reflexivity. Qed.

End GenerateExamples.

(* ===================================================================== *)
(** * Part III. Further properties of the code *)
(* ===================================================================== *)

(* ===================================================================== *)
(** * The registry of layouts *)
(* ===================================================================== *)

Section Registry.

Import TemplateManager.

Lemma get_layout_set_eq tm layout source :
  get_layout (set_layout tm layout source) (orientation layout) = Ok layout.
Proof. unfold get_layout, set_layout. cbn [_layouts]. now rewrite lookup_insert_eq. Qed.

Lemma get_layout_set_ne tm layout source o :
  o <> orientation layout ->
  get_layout (set_layout tm layout source) o = get_layout tm o.
Proof.
  intros Hne. unfold get_layout, set_layout. cbn [_layouts].
  now rewrite lookup_insert_ne by congruence.
Qed.

(** X1. A layout that is registered is the one [get_layout] returns for
    its orientation, with the source recorded beside it (no source for
    an empty one); the entry of the other orientation is left as it
    was. *)
Theorem set_layout_then_get (tm : TemplateManager.t) (layout : TemplateLayout)
    (source : option string) (o : Orientation) :
  get_layout (set_layout tm layout source) (orientation layout) = Ok layout
  /\ get_source_path (set_layout tm layout source) (orientation layout)
     = match source with
       | Some p => if PyStr.truthy p then Some p else None
       | None => None
       end
  /\ (o <> orientation layout ->
      get_layout (set_layout tm layout source) o = get_layout tm o
      /\ get_source_path (set_layout tm layout source) o = get_source_path tm o).
Proof.
  split; [apply get_layout_set_eq | split].
  - unfold get_source_path, set_layout. cbn [_sources]. rewrite lookup_insert_eq.
    destruct source as [p|]; [now destruct (PyStr.truthy p) | reflexivity].
  - intros Hne. split; [now apply get_layout_set_ne|].
    unfold get_source_path, set_layout. cbn [_sources].
    now rewrite lookup_insert_ne by congruence.
Qed.

Lemma register_all_snoc calls layout source :
  register_all (calls ++ [(layout, source)])
  = set_layout (register_all calls) layout source.
Proof. unfold register_all. now rewrite foldl_app. Qed.

Lemma last_registered_snoc o calls layout source :
  last_registered o (calls ++ [(layout, source)])
  = if bool_decide (orientation layout = o) then Some layout else last_registered o calls.
Proof.
  induction calls as [|call calls IH]; cbn [app last_registered fst].
  - reflexivity.
  - rewrite IH. destruct (bool_decide (orientation layout = o)); [reflexivity|].
    reflexivity.
Qed.

(** X2. Whatever calls of [set_layout] were made on a new registry,
    [get_layout] returns the layout registered last for the orientation
    asked for, which is a layout of that orientation, and raises the
    [ValueError] "No template configured for ..." when none was
    registered for it. *)
Theorem get_layout_after_calls (calls : list (TemplateLayout * option string))
    (o : Orientation) :
  get_layout (register_all calls) o
  = match last_registered o calls with
    | Some layout => Ok layout
    | None => Raise (ValueError ("No template configured for " +:+ Orientation_value o))
    end
  /\ (forall layout, get_layout (register_all calls) o = Ok layout ->
        orientation layout = o /\ In layout (map fst calls)).
Proof.
  assert (Hget : get_layout (register_all calls) o
                 = match last_registered o calls with
                   | Some layout => Ok layout
                   | None => Raise (ValueError ("No template configured for "
                                                +:+ Orientation_value o))
                   end).
  { induction calls as [|[layout source] calls IH] using rev_ind.
    - unfold register_all, get_layout. cbn. now rewrite lookup_empty.
    - rewrite register_all_snoc, last_registered_snoc.
      destruct (bool_decide_reflect (orientation layout = o)) as [<-|Hne].
      + apply get_layout_set_eq.
      + rewrite <- IH. apply get_layout_set_ne. congruence. }
  split; [exact Hget|].
  intros layout. rewrite Hget. clear Hget.
  induction calls as [|[l0 s0] calls IH]; cbn [last_registered fst map]; [discriminate|].
  destruct (last_registered o calls) as [l|].
  - intros H. destruct (IH H) as [H1 H2]. split; [exact H1 | now right].
  - destruct (bool_decide_reflect (orientation l0 = o)) as [<-|Hne]; [|discriminate].
    intros [= <-]. split; [reflexivity | now left].
Qed.

End Registry.

(* ===================================================================== *)
(** * The font cache *)
(* ===================================================================== *)

Section FontCache.

Variable W : World.

(** X3. Once [FontProvider.get] has returned for a style, every style
    with the same cache key (the font path, "default" standing for the
    empty one, and the size) gets the same font and the state does not
    change any more; so the style whose path is the text "default"
    gets the font loaded for the empty path. On a miss the font is the
    one [_load] gives: the TrueType face, or the default font when
    [truetype] raises an [OSError]. [get] raises only on a miss, and
    only an exception of [truetype] that is not an [OSError]; then
    nothing is cached. It sends no request, writes no file and reports
    nothing. *)
Theorem font_cache_hit (style style' : TextStyle) (st : State) :
  font_key style' = font_key style ->
  let face := ImageDownloadService.or_default (font_path style) "arial.ttf" in
  match FontProvider.get W style st with
  | (Ok font, st1) =>
      FontProvider.get W style' st1 = (Ok font, st1)
      /\ font_cache st1 !! font_key style = Some font
      /\ (font_cache st !! font_key style = None ->
          match truetype W face (font_size style) with
          | Ok _ => font = TrueType face (font_size style)
          | Raise err => font = DefaultFont /\ is_OSError err = true
          end)
      /\ sent st1 = sent st /\ written st1 = written st /\ progress st1 = progress st
  | (Raise err, st1) =>
      st1 = st
      /\ font_cache st !! font_key style = None
      /\ truetype W face (font_size style) = Raise err
      /\ is_OSError err = false
  end.
Proof.
  intros Hkey face. unfold FontProvider.get. fold (font_key style). fold (font_key style').
  rewrite Hkey.
  destruct (font_cache st !! font_key style) as [font|] eqn:Hc.
  - rewrite Hc. repeat split; try reflexivity. discriminate.
  - unfold FontProvider._load. fold face.
    destruct (truetype W face (font_size style)) as [[]|err] eqn:Ht.
    + cbn [font_cache sent written progress]. rewrite lookup_insert_eq. now repeat split.
    + destruct (is_OSError err) eqn:Hos.
      * cbn [font_cache sent written progress]. rewrite lookup_insert_eq. now repeat split.
      * now repeat split.
Qed.

End FontCache.

Lemma font_cache_hit_witness :
  exists font st1,
    FontProvider.get Examples.demo_world (mkTextStyle EmptyString 42 "#000000" "left" 6)
      initial_state = (Ok font, st1)
    /\ FontProvider.get Examples.demo_world (mkTextStyle "default" 42 "#ff0000" "right" 0) st1
       = (Ok font, st1).
Proof.
  pose proof (font_cache_hit Examples.demo_world
                (mkTextStyle EmptyString 42 "#000000" "left" 6)
                (mkTextStyle "default" 42 "#ff0000" "right" 0) initial_state eq_refl) as H.
  cbv zeta in H.
  destruct (FontProvider.get Examples.demo_world
              (mkTextStyle EmptyString 42 "#000000" "left" 6) initial_state)
    as [[font|err] st1] eqn:E.
  - exists font, st1. split; [reflexivity | exact (proj1 H)].
  - vm_compute in E. discriminate E.
Defined.

(* ===================================================================== *)
(** * Geometry: alignment of a line, rectangle of a drag *)
(* ===================================================================== *)

Section Geometry.

Import TemplateRenderer.

(** X4. The horizontal position of a line is never left of the
    rectangle of its field. A line not wider than the rectangle lies
    inside it for every alignment: a right-aligned line ends at the right
    edge, a centred line has a right margin equal to the left one or one
    pixel wider. A line wider than the rectangle starts at the left
    edge whatever the alignment. *)
Theorem aligned_line_in_rectangle (field : TextField) (line_width : Z) :
  let left := rect_x (tf_rect field) in
  let width := rect_width (tf_rect field) in
  let x := x_position field line_width in
  left <= x
  /\ (line_width <= width -> x + line_width <= left + width)
  /\ (line_width <= width -> align (tf_style field) = "right" ->
      x + line_width = left + width)
  /\ (line_width <= width -> align (tf_style field) = "center" ->
      0 <= (left + width - (x + line_width)) - (x - left) <= 1)
  /\ (width <= line_width -> x = left).
Proof.
  cbv zeta. unfold x_position.
  destruct (String.eqb_spec (align (tf_style field)) "center") as [Hc|Hc].
  - pose proof (Z.div_mod (rect_width (tf_rect field) - line_width) 2 ltac:(lia)) as Hd.
    pose proof (Z.mod_pos_bound (rect_width (tf_rect field) - line_width) 2 ltac:(lia)) as Hm.
    repeat split; try lia.
    intros _ Hr. rewrite Hc in Hr. discriminate.
  - destruct (String.eqb_spec (align (tf_style field)) "right") as [Hr|Hr].
    + repeat split; try lia; congruence.
    + repeat split; try lia; intros; congruence.
Qed.

Lemma aligned_line_in_rectangle_witness :
  x_position (title Examples.absolute_layout) 80 + 80 <= 0 + 100.
Proof.
  destruct (aligned_line_in_rectangle (title Examples.absolute_layout) 80) as (_ & H & _).
  apply H. simpl. lia.
Defined.

(** X5. The rectangle of a drag does not depend on the direction of the
    drag. It is refused exactly when the drag is shorter than 5 pixels in
    width or in height; otherwise its corners are in order, it is at
    least 5 pixels wide and high, and it spans the two corners of the
    drag. *)
Theorem normalize_rect_spec (x0 y0 x1 y1 : Z) :
  TemplateEditor._normalize_rect x0 y0 x1 y1 = TemplateEditor._normalize_rect x1 y1 x0 y0
  /\ (TemplateEditor._normalize_rect x0 y0 x1 y1 = None
      <-> Z.abs (x1 - x0) < 5 \/ Z.abs (y1 - y0) < 5)
  /\ (forall left top right bottom,
        TemplateEditor._normalize_rect x0 y0 x1 y1 = Some (left, top, right, bottom) ->
        left + 5 <= right /\ top + 5 <= bottom
        /\ left = Z.min x0 x1 /\ right = Z.max x0 x1
        /\ top = Z.min y0 y1 /\ bottom = Z.max y0 y1).
Proof.
  unfold TemplateEditor._normalize_rect. cbv zeta. split; [|split].
  - now rewrite (Z.min_comm x1 x0), (Z.max_comm x1 x0), (Z.min_comm y1 y0), (Z.max_comm y1 y0).
  - destruct (Z.ltb_spec (Z.abs (Z.max x0 x1 - Z.min x0 x1)) 5);
      destruct (Z.ltb_spec (Z.abs (Z.max y0 y1 - Z.min y0 y1)) 5);
      cbn [orb]; split; intros H'; try reflexivity; try discriminate; lia.
  - intros left top right bottom.
    destruct (Z.ltb_spec (Z.abs (Z.max x0 x1 - Z.min x0 x1)) 5);
      destruct (Z.ltb_spec (Z.abs (Z.max y0 y1 - Z.min y0 y1)) 5);
      cbn [orb]; intros [= <- <- <- <-] || discriminate. lia.
Qed.

End Geometry.

(* ===================================================================== *)
(** * Dictionaries of the parts of a layout *)
(* ===================================================================== *)

Section LayoutParts.

(** X6. A rectangle, a text style and a text field come back equal from
    [from_dict] after [to_dict]. *)
Theorem parts_round_trip (r : Rectangle) (t : TextStyle) (f : TextField) :
  Rectangle_from_dict (Rectangle_to_dict r) = Ok r
  /\ TextStyle_from_dict (TextStyle_to_dict t) = Ok t
  /\ TextField_from_dict (TextField_to_dict f) = Ok f.
Proof.
  split; [apply Rectangle_round_trip | split].
  - apply TextStyle_round_trip.
  - apply TextField_round_trip.
Qed.

(** X7. In the dictionary of a text field only the rectangle is
    required: without the key "rect" [TextField.from_dict] raises
    [KeyError] for it, whatever else the dictionary holds; with a
    rectangle and without the keys "style", "prefix" and "uppercase" the
    field gets the default style, an empty prefix and no upper-casing.
    A style dictionary without any of the five style keys gives the
    default style. *)
Theorem text_field_defaults (items : list (string * pyval)) (r : Rectangle) :
  (Py.assoc "rect" items = None ->
     TextField_from_dict (VDict items) = Raise (KeyError "rect"))
  /\ (Py.assoc "rect" items = Some (Rectangle_to_dict r) ->
      Py.assoc "style" items = None ->
      Py.assoc "prefix" items = None ->
      Py.assoc "uppercase" items = None ->
      TextField_from_dict (VDict items) = Ok (mkTextField r default_style EmptyString false))
  /\ (Py.assoc "font_path" items = None ->
      Py.assoc "font_size" items = None ->
      Py.assoc "fill" items = None ->
      Py.assoc "align" items = None ->
      Py.assoc "line_spacing" items = None ->
      TextStyle_from_dict (VDict items) = Ok default_style).
Proof.
  split; [|split].
  - intros H. unfold TextField_from_dict, Py.getitem. now rewrite H.
  - intros Hr Hs Hp Hu. unfold TextField_from_dict, Py.getitem, Py.get.
    rewrite Hr, Hs, Hp, Hu. cbn [rbind]. rewrite Rectangle_round_trip. reflexivity.
  - intros H1 H2 H3 H4 H5. unfold TextStyle_from_dict, Py.get.
    rewrite H1, H2, H3, H4, H5. reflexivity.
Qed.

Lemma text_field_defaults_witness :
  TextField_from_dict (VDict [("rect", Rectangle_to_dict (mkRectangle 1 2 30 40))])
  = Ok (mkTextField (mkRectangle 1 2 30 40) default_style EmptyString false).
Proof.
  apply (text_field_defaults [("rect", Rectangle_to_dict (mkRectangle 1 2 30 40))]
           (mkRectangle 1 2 30 40)); reflexivity.
Defined.

Lemma Orientation_of_value_cases (v : pyval) :
  (exists o, v = VStr (Orientation_value o) /\ Orientation_of_value v = Ok o)
  \/ Orientation_of_value v = Raise (ValueError "is not a valid Orientation").
Proof.
  destruct v as [| | |s| |]; try (right; reflexivity).
  unfold Orientation_of_value.
  repeat match goal with
         | |- context [match ?x with _ => _ end] =>
             is_var x; destruct x; try (right; reflexivity)
         end.
  - left. now exists LANDSCAPE.
  - left. now exists PORTRAIT.
Qed.

(** X8. [TemplateLayout.from_dict] raises [KeyError] for "orientation"
    when the dictionary has no such key, and [ValueError] when the value
    under it is a text other than "landscape" and "portrait", whatever
    the other entries are. *)
Theorem layout_orientation_errors (W : World) (items : list (string * pyval)) (value : string) :
  (Py.assoc "orientation" items = None ->
     TemplateLayout_from_dict W (VDict items) = Raise (KeyError "orientation"))
  /\ (Py.assoc "orientation" items = Some (VStr value) ->
      value <> "landscape" -> value <> "portrait" ->
      TemplateLayout_from_dict W (VDict items)
      = Raise (ValueError "is not a valid Orientation")).
Proof.
  split.
  - intros H. unfold TemplateLayout_from_dict, Py.get, Py.getitem. rewrite H.
    now destruct (Py.assoc "badge" items).
  - intros H Hl Hp. unfold TemplateLayout_from_dict, Py.get, Py.getitem. rewrite H.
    assert (Ho : Orientation_of_value (VStr value)
                 = Raise (ValueError "is not a valid Orientation")).
    { destruct (Orientation_of_value_cases (VStr value)) as [[o [E _]]|E]; [|exact E].
      injection E as ->. destruct o; simpl in *; congruence. }
    destruct (Py.assoc "badge" items); cbn [rbind]; now rewrite Ho.
Qed.

Lemma layout_orientation_errors_witness :
  TemplateLayout_from_dict Examples.demo_world
    (VDict [("orientation", VStr "square"); ("template_path", VStr "t.png")])
  = Raise (ValueError "is not a valid Orientation").
Proof.
  apply (layout_orientation_errors Examples.demo_world
           [("orientation", VStr "square"); ("template_path", VStr "t.png")] "square");
    [reflexivity | discriminate | discriminate].
Defined.

(** X9. Loading a configuration into the application registers its
    layout, with the path of the file as source, only when the layout is
    for the orientation asked for: then [get_layout] returns it and the
    other orientation is untouched. A configuration for the other
    orientation leaves the registry as it is. *)
Theorem load_template_config_spec (W : World) (tm : TemplateManager.t) (o : Orientation)
    (path : string) (data : pyval) (layout : TemplateLayout) :
  path <> EmptyString ->
  TemplateLayout_from_dict W data = Ok layout ->
  (orientation layout <> o ->
     SnapshotApp._load_template_config W tm o path data
     = Ok (tm, Some ("Orientation mismatch",
                     "Selected configuration is for a different orientation.")))
  /\ (orientation layout = o ->
      exists tm',
        SnapshotApp._load_template_config W tm o path data
        = Ok (tm', Some ("Loaded", SnapshotApp.Orientation_title o
                                   +:+ " template loaded from " +:+ path))
        /\ TemplateManager.get_layout tm' o = Ok layout
        /\ TemplateManager.get_source_path tm' o = Some path
        /\ forall o', o' <> o ->
             TemplateManager.get_layout tm' o' = TemplateManager.get_layout tm o').
Proof.
  intros Hpath Hload. apply truthy_true in Hpath.
  unfold SnapshotApp._load_template_config. rewrite Hpath, Hload. cbn [negb rbind].
  split.
  - intros Hne. now rewrite bool_decide_false.
  - intros <-. rewrite bool_decide_true by reflexivity. cbn [negb].
    eexists. split; [reflexivity|]. split; [apply get_layout_set_eq | split].
    + unfold TemplateManager.get_source_path, TemplateManager.set_layout.
      cbn [TemplateManager._sources]. now rewrite lookup_insert_eq, Hpath.
    + intros o' Hne. now apply get_layout_set_ne.
Qed.

Lemma load_template_config_spec_witness :
  exists tm',
    SnapshotApp._load_template_config Examples.demo_world TemplateManager.empty LANDSCAPE
      "/srv/landscape.json" (TemplateLayout_to_dict Examples.absolute_layout)
    = Ok (tm', Some ("Loaded", "Landscape template loaded from /srv/landscape.json"))
    /\ TemplateManager.get_layout tm' LANDSCAPE = Ok Examples.absolute_layout.
Proof.
  destruct (load_template_config_spec Examples.demo_world TemplateManager.empty LANDSCAPE
              "/srv/landscape.json" (TemplateLayout_to_dict Examples.absolute_layout)
              Examples.absolute_layout) as [_ H].
  - discriminate.
  - vm_compute. reflexivity.
  - destruct (H eq_refl) as (tm' & H1 & H2 & _). exists tm'. split; assumption.
Defined.

End LayoutParts.

(* ===================================================================== *)
(** * Identifiers, cookies and file names of the download service *)
(* ===================================================================== *)

Section DownloadParts.

Import ImageDownloadService.

Lemma span_spec cls s a b :
  PyStr.span cls s = (a, b) ->
  s = a +:+ b /\ PyStr.all_chars cls a = true /\ stops_outside cls b.
Proof.
  revert a b; induction s as [|c s IH]; intros a b; cbn [PyStr.span].
  - intros [= <- <-]. repeat split.
  - destruct (cls c) eqn:Hc.
    + destruct (PyStr.span cls s) as [a' b'] eqn:E. intros [= <- <-].
      destruct (IH a' b' eq_refl) as (-> & Ha & Hb). repeat split; [|exact Hb].
      simpl. now rewrite Hc, Ha.
    + intros [= <- <-]. repeat split. exact Hc.
Qed.

Lemma startswith_drop lit s :
  PyStr.startswith lit s = true -> s = lit +:+ PyStr.drop (String.length lit) s.
Proof.
  revert s; induction lit as [|a lit IH]; intros s; [reflexivity|].
  destruct s as [|b s]; [discriminate|].
  rewrite startswith_cons, andb_true_iff, Ascii.eqb_eq. intros [-> H].
  simpl. now rewrite <- IH.
Qed.

Lemma match_here_spec lit cls min close s g :
  match_here lit cls min close s = Some g ->
  exists rest,
    s = lit +:+ g +:+ rest
    /\ PyStr.all_chars cls g = true
    /\ (min <= String.length g)%nat
    /\ stops_outside cls rest.
Proof.
  intros H. pose proof (match_here_min _ _ _ _ _ _ H) as Hmin.
  unfold match_here in H.
  destruct (PyStr.startswith lit s) eqn:Hs; [|discriminate].
  apply startswith_drop in Hs.
  destruct (PyStr.span cls _) as [group rest] eqn:E.
  apply span_spec in E as (E & Hall & Hstop).
  destruct (min <=? String.length group)%nat; [|discriminate].
  assert (Hg : group = g).
  { destruct close as [q|]; [|congruence].
    destruct rest as [|c rest]; [discriminate|].
    destruct (Ascii.eqb c q); congruence. }
  subst g. exists rest. rewrite <- E. repeat split; assumption.
Qed.

Lemma re_search_spec lit cls min close s g :
  re_search lit cls min close s = Some g ->
  exists pre rest,
    s = pre +:+ lit +:+ g +:+ rest
    /\ PyStr.all_chars cls g = true
    /\ (min <= String.length g)%nat
    /\ stops_outside cls rest.
Proof.
  induction s as [|c s IH]; cbn [re_search];
    destruct (match_here lit cls min close _) eqn:E.
  - intros [= <-]. apply match_here_spec in E as (rest & H). now exists EmptyString, rest.
  - discriminate.
  - intros [= <-]. apply match_here_spec in E as (rest & H). now exists EmptyString, rest.
  - intros H. destruct (IH H) as (pre & rest & -> & H'). now exists (String c pre), rest.
Qed.

(** X10. An identifier that [_extract_drive_id] finds stands in the URL
    right after "id=", "/d/" or "file/d/"; it is made of letters,
    digits, underscores and hyphens, has ten characters or more, and is
    the whole run of such characters at that place. *)
Theorem extract_drive_id_spec (url file_id : string) :
  _extract_drive_id url = Some file_id ->
  exists lit pre rest,
    In lit ["id="; "/d/"; "file/d/"]
    /\ url = pre +:+ lit +:+ file_id +:+ rest
    /\ PyStr.all_chars PyStr.isidchar file_id = true
    /\ (10 <= String.length file_id)%nat
    /\ stops_outside PyStr.isidchar rest.
Proof.
  unfold _extract_drive_id, drive_id_patterns. cbn [first_match].
  destruct (re_search "id=" PyStr.isidchar 10 None url) as [g|] eqn:E1.
  { intros [= <-]. apply re_search_spec in E1 as (pre & rest & H).
    exists "id=", pre, rest. split; [simpl; tauto | exact H]. }
  destruct (re_search "/d/" PyStr.isidchar 10 None url) as [g|] eqn:E2.
  { intros [= <-]. apply re_search_spec in E2 as (pre & rest & H).
    exists "/d/", pre, rest. split; [simpl; tauto | exact H]. }
  destruct (re_search "file/d/" PyStr.isidchar 10 None url) as [g|] eqn:E3; [|discriminate].
  intros [= <-]. apply re_search_spec in E3 as (pre & rest & H).
  exists "file/d/", pre, rest. split; [simpl; tauto | exact H].
Qed.

Lemma extract_drive_id_spec_witness :
  exists lit pre rest,
    In lit ["id="; "/d/"; "file/d/"]
    /\ Examples.drive_url = pre +:+ lit +:+ "0123456789a" +:+ rest
    /\ PyStr.all_chars PyStr.isidchar "0123456789a" = true
    /\ (10 <= String.length "0123456789a")%nat
    /\ stops_outside PyStr.isidchar rest.
Proof.
  apply (extract_drive_id_spec Examples.drive_url "0123456789a"). reflexivity.
Defined.

Lemma re_search_none lit cls min close s :
  re_search lit cls min close s = None <->
  forall k, match_here lit cls min close (PyStr.drop k s) = None.
Proof.
  induction s as [|c s IH]; cbn [re_search].
  - destruct (match_here lit cls min close EmptyString) eqn:E; split.
    + discriminate.
    + intros H. specialize (H 0%nat). simpl in H. congruence.
    + intros _ [|k]; exact E.
    + reflexivity.
  - destruct (match_here lit cls min close (String c s)) eqn:E; split.
    + discriminate.
    + intros H. specialize (H 0%nat). simpl in H. congruence.
    + intros H [|k]; [exact E|]. simpl. now apply IH.
    + intros H. apply IH. intros k. exact (H (S k)).
Qed.

Lemma drop_drop k n s : PyStr.drop k (PyStr.drop n s) = PyStr.drop (n + k) s.
Proof.
  revert s; induction n as [|n IH]; intros s; [reflexivity|].
  destruct s as [|c s]; [now destruct k | apply IH].
Qed.

Lemma match_file_d_then_d cls min s g :
  match_here "file/d/" cls min None s = Some g ->
  match_here "/d/" cls min None (PyStr.drop 4 s) = Some g.
Proof.
  unfold match_here. destruct (PyStr.startswith "file/d/" s) eqn:Hs; [|discriminate].
  apply startswith_spec in Hs as [post ->]. intros H. exact H.
Qed.

(** X11. The third pattern of [_extract_drive_id] never decides: where
    "file/d/" and an identifier stand, "/d/" and the same identifier
    stand too, so the first two patterns alone give the same result for
    every URL. *)
Theorem extract_drive_id_two_patterns (url : string) :
  _extract_drive_id url = first_match ["id="; "/d/"] url.
Proof.
  unfold _extract_drive_id, drive_id_patterns. cbn [first_match].
  destruct (re_search "id=" PyStr.isidchar 10 None url); [reflexivity|].
  destruct (re_search "/d/" PyStr.isidchar 10 None url) eqn:E2; [reflexivity|].
  assert (E3 : re_search "file/d/" PyStr.isidchar 10 None url = None); [|now rewrite E3].
  apply re_search_none. intros k.
  destruct (match_here "file/d/" PyStr.isidchar 10 None (PyStr.drop k url)) as [g|] eqn:E;
    [|reflexivity].
  apply match_file_d_then_d in E. rewrite drop_drop in E.
  rewrite (proj1 (re_search_none _ _ _ _ _) E2) in E. discriminate.
Qed.

Lemma confirm_token_none cookies :
  _drive_confirm_token cookies = None <-> Forall (fun c => is_warning c = false) cookies.
Proof.
  induction cookies as [|[key value] cookies IH]; cbn [_drive_confirm_token].
  - split; [constructor | reflexivity].
  - unfold is_warning at 1. cbn [fst].
    destruct (PyStr.startswith "download_warning" key) eqn:Hk; split.
    + discriminate.
    + intros H. inversion H as [|? ? Hc _]; subst. unfold is_warning in Hc. cbn [fst] in Hc. congruence.
    + intros H. constructor; [unfold is_warning; cbn [fst]; exact Hk | now apply IH].
    + intros H. inversion H; subst. now apply IH.
Qed.

(** X12. For a drive URL with an identifier, when no cookie of the first
    answer has a key that begins with download_warning, one request is
    sent and the first answer is final. When it is not successful a
    download error is raised and nothing is written. When it is
    successful the file in the output directory is opened: if that
    raises, the exception leaves with nothing written; else the body is
    written, and the path is returned when the body has arrived whole,
    while the exception of a broken stream leaves with the file holding
    what had arrived. *)
Theorem drive_download_without_warning (W : World) (url output_dir : string) (st : State)
    (file_id : string) (r1 : Response) :
  _extract_drive_id url = Some file_id ->
  session_get W (sent st) (mkRequest download_url [("id", file_id)]) = Ok r1 ->
  Forall (fun c => is_warning c = false) (resp_cookies r1) ->
  let st1 := mkState (sent st ++ [mkRequest download_url [("id", file_id)]])
               (written st) (font_cache st) (progress st) in
  let target := path_join W output_dir (_resolve_filename file_id (resp_disposition r1)) in
  _download_from_drive W url output_dir st
  = if resp_ok r1
    then match file_open W target with
         | Raise err => (Raise err, st1)
         | Ok _ =>
             match resp_break r1 with
             | Some err => (Raise err, add_file target (Bytes (resp_content r1)) st1)
             | None => (Ok target, add_file target (Bytes (resp_content r1)) st1)
             end
         end
    else (Raise (PhotoDownloadError ("Drive download failed for id " +:+ file_id)), st1).
Proof.
  intros Hid Hget Hnone st1 target.
  assert (Hlong := extract_drive_id_long _ _ Hid).
  assert (Hfid : PyStr.truthy file_id = true)
    by (destruct file_id; [simpl in Hlong; lia | reflexivity]).
  apply confirm_token_none in Hnone.
  unfold _download_from_drive. rewrite Hid, Hfid. cbn [negb].
  unfold run_bind at 1. unfold session_get_run at 1. rewrite Hget, Hnone.
  unfold run_bind at 1. unfold run_ret at 1.
  destruct (resp_ok r1); [|reflexivity]. cbn [negb].
  now rewrite save_body_cases.
Qed.

Lemma drive_download_without_warning_witness :
  _download_from_drive Examples.demo_world Examples.drive_url "cache" initial_state
  = (Ok "cache/0123456789a.jpg",
     mkState [mkRequest download_url [("id", "0123456789a")]]
       [("cache/0123456789a.jpg", Bytes "JFIF")] ∅ []).
Proof.
  apply (drive_download_without_warning Examples.demo_world Examples.drive_url "cache"
           initial_state "0123456789a" Examples.ok_response); [reflexivity | reflexivity |].
  constructor.
Defined.

(** Closes the goals on what a download that wrote no file has left
    behind. *)
Ltac effects_done requests :=
  unfold left_behind; exists requests, (@nil (string * File));
  cbn [negb fst snd sent written font_cache progress];
  unfold run_raise;
  cbn [negb fst snd sent written font_cache progress length];
  rewrite <- ?app_assoc, ?app_nil_r;
  (split; [reflexivity|]); (split; [simpl; lia|]); (split; [try discriminate; reflexivity|]);
  (split; [reflexivity|]); (split; [reflexivity|]); (split; [reflexivity|]);
  (split; [lia|]); (split; [reflexivity|]); intros ? [].

(** What the saving of a body leaves behind, after the requests. *)
Lemma save_body_left (W : World) (url : string) (st0 st : State) (requests : list Request)
    (response : Response) (base output_dir : string) :
  url <> EmptyString -> requests <> [] -> (length requests <= 2)%nat ->
  sent st = sent st0 ++ requests -> written st = written st0 ->
  font_cache st = font_cache st0 -> progress st = progress st0 ->
  left_behind url st0 (save_body W response base output_dir st).
Proof.
  intros Hurl Hreq Hlen Hs Hw Hf Hp. rewrite save_body_cases.
  set (target := path_join W output_dir _).
  destruct (file_open W target) as [[]|err].
  - exists requests, [(target, Bytes (resp_content response))].
    assert (Hlast : match resp_break response with
                    | Some err => forall file, In file [(target, Bytes (resp_content response))] ->
                                    exists path body, file = (path, Bytes body)
                    | None => exists body, [(target, Bytes (resp_content response))]
                                           = [(target, Bytes body)]
                    end).
    { destruct (resp_break response).
      - intros file [<-|[]]. now eexists _, _.
      - now eexists. }
    destruct (resp_break response) as [err|];
      cbn [fst snd add_file sent written font_cache progress length];
      rewrite Hw;
      (split; [exact Hs|]); (split; [exact Hlen|]); (split; [congruence|]);
      (split; [exact Hf|]); (split; [exact Hp|]); (split; [reflexivity|]);
      (split; [lia|]); (split; [congruence|]); exact Hlast.
  - exists requests, []. cbn [fst snd length]. rewrite app_nil_r.
    split; [exact Hs|]. split; [exact Hlen|]. split; [congruence|].
    split; [exact Hf|]. split; [exact Hp|]. split; [exact Hw|].
    split; [lia|]. split; [reflexivity|]. intros ? [].
Qed.

Lemma generic_effects (W : World) c url output_dir st :
  left_behind (String c url) st (_download_generic W (String c url) output_dir st).
Proof.
  unfold _download_generic, run_bind, session_get_run.
  destruct (session_get W (sent st) (mkRequest (String c url) [])) as [r|e];
    [|effects_done [mkRequest (String c url) []]].
  destruct (resp_ok r); cbn [negb]; [|effects_done [mkRequest (String c url) []]].
  apply (save_body_left W _ st _ [mkRequest (String c url) []]);
    try reflexivity; try discriminate. simpl; lia.
Qed.

Lemma drive_effects (W : World) c url output_dir st :
  left_behind (String c url) st (_download_from_drive W (String c url) output_dir st).
Proof.
  unfold _download_from_drive.
  destruct (_extract_drive_id (String c url)) as [file_id|];
    [|effects_done (@nil Request)].
  destruct (PyStr.truthy file_id); cbn [negb]; [|effects_done (@nil Request)].
  unfold run_bind at 1. unfold session_get_run at 1.
  destruct (session_get W (sent st) (mkRequest download_url [("id", file_id)])) as [r1|e];
    [|effects_done [mkRequest download_url [("id", file_id)]]].
  assert (Hone : left_behind (String c url) st
                   ((if negb (resp_ok r1)
                     then run_raise
                            (PhotoDownloadError ("Drive download failed for id " +:+ file_id))
                     else save_body W r1 file_id output_dir)
                      (mkState (sent st ++ [mkRequest download_url [("id", file_id)]])
                         (written st) (font_cache st) (progress st)))).
  { destruct (resp_ok r1); cbn [negb];
      [|effects_done [mkRequest download_url [("id", file_id)]]].
    apply (save_body_left W _ st _ [mkRequest download_url [("id", file_id)]]);
      try reflexivity; try discriminate. simpl; lia. }
  destruct (_drive_confirm_token (resp_cookies r1)) as [token|].
  - destruct (PyStr.truthy token).
    + unfold run_bind at 1. unfold session_get_run at 1.
      cbn [sent written font_cache progress].
      destruct (session_get W _ _) as [r2|e];
        [|effects_done [mkRequest download_url [("id", file_id)];
                        mkRequest download_url ([("id", file_id)] ++ [("confirm", token)])]].
      destruct (resp_ok r2); cbn [negb];
        [|effects_done [mkRequest download_url [("id", file_id)];
                        mkRequest download_url ([("id", file_id)] ++ [("confirm", token)])]].
      apply (save_body_left W _ st _
               [mkRequest download_url [("id", file_id)];
                mkRequest download_url ([("id", file_id)] ++ [("confirm", token)])]);
        try reflexivity; try discriminate.
      cbn [sent]. now rewrite <- app_assoc.
    + unfold run_bind at 1. unfold run_ret at 1. exact Hone.
  - unfold run_bind at 1. unfold run_ret at 1. exact Hone.
Qed.

Lemma download_left_behind (W : World) url output_dir st :
  left_behind url st (download W url output_dir st).
Proof.
  unfold download. destruct url as [|c url'].
  - cbn [PyStr.truthy negb]. effects_done (@nil Request).
  - cbn [PyStr.truthy negb].
    destruct (PyStr.contains DRIVE_HOST (String c url'));
      [apply drive_effects | apply generic_effects].
Qed.

(** X13. Whatever the answers of the network and of the file system,
    one call of [download] sends at most two requests and none for the
    empty URL, leaves the font cache and the progress messages alone,
    and writes at most one file, of bytes, and none when it has sent no
    request. When it returns a path, it has written exactly one file,
    at that path. *)
Theorem download_effects (W : World) (url output_dir : string) (st : State) :
  exists requests files,
    sent (snd (download W url output_dir st)) = sent st ++ requests
    /\ (length requests <= 2)%nat
    /\ (url = EmptyString -> requests = [])
    /\ font_cache (snd (download W url output_dir st)) = font_cache st
    /\ progress (snd (download W url output_dir st)) = progress st
    /\ written (snd (download W url output_dir st)) = written st ++ files
    /\ (length files <= 1)%nat
    /\ (requests = [] -> files = [])
    /\ match fst (download W url output_dir st) with
       | Ok target => exists body, files = [(target, Bytes body)]
       | Raise _ => forall file, In file files -> exists path body, file = (path, Bytes body)
       end.
Proof. exact (download_left_behind W url output_dir st). Qed.

Lemma all_chars_impl (p q : ascii -> bool) s :
  (forall c, p c = true -> q c = true) ->
  PyStr.all_chars p s = true -> PyStr.all_chars q s = true.
Proof.
  intros Hpq. induction s as [|c s IH]; [reflexivity|].
  simpl. rewrite !andb_true_iff. intros [Hc Hs]. auto.
Qed.

Lemma char_not_contains (c : ascii) s :
  PyStr.all_chars (fun x => negb (Ascii.eqb x c)) s = true ->
  PyStr.contains (String c EmptyString) s = false.
Proof.
  induction s as [|a s IH]; [reflexivity|].
  cbn [PyStr.all_chars]. rewrite andb_true_iff. intros [Ha Hs].
  rewrite contains_cons, startswith_cons, (IH Hs), orb_false_r.
  apply negb_true_iff in Ha. rewrite Ascii.eqb_sym, Ha. reflexivity.
Qed.

(** X14. The file name that [_resolve_filename] gives is never empty. It
    is either a piece of the Content-Disposition header, or the fallback:
    the characters of the base that are letters, digits, underscores or
    hyphens ("download" when there are none), followed by ".jpg";
    without a header, or with an empty one, it is the fallback, which
    holds no path separator. *)
Theorem resolve_filename_spec (base : string) (content_disposition : option string) :
  _resolve_filename base content_disposition <> EmptyString
  /\ (_resolve_filename base content_disposition = fallback_name base
      \/ exists cd pre post,
           content_disposition = Some cd
           /\ cd = pre +:+ _resolve_filename base content_disposition +:+ post)
  /\ (content_disposition = None \/ content_disposition = Some EmptyString ->
      _resolve_filename base content_disposition = fallback_name base)
  /\ (exists stem,
        fallback_name base = stem +:+ ".jpg"
        /\ stem <> EmptyString
        /\ PyStr.all_chars PyStr.isidchar stem = true
        /\ PyStr.contains "/" (fallback_name base) = false).
Proof.
  assert (Hfb : exists stem,
             fallback_name base = stem +:+ ".jpg" /\ stem <> EmptyString
             /\ PyStr.all_chars PyStr.isidchar stem = true
             /\ PyStr.contains "/" (fallback_name base) = false).
  { unfold fallback_name.
    set (raw := PyStr.re_sub_run (fun c => negb (PyStr.isidchar c)) EmptyString base).
    assert (Hraw : PyStr.all_chars PyStr.isidchar raw = true).
    { apply all_chars_re_sub; [reflexivity|]. intros c Hc. now apply negb_false_iff in Hc. }
    exists (or_default raw "download").
    assert (Hstem : or_default raw "download" <> EmptyString
                    /\ PyStr.all_chars PyStr.isidchar (or_default raw "download") = true).
    { unfold or_default. destruct raw; [split; [discriminate | reflexivity]|].
      split; [discriminate | exact Hraw]. }
    destruct Hstem as [Hne Hall]. repeat split; try assumption.
    assert (Hno : PyStr.all_chars (fun c => negb (Ascii.eqb c "/"))
                    (or_default raw "download" +:+ ".jpg") = true).
    { rewrite all_chars_append. apply andb_true_iff. split; [|reflexivity].
      eapply all_chars_impl; [|exact Hall].
      intros c. destruct c as [[] [] [] [] [] [] [] []]; simpl; intros H;
        try reflexivity; discriminate. }
    now apply (char_not_contains "/"). }
  assert (Hfbne : fallback_name base <> EmptyString).
  { destruct Hfb as (stem & -> & Hne & _). now destruct stem. }
  assert (Hnone : _resolve_filename base None = fallback_name base) by reflexivity.
  assert (Hemp : _resolve_filename base (Some EmptyString) = fallback_name base) by reflexivity.
  split; [|split; [|split]].
  - unfold _resolve_filename. fold (fallback_name base).
    destruct content_disposition as [cd|]; [|exact Hfbne].
    destruct (PyStr.truthy cd); [|exact Hfbne].
    destruct (re_search "filename*=UTF-8''" _ 1 None cd) as [name|] eqn:E1.
    { apply re_search_min in E1. destruct name; [simpl in E1; lia | discriminate]. }
    destruct (re_search _ _ 1 (Some dquote) cd) as [name|] eqn:E2; [|exact Hfbne].
    apply re_search_min in E2. destruct name; [simpl in E2; lia | discriminate].
  - unfold _resolve_filename. fold (fallback_name base).
    destruct content_disposition as [cd|]; [|now left].
    destruct (PyStr.truthy cd); [|now left].
    destruct (re_search "filename*=UTF-8''" _ 1 None cd) as [name|] eqn:E1.
    { right. apply re_search_spec in E1 as (pre & rest & -> & _).
      exists (pre +:+ "filename*=UTF-8''" +:+ name +:+ rest), (pre +:+ "filename*=UTF-8''"), rest.
      split; [reflexivity|]. now rewrite !append_assoc. }
    destruct (re_search _ _ 1 (Some dquote) cd) as [name|] eqn:E2; [|now left].
    right. apply re_search_spec in E2 as (pre & rest & -> & _).
    eexists _, (pre +:+ ("filename=" +:+ String dquote EmptyString)), rest.
    split; [reflexivity|]. now rewrite !append_assoc.
  - intros [-> | ->]; assumption.
  - exact Hfb.
Qed.

End DownloadParts.

(* ===================================================================== *)
(** * Trimming, links and header keys *)
(* ===================================================================== *)

Section Trimming.

Import CSVSubmissionRepository.

Lemma lstrip_stops p s : stops_outside p (PyStr.lstrip_with p s).
Proof.
  induction s as [|c s IH]; [exact I|].
  cbn [PyStr.lstrip_with]. destruct (p c) eqn:Hc; [exact IH | exact Hc].
Qed.

Lemma lstrip_fixed p s : stops_outside p s -> PyStr.lstrip_with p s = s.
Proof. destruct s as [|c s]; [reflexivity|]. simpl. now intros ->. Qed.

Lemma rstrip_idem p s :
  PyStr.rstrip_with p (PyStr.rstrip_with p s) = PyStr.rstrip_with p s.
Proof.
  induction s as [|c s IH]; [reflexivity|].
  cbn [PyStr.rstrip_with].
  destruct (PyStr.rstrip_with p s) as [|d r] eqn:E.
  - destruct (p c) eqn:Hc; [reflexivity|]. cbn [PyStr.rstrip_with]. now rewrite Hc.
  - cbn [PyStr.rstrip_with] in *. now rewrite IH.
Qed.

Lemma rstrip_stops p s : stops_outside p s -> stops_outside p (PyStr.rstrip_with p s).
Proof.
  destruct s as [|c s]; [exact (fun H => H)|].
  cbn [stops_outside PyStr.rstrip_with]. intros Hc.
  destruct (PyStr.rstrip_with p s); [now rewrite Hc | exact Hc].
Qed.

(** Trimming twice is trimming once. *)
Lemma strip_with_idem p s :
  PyStr.strip_with p (PyStr.strip_with p s) = PyStr.strip_with p s.
Proof.
  unfold PyStr.strip_with.
  rewrite (lstrip_fixed p (PyStr.rstrip_with p (PyStr.lstrip_with p s)))
    by apply rstrip_stops, lstrip_stops.
  apply rstrip_idem.
Qed.

Lemma lstrip_all p s : PyStr.all_chars p s = true -> PyStr.lstrip_with p s = EmptyString.
Proof.
  induction s as [|c s IH]; [reflexivity|].
  simpl. rewrite andb_true_iff. intros [-> Hs]. auto.
Qed.

Lemma split_on_all p sep s :
  PyStr.all_chars p s = true ->
  Forall (fun w => PyStr.all_chars p w = true) (PyStr.split_on sep s).
Proof.
  induction s as [|c s IH]; intros H.
  - repeat constructor.
  - simpl in H. apply andb_true_iff in H as [Hc Hs]. specialize (IH Hs).
    cbn [PyStr.split_on]. destruct (Ascii.eqb c sep).
    + constructor; [reflexivity | exact IH].
    + destruct (PyStr.split_on sep s) as [|w ws]; [repeat constructor; simpl; now rewrite Hc|].
      inversion IH; subst. constructor; [simpl; now rewrite Hc | assumption].
Qed.

Lemma split_on_no_sep sep s :
  Forall (fun w => PyStr.all_chars (fun x => negb (Ascii.eqb x sep)) w = true)
    (PyStr.split_on sep s).
Proof.
  induction s as [|c s IH]; [repeat constructor|].
  cbn [PyStr.split_on]. destruct (Ascii.eqb c sep) eqn:Hc.
  - constructor; [reflexivity | exact IH].
  - destruct (PyStr.split_on sep s) as [|w ws]; [repeat constructor; simpl; now rewrite Hc|].
    inversion IH; subst. constructor; [|assumption].
    simpl. rewrite Hc. assumption.
Qed.

Lemma all_chars_both (p q r : ascii -> bool) s :
  (forall c, p c = true -> q c = true -> r c = true) ->
  PyStr.all_chars p s = true -> PyStr.all_chars q s = true -> PyStr.all_chars r s = true.
Proof.
  intros H. induction s as [|c s IH]; [reflexivity|].
  simpl. rewrite !andb_true_iff. intros [Hp Hps] [Hq Hqs]. auto.
Qed.

Lemma or_not_right (a b : bool) : a || b = true -> negb b = true -> a = true.
Proof. destruct a, b; simpl; congruence. Qed.

(** X15. Every link that [_split_links] returns is not empty, has no
    white space at its ends and holds no comma. A cell made of white
    space and commas only gives no link at all. *)
Theorem split_links_tokens_clean (value : string) :
  Forall (fun link => link <> EmptyString
                      /\ PyStr.strip link = link
                      /\ PyStr.contains "," link = false)
    (_split_links value)
  /\ (PyStr.all_chars (fun c => PyStr.isspace c || Ascii.eqb c ",") value = true ->
      _split_links value = []).
Proof.
  rewrite split_links_tokens. unfold link_tokens. split.
  - apply List.Forall_forall. intros link Hin.
    apply filter_In in Hin as [Hin Hne]. apply truthy_true in Hne.
    apply in_map_iff in Hin as [piece [<- Hpiece]].
    split; [exact Hne|]. split; [apply strip_with_idem|].
    apply (char_not_contains ","), all_chars_strip_with.
    pose proof (split_on_no_sep "," value) as Hall.
    rewrite List.Forall_forall in Hall. now apply Hall.
  - intros Hall.
    pose proof (split_on_all _ "," value Hall) as Hp.
    pose proof (split_on_no_sep "," value) as Hn.
    induction Hp as [|w ws Hw _ IH]; [reflexivity|].
    inversion Hn as [|? ? Hw' Hn']; subst.
    cbn [map List.filter].
    assert (Hs : PyStr.strip w = EmptyString).
    { unfold PyStr.strip, PyStr.strip_with. rewrite lstrip_all; [reflexivity|].
      apply (all_chars_both _ _ _ w (fun c Hc Hc' => or_not_right _ _ Hc Hc') Hw Hw'). }
    rewrite Hs. apply IH. exact Hn'.
Qed.

Lemma lower_char_idem c : PyStr.lower_char (PyStr.lower_char c) = PyStr.lower_char c.
Proof. destruct c as [[] [] [] [] [] [] [] []]; reflexivity. Qed.

Lemma lower_idem s : PyStr.lower (PyStr.lower s) = PyStr.lower s.
Proof. induction s as [|c s IH]; simpl; [reflexivity | now rewrite lower_char_idem, IH]. Qed.

Lemma lower_is_lowered s : PyStr.all_chars is_lowered (PyStr.lower s) = true.
Proof.
  induction s as [|c s IH]; [reflexivity|].
  simpl. rewrite IH, andb_true_r. unfold is_lowered. rewrite lower_char_idem.
  apply Ascii.eqb_refl.
Qed.

Lemma lower_fixed s : PyStr.all_chars is_lowered s = true -> PyStr.lower s = s.
Proof.
  induction s as [|c s IH]; [reflexivity|].
  simpl. rewrite andb_true_iff. intros [Hc Hs]. apply Ascii.eqb_eq in Hc.
  now rewrite Hc, IH.
Qed.

Lemma re_sub_single_spaced b s :
  single_spaced b (PyStr.re_sub_run_go PyStr.isspace " " b s) = true.
Proof.
  revert b; induction s as [|c s IH]; intros b; [reflexivity|].
  cbn [PyStr.re_sub_run_go]. destruct (PyStr.isspace c) eqn:Hc.
  - destruct b; [apply IH|].
    change (" " +:+ PyStr.re_sub_run_go PyStr.isspace " " true s)
      with (String " " (PyStr.re_sub_run_go PyStr.isspace " " true s)).
    cbn [single_spaced]. change (PyStr.isspace " ") with true. cbv iota.
    rewrite IH. reflexivity.
  - cbn [single_spaced]. rewrite Hc. apply IH.
Qed.

Lemma re_sub_fixed b s :
  single_spaced b s = true -> PyStr.re_sub_run_go PyStr.isspace " " b s = s.
Proof.
  revert b; induction s as [|c s IH]; intros b; [reflexivity|].
  cbn [single_spaced PyStr.re_sub_run_go]. destruct (PyStr.isspace c).
  - rewrite !andb_true_iff. intros [[Hc Hb] Hs].
    apply Ascii.eqb_eq in Hc. apply negb_true_iff in Hb. subst b c.
    rewrite (IH true Hs). reflexivity.
  - intros Hs. now rewrite (IH false Hs).
Qed.

Lemma single_spaced_lstrip b b' s :
  single_spaced b s = true -> single_spaced b' (PyStr.lstrip_with PyStr.isspace s) = true.
Proof.
  revert b; induction s as [|c s IH]; intros b; [reflexivity|].
  cbn [single_spaced PyStr.lstrip_with]. destruct (PyStr.isspace c) eqn:Hc.
  - rewrite !andb_true_iff. intros [_ Hs]. now apply (IH true).
  - intros Hs. cbn [single_spaced]. now rewrite Hc.
Qed.

Lemma single_spaced_rstrip b s :
  single_spaced b s = true -> single_spaced b (PyStr.rstrip_with PyStr.isspace s) = true.
Proof.
  revert b; induction s as [|c s IH]; intros b; [reflexivity|].
  cbn [single_spaced PyStr.rstrip_with]. destruct (PyStr.isspace c) eqn:Hc.
  - rewrite !andb_true_iff. intros [[Hsp Hb] Hs]. specialize (IH true Hs).
    destruct (PyStr.rstrip_with PyStr.isspace s) as [|d r]; [reflexivity|].
    cbn [single_spaced] in *. rewrite Hc, Hsp, Hb. exact IH.
  - intros Hs. specialize (IH false Hs).
    destruct (PyStr.rstrip_with PyStr.isspace s) as [|d r].
    + cbn [single_spaced]. now rewrite Hc.
    + cbn [single_spaced] in *. now rewrite Hc.
Qed.

Lemma all_chars_re_sub_of p cls repl b s :
  PyStr.all_chars p repl = true ->
  PyStr.all_chars p s = true ->
  PyStr.all_chars p (PyStr.re_sub_run_go cls repl b s) = true.
Proof.
  intros Hr. revert b; induction s as [|c s IH]; intros b; [reflexivity|].
  simpl. rewrite andb_true_iff. intros [Hc Hs].
  destruct (cls c).
  - destruct b; [now apply IH|]. rewrite all_chars_append, Hr. now apply IH.
  - simpl. now rewrite Hc, IH.
Qed.

(** X16. A normalised header key is in normal form: [_normalize_key]
    changes it no more, it has no white space at its ends, its white
    space is only single spaces, and lower-casing leaves it as it is.
    Normalising does not see the case of the letters. *)
Theorem normalize_key_normal_form (value : string) :
  _normalize_key (_normalize_key value) = _normalize_key value
  /\ PyStr.strip (_normalize_key value) = _normalize_key value
  /\ single_spaced false (_normalize_key value) = true
  /\ PyStr.lower (_normalize_key value) = _normalize_key value
  /\ _normalize_key (PyStr.lower value) = _normalize_key value.
Proof.
  assert (Hstrip : PyStr.strip (_normalize_key value) = _normalize_key value)
    by apply strip_with_idem.
  assert (Hsp : single_spaced false (_normalize_key value) = true).
  { unfold _normalize_key, PyStr.strip, PyStr.strip_with.
    apply single_spaced_rstrip, (single_spaced_lstrip false), re_sub_single_spaced. }
  assert (Hlow : PyStr.lower (_normalize_key value) = _normalize_key value).
  { apply lower_fixed. unfold _normalize_key. apply all_chars_strip_with.
    apply all_chars_re_sub_of; [reflexivity | apply lower_is_lowered]. }
  repeat split; try assumption.
  - unfold _normalize_key at 1. rewrite Hlow. unfold PyStr.re_sub_run.
    rewrite (re_sub_fixed false _ Hsp). exact Hstrip.
  - unfold _normalize_key. now rewrite lower_idem.
Qed.

End Trimming.

(* ===================================================================== *)
(** * More on the repository *)
(* ===================================================================== *)

Section RepositoryMore.

Import CSVSubmissionRepository.

Lemma header_map_fold_last label alias headers :
  In (label, alias) REQUIRED_KEYS ->
  forall hm : gmap string string,
    foldl (fun hm raw_header =>
             match required_alias (_normalize_key raw_header) REQUIRED_KEYS with
             | Some alias => <[alias := raw_header]> hm
             | None => hm
             end) hm headers !! alias
    = match last_header label headers with
      | Some h => Some h
      | None => hm !! alias
      end.
Proof.
  intros Hin. induction headers as [|h headers IH]; intros hm; [reflexivity|].
  cbn [foldl last_header]. rewrite IH.
  destruct (last_header label headers) as [h'|]; [reflexivity|].
  pose proof (required_alias_spec (_normalize_key h) label alias Hin) as Hspec.
  destruct (String.eqb_spec (_normalize_key h) label) as [E|E].
  - rewrite (proj2 Hspec E). apply lookup_insert_eq.
  - destruct (required_alias (_normalize_key h) REQUIRED_KEYS) as [a|] eqn:Ha; [|reflexivity].
    apply lookup_insert_ne. intros ->. apply E. now apply Hspec.
Qed.

Lemma last_header_some label headers h :
  last_header label headers = Some h -> In h headers /\ _normalize_key h = label.
Proof.
  induction headers as [|h0 headers IH]; [discriminate|].
  cbn [last_header]. destruct (last_header label headers) as [h'|].
  - intros [= <-]. destruct (IH eq_refl) as [H1 H2]. split; [now right | exact H2].
  - destruct (String.eqb_spec (_normalize_key h0) label) as [E|E]; [|discriminate].
    intros [= <-]. split; [now left | exact E].
Qed.

Lemma header_map_keys headers : forall (hm : gmap string string) a h,
  foldl (fun hm raw_header =>
           match required_alias (_normalize_key raw_header) REQUIRED_KEYS with
           | Some alias => <[alias := raw_header]> hm
           | None => hm
           end) hm headers !! a = Some h ->
  hm !! a = Some h \/ exists label, In (label, a) REQUIRED_KEYS.
Proof.
  induction headers as [|h0 headers IH]; intros hm a h; cbn [foldl]; [now left|].
  intros H. apply IH in H as [H|H]; [|now right].
  destruct (required_alias (_normalize_key h0) REQUIRED_KEYS) as [a0|] eqn:Ha; [|now left].
  destruct (decide (a0 = a)) as [->|Hne].
  - right. clear -Ha. unfold REQUIRED_KEYS in *. cbn [required_alias] in Ha.
    repeat match type of Ha with
           | (if ?b then _ else _) = _ => destruct b
           end; try discriminate; injection Ha as <-; eexists; simpl; eauto 6.
  - rewrite lookup_insert_ne in H by exact Hne. now left.
Qed.

(** X17. [_prepare_header_map] succeeds exactly when no required column
    is missing. The map it leaves gives to each of the four aliases the
    last header of the file that normalises to the label of the alias,
    and has no other key. *)
Theorem prepare_header_map_success (headers : list string) :
  (missing_columns headers = [] <-> exists hm, _prepare_header_map headers = Ok hm)
  /\ (forall hm, _prepare_header_map headers = Ok hm ->
        (forall label alias, In (label, alias) REQUIRED_KEYS ->
           exists h, hm !! alias = Some h
                     /\ last_header label headers = Some h
                     /\ In h headers
                     /\ _normalize_key h = label)
        /\ (forall a h, hm !! a = Some h -> exists label, In (label, a) REQUIRED_KEYS)).
Proof.
  split.
  - unfold _prepare_header_map. rewrite missing_labels_spec. split.
    + intros ->. now eexists.
    + intros [hm H]. now destruct (missing_columns headers).
  - intros hm Hprep.
    destruct (prepared_complete _ _ Hprep) as (-> & _ & Hcomplete). split.
    + intros label alias Hin. destruct (Hcomplete label alias Hin) as [h Hh].
      exists h. split; [exact Hh|].
      unfold header_map_of in Hh.
      rewrite (header_map_fold_last label alias headers Hin), lookup_empty in Hh.
      destruct (last_header label headers) as [h'|] eqn:E; [|discriminate].
      injection Hh as ->. split; [reflexivity|]. now apply last_header_some.
    + intros a h Hh. unfold header_map_of in Hh.
      apply header_map_keys in Hh as [Hh|Hh]; [|exact Hh].
      rewrite lookup_empty in Hh. discriminate.
Qed.

Lemma cell_trimmed hm row alias : PyStr.strip (cell hm row alias) = cell hm row alias.
Proof. unfold cell. destruct (hm !! alias); [apply strip_with_idem | reflexivity]. Qed.

Lemma numbered_fresh es : forall s,
  Forall (fun e : entry =>
            let '(_, name, theme, description, _) := e in
            name <> EmptyString /\ PyStr.strip name = name
            /\ theme <> EmptyString /\ PyStr.strip theme = theme
            /\ PyStr.strip description = description) es ->
  Forall fresh_photo (numbered s es).
Proof.
  induction es as [|[[[[i n] t] d] u] es IH]; intros s H; [constructor|].
  inversion H as [|? ? Hhead Hrest]; subst.
  cbn [numbered]. constructor; [|now apply IH].
  unfold fresh_photo. cbn. cbv beta iota in Hhead. tauto.
Qed.

Lemma expected_entries_fresh hm rows : forall i,
  Forall (fun e : entry =>
            let '(_, name, theme, description, _) := e in
            name <> EmptyString /\ PyStr.strip name = name
            /\ theme <> EmptyString /\ PyStr.strip theme = theme
            /\ PyStr.strip description = description)
    (expected_entries hm i rows).
Proof.
  induction rows as [|row rows IH]; intros i; [constructor|].
  cbn [expected_entries]. apply Forall_app. split; [|apply IH].
  unfold row_entries. destruct (row_counts hm row) eqn:Hc; [|constructor].
  unfold row_counts in Hc. apply andb_true_iff in Hc as [Hn Ht].
  apply truthy_true in Hn, Ht.
  apply List.Forall_forall. intros e Hin. apply in_map_iff in Hin as [link [<- _]].
  repeat split; try assumption; apply cell_trimmed.
Qed.

Lemma read_submissions_ok (W : World) csv_path photos :
  read_submissions W csv_path = Ok photos ->
  exists records hm,
    csv_records W csv_path = Some records
    /\ _prepare_header_map (hd [] records) = Ok hm
    /\ photos = numbered 1 (expected_entries hm 1
                              (DictReader_rows (hd [] records) (tail records))).
Proof.
  unfold read_submissions. destruct (csv_records W csv_path) as [records|]; [|discriminate].
  replace (match records with [] => [] | header :: _ => header end)
    with (hd [] records) by now destruct records.
  destruct (_prepare_header_map (hd [] records)) as [hm|e] eqn:Hprep; [|discriminate].
  cbn [rbind]. destruct (prepared_complete _ _ Hprep) as (_ & _ & Hcomplete).
  rewrite (read_rows_spec hm Hcomplete). intros [= <-]. now exists records, hm.
Qed.

(** X18. [read_submissions] raises [FileNotFoundError], with the path in
    its message, when the file does not exist. Every photo it returns
    has a name and a theme that are not empty, a name, a theme and a
    description without white space at their ends, and neither a local
    path nor an orientation yet. *)
Theorem read_submissions_photos_fresh (W : World) (csv_path : string) :
  (csv_records W csv_path = None ->
     read_submissions W csv_path
     = Raise (FileNotFoundError ("CSV file not found: " +:+ csv_path)))
  /\ (forall photos, read_submissions W csv_path = Ok photos -> Forall fresh_photo photos).
Proof.
  split.
  - intros H. unfold read_submissions. now rewrite H.
  - intros photos H. apply read_submissions_ok in H as (records & hm & _ & _ & ->).
    apply numbered_fresh, expected_entries_fresh.
Qed.

Lemma prepare_header_map_success_witness :
  exists h,
    header_map_of (hd [] Examples.records_of_contest) !! "theme" = Some h
    /\ last_header "theme name" (hd [] Examples.records_of_contest) = Some h
    /\ In h (hd [] Examples.records_of_contest)
    /\ _normalize_key h = "theme name".
Proof.
  apply (proj1 (proj2 (prepare_header_map_success (hd [] Examples.records_of_contest))
                  (header_map_of (hd [] Examples.records_of_contest)) eq_refl)
           "theme name" "theme").
  simpl. tauto.
Defined.

Lemma read_submissions_photos_fresh_witness :
  exists photos,
    read_submissions (Examples.world_with_csv Examples.records_of_contest) "responses.csv"
    = Ok photos
    /\ Forall fresh_photo photos /\ length photos = 3%nat.
Proof.
  destruct (read_submissions (Examples.world_with_csv Examples.records_of_contest)
              "responses.csv") as [photos|e] eqn:E; [|vm_compute in E; discriminate E].
  exists photos. split; [reflexivity|]. split.
  - apply (proj2 (read_submissions_photos_fresh
                    (Examples.world_with_csv Examples.records_of_contest) "responses.csv")
             photos E).
  - vm_compute in E. injection E as <-. reflexivity.
Defined.

Lemma zeros_uint k d :
  PyStr.zeros k +:+ NilEmpty.string_of_uint d
  = NilEmpty.string_of_uint (Nat.iter k Decimal.D0 d).
Proof. induction k as [|k IH]; [reflexivity|]. simpl. now rewrite IH. Qed.

Lemma of_uint_zeros k d : Z.of_uint (Nat.iter k Decimal.D0 d) = Z.of_uint d.
Proof. induction k as [|k IH]; [reflexivity|]. simpl. exact IH. Qed.

(** The number can be read back from the padded digits. *)
Lemma format_digits_value n :
  0 <= n -> digits_value (PyStr.format_0d 3 n) = Some n.
Proof.
  intros Hn. unfold PyStr.format_0d.
  destruct (Z.ltb_spec n 0) as [?|_]; [lia|]. rewrite Z.abs_eq by lia.
  cbn [String.length String.append]. rewrite Nat.sub_0_r.
  unfold PyStr.of_Z at 2.
  assert (Hdec : exists d, NilZero.string_of_int (Z.to_int n) = NilEmpty.string_of_uint d
                           /\ Z.of_uint d = n).
  { destruct n as [|p|p]; [now exists (Decimal.D0 Decimal.Nil)| |lia].
    exists (Pos.to_uint p). split.
    - cbn [Z.to_int NilZero.string_of_int]. unfold NilZero.string_of_uint.
      pose proof (DecimalPos.Unsigned.to_uint_nonnil p) as Hnil.
      now destruct (Pos.to_uint p).
    - unfold Z.of_uint. now rewrite DecimalPos.Unsigned.of_to. }
  destruct Hdec as (d & -> & Hd).
  rewrite zeros_uint. unfold digits_value. rewrite NilEmpty.usu. cbn [option_map].
  now rewrite of_uint_zeros, Hd.
Qed.

Lemma digits_before_underscore a b r r' :
  PyStr.all_chars PyStr.isdigit a = true ->
  PyStr.all_chars PyStr.isdigit b = true ->
  a +:+ String "_" r = b +:+ String "_" r' -> a = b.
Proof.
  revert b; induction a as [|x a IH]; intros [|y b] Ha Hb H.
  - reflexivity.
  - simpl in H, Hb. injection H as <- _. discriminate.
  - simpl in H, Ha. injection H as -> _. discriminate.
  - simpl in H, Ha, Hb. injection H as -> H.
    apply andb_true_iff in Ha as [_ Ha]. apply andb_true_iff in Hb as [_ Hb].
    f_equal. now apply IH.
Qed.

Lemma format_digits n :
  0 <= n -> PyStr.all_chars PyStr.isdigit (PyStr.format_0d 3 n) = true.
Proof.
  intros Hn. unfold PyStr.format_0d.
  destruct (Z.ltb_spec n 0) as [?|_]; [lia|]. rewrite Z.abs_eq by lia.
  cbn [String.length String.append].
  now rewrite all_chars_append, all_chars_zeros, of_Z_digits.
Qed.

Lemma slug_sequence_inj (p1 p2 : ParticipantPhoto) :
  0 <= sequence p1 -> 0 <= sequence p2 ->
  filename_slug p1 = filename_slug p2 -> sequence p1 = sequence p2.
Proof.
  intros H1 H2 H. unfold filename_slug in H.
  apply digits_before_underscore in H; try now apply format_digits.
  apply (f_equal digits_value) in H.
  rewrite !format_digits_value in H by assumption. congruence.
Qed.

(** X19. The file name of a photo tells its sequence number: two photos
    with different sequence numbers, none negative, never have the same
    slug, whatever their names and themes are. *)
Theorem filename_slug_tells_sequence (p1 p2 : ParticipantPhoto) :
  0 <= sequence p1 -> 0 <= sequence p2 ->
  sequence p1 <> sequence p2 ->
  filename_slug p1 <> filename_slug p2.
Proof. intros H1 H2 Hne H. apply Hne. now apply slug_sequence_inj. Qed.

Lemma filename_slug_tells_sequence_witness :
  filename_slug Examples.jane <> filename_slug Examples.no_url.
Proof.
  apply (filename_slug_tells_sequence Examples.jane Examples.no_url); simpl; lia.
Defined.

Lemma NoDup_map_through {A B C} (f : A -> B) (g : A -> C) (l : list A) :
  (forall x y, In x l -> In y l -> g x = g y -> f x = f y) ->
  List.NoDup (map f l) -> List.NoDup (map g l).
Proof.
  induction l as [|a l IH]; intros Hinj Hnd; [constructor|].
  cbn [map] in *. inversion Hnd as [|? ? Hnotin Hnd']; subst. constructor.
  - intros Hin. apply Hnotin. apply in_map_iff in Hin as [x [Hx Hxin]].
    apply in_map_iff. exists x. split; [|exact Hxin].
    apply Hinj; [now right | now left | exact Hx].
  - apply IH; [|exact Hnd']. intros x y Hx Hy. apply Hinj; now right.
Qed.

(** X20. The photos that [read_submissions] returns all have different
    file name slugs, so no output of a batch is written over an other
    one. *)
Theorem read_submissions_distinct_slugs (W : World) (csv_path : string)
    (photos : list ParticipantPhoto) :
  read_submissions W csv_path = Ok photos ->
  List.NoDup (map filename_slug photos).
Proof.
  intros H. apply read_submissions_ok in H as (records & hm & _ & _ & ->).
  set (es := expected_entries hm 1 _).
  assert (Hseq : map sequence (numbered 1 es) = map Z.of_nat (seq 1 (length es)))
    by apply (sequence_numbered es 1).
  apply (NoDup_map_through sequence).
  - intros x y Hx Hy. apply slug_sequence_inj.
    + apply (in_map sequence) in Hx. rewrite Hseq in Hx.
      apply in_map_iff in Hx as [k [<- _]]. lia.
    + apply (in_map sequence) in Hy. rewrite Hseq in Hy.
      apply in_map_iff in Hy as [k [<- _]]. lia.
  - rewrite Hseq. apply (NoDup_map_through (fun k : nat => k)).
    + intros a b _ _ Hab. lia.
    + rewrite List.map_id. apply List.seq_NoDup.
Qed.

Lemma read_submissions_distinct_slugs_witness :
  exists photos,
    read_submissions (Examples.world_with_csv Examples.records_of_contest) "responses.csv"
    = Ok photos
    /\ List.NoDup (map filename_slug photos).
Proof.
  destruct (read_submissions (Examples.world_with_csv Examples.records_of_contest)
              "responses.csv") as [photos|e] eqn:E; [|vm_compute in E; discriminate E].
  exists photos. split; [reflexivity|].
  exact (read_submissions_distinct_slugs _ _ photos E).
Defined.

End RepositoryMore.

(* ===================================================================== *)
(** * More on the generation of a batch *)
(* ===================================================================== *)

Section GenerateMore.

Import PostGenerationService.

Variable W : World.
Variable template_manager : TemplateManager.t.
Variables output_dir cache_dir : string.
Variable progress_callback : bool.

Lemma get_layout_raise o e :
  TemplateManager.get_layout template_manager o = Raise e ->
  TemplateManager._layouts template_manager !! o = None
  /\ e = ValueError ("No template configured for " +:+ Orientation_value o).
Proof.
  unfold TemplateManager.get_layout.
  destruct (TemplateManager._layouts template_manager !! o); [discriminate|].
  intros [= <-]. split; reflexivity.
Qed.

(** X21. A photo that is downloaded and whose orientation has no layout
    in the registry is skipped: the message "No template configured for
    ..." goes to the progress callback, nothing is rendered or saved for
    it, and [generate] goes on with the next photo as photo number 2,
    with no result so far. *)
Theorem generate_skips_missing_layout (photo : ParticipantPhoto)
    (rest : list ParticipantPhoto) (st st1 : State) (local : string) (o : Orientation)
    (e : exn) :
  ImageDownloadService.download W (url photo) cache_dir
    (add_progress progress_callback (msg_downloading 1 photo) st)
  = (Ok local, st1) ->
  OrientationDetector_detect W local = Ok o ->
  TemplateManager.get_layout template_manager o = Raise e ->
  generate W template_manager (photo :: rest) output_dir cache_dir progress_callback st
  = generate_loop W template_manager output_dir cache_dir progress_callback rest 2 []
      (add_progress progress_callback
         ("No template configured for " +:+ Orientation_value o) st1).
Proof.
  intros Hd Ho Hl. apply get_layout_raise in Hl as [Hl _].
  unfold generate. cbn [generate_loop]. unfold run_bind.
  now rewrite (process_no_layout W template_manager output_dir cache_dir progress_callback
                 1 photo [] st local st1 o Hd Ho Hl).
Qed.

(** X22. An exception of the network that is not a download error is not
    caught: when [requests] raises while the file of a photo with an
    ordinary URL is fetched, the exception leaves [generate] and the
    photos after it are not processed. *)
Theorem generate_network_error_escapes (photo : ParticipantPhoto)
    (rest : list ParticipantPhoto) (st : State) (e : exn) :
  url photo <> EmptyString ->
  PyStr.contains ImageDownloadService.DRIVE_HOST (url photo) = false ->
  session_get W (sent st) (mkRequest (url photo) []) = Raise e ->
  is_PhotoDownloadError e = false ->
  generate W template_manager (photo :: rest) output_dir cache_dir progress_callback st
  = (Raise e,
     mkState (sent st ++ [mkRequest (url photo) []]) (written st) (font_cache st)
       (progress (add_progress progress_callback (msg_downloading 1 photo) st))).
Proof.
  intros Hne Hhost Hget He. apply truthy_true in Hne.
  unfold generate. cbn [generate_loop]. unfold run_bind.
  rewrite (process_download_escape W template_manager output_dir cache_dir progress_callback
             1 photo [] st e
             (mkState (sent st ++ [mkRequest (url photo) []]) (written st) (font_cache st)
                (progress (add_progress progress_callback (msg_downloading 1 photo) st))));
    [reflexivity| |exact He].
  unfold ImageDownloadService.download. rewrite Hne, Hhost. cbn [negb].
  unfold ImageDownloadService._download_generic, run_bind, session_get_run.
  assert (Hs : sent (add_progress progress_callback (msg_downloading 1 photo) st) = sent st)
    by (unfold add_progress; now destruct progress_callback).
  rewrite Hs, Hget. unfold add_progress. now destruct progress_callback.
Qed.

(** X23. The [ValueError] of a layout without a template path is not
    caught either: it is raised by the renderer, outside the [try] of
    the layout lookup, after the rendering message has been reported,
    and it leaves [generate]. A template file that does not exist gives
    [FileNotFoundError] in the same way. *)
Theorem generate_template_missing_escapes (photo : ParticipantPhoto)
    (rest : list ParticipantPhoto) (st st1 : State) (local : string) (o : Orientation)
    (layout : TemplateLayout) :
  ImageDownloadService.download W (url photo) cache_dir
    (add_progress progress_callback (msg_downloading 1 photo) st)
  = (Ok local, st1) ->
  OrientationDetector_detect W local = Ok o ->
  TemplateManager.get_layout template_manager o = Ok layout ->
  (template_path layout = EmptyString ->
     generate W template_manager (photo :: rest) output_dir cache_dir progress_callback st
     = (Raise (ValueError "Template path is not set"),
        add_progress progress_callback (msg_rendering 1 o) st1))
  /\ (template_path layout <> EmptyString ->
      path_exists W (template_path layout) = false ->
      generate W template_manager (photo :: rest) output_dir cache_dir progress_callback st
      = (Raise (FileNotFoundError ("Template not found: " +:+ template_path layout)),
         add_progress progress_callback (msg_rendering 1 o) st1)).
Proof.
  intros Hd Ho Hl. split.
  - intros Hpath. unfold generate. cbn [generate_loop]. unfold run_bind.
    rewrite (process_render_error W template_manager output_dir cache_dir progress_callback
               1 photo [] st local st1 o layout (ValueError "Template path is not set")
               (add_progress progress_callback (msg_rendering 1 o) st1) Hd Ho Hl);
      [reflexivity|].
    unfold TemplateRenderer.render, run_bind, run_lift, ensure_template_exists.
    now rewrite Hpath.
  - intros Hpath Hex. apply truthy_true in Hpath.
    unfold generate. cbn [generate_loop]. unfold run_bind.
    rewrite (process_render_error W template_manager output_dir cache_dir progress_callback
               1 photo [] st local st1 o layout
               (FileNotFoundError ("Template not found: " +:+ template_path layout))
               (add_progress progress_callback (msg_rendering 1 o) st1) Hd Ho Hl);
      [reflexivity|].
    unfold TemplateRenderer.render, run_bind, run_lift, ensure_template_exists.
    now rewrite Hpath, Hex.
Qed.

(** One photo adds at most its own output path to the results. *)
Lemma process_outcome index photo results st r st' :
  process_photo W template_manager output_dir cache_dir progress_callback
    index photo results st = (Ok r, st') ->
  r = results \/ r = results ++ [output_path_of W output_dir photo].
Proof.
  unfold process_photo, run_bind, run_try, report, run_lift, run_ret, write_file.
  destruct (ImageDownloadService.download W (url photo) cache_dir _) as [[local|e] s1].
  - destruct (OrientationDetector_detect W local) as [o|e]; [|discriminate].
    destruct (TemplateManager.get_layout template_manager o) as [layout|e].
    + destruct (TemplateRenderer.render W layout _ _) as [[img|e] s2]; [|discriminate].
      destruct (file_open W _) as [[]|e]; [|discriminate].
      intros [= <- _]. now right.
    + destruct (is_ValueError e); [|discriminate]. intros [= <- _]. now left.
  - destruct (is_PhotoDownloadError e); [|discriminate]. intros [= <- _]. now left.
Qed.

Lemma loop_outcome photos : forall index results st r st',
  generate_loop W template_manager output_dir cache_dir progress_callback
    photos index results st = (Ok r, st') ->
  exists kept,
    sublist kept photos /\ r = results ++ map (output_path_of W output_dir) kept.
Proof.
  induction photos as [|photo photos IH]; intros index results st r st'.
  - cbn [generate_loop]. unfold run_ret. intros [= <- _].
    exists []. split; [constructor | now rewrite app_nil_r].
  - cbn [generate_loop]. unfold run_bind.
    destruct (process_photo W template_manager output_dir cache_dir progress_callback
                index photo results st) as [[r1|e] s1] eqn:Hp; [|discriminate].
    intros H. apply IH in H as (kept & Hsub & ->).
    apply process_outcome in Hp as [-> | ->].
    + exists kept. split; [now constructor | reflexivity].
    + exists (photo :: kept). split; [now constructor|].
      now rewrite <- app_assoc.
Qed.

(** X24. When [generate] returns, its result is the list of the output
    paths of some of the photos, in the order of the photos: no path is
    made up, none comes twice for one photo, and the order of the batch
    is kept; so there are never more paths than photos. *)
Theorem generate_results_sublist (photos : list ParticipantPhoto) (st st' : State)
    (results : list string) :
  generate W template_manager photos output_dir cache_dir progress_callback st
  = (Ok results, st') ->
  (exists kept,
      sublist kept photos /\ results = map (output_path_of W output_dir) kept)
  /\ (length results <= length photos)%nat.
Proof.
  intros H. unfold generate in H. apply loop_outcome in H as (kept & Hsub & ->).
  cbn [app]. split; [now exists kept|].
  rewrite length_map. now apply sublist_length.
Qed.

End GenerateMore.

Lemma generate_results_sublist_witness :
  (length ["out/007_jane-o-brien_sunset-hills.png"] <= length [Examples.no_url; Examples.jane])%nat.
Proof.
  refine (proj2 (generate_results_sublist Examples.demo_world Examples.both_layouts
                   "out" "cache" true [Examples.no_url; Examples.jane] initial_state
                   (snd (PostGenerationService.generate Examples.demo_world
                           Examples.both_layouts [Examples.no_url; Examples.jane]
                           "out" "cache" true initial_state))
                   ["out/007_jane-o-brien_sunset-hills.png"] _)).
  vm_compute. reflexivity.
Defined.

Lemma generate_skips_missing_layout_witness :
  PostGenerationService.generate Examples.demo_world Examples.portrait_only
    [Examples.jane] "out" "cache" true initial_state
  = (Ok [],
     mkState [mkRequest "http://example.org/a.jpg" []]
       [("cache/httpexampleorgajpg.jpg", Bytes "JFIF")] ∅
       ["Downloading (1): http://example.org/a.jpg"; "No template configured for landscape"]).
Proof.
  pose (downloaded := ImageDownloadService.download Examples.demo_world (url Examples.jane)
                        "cache" (add_progress true (msg_downloading 1 Examples.jane)
                                   initial_state)).
  rewrite (generate_skips_missing_layout Examples.demo_world Examples.portrait_only
             "out" "cache" true Examples.jane [] initial_state (snd downloaded)
             "cache/httpexampleorgajpg.jpg" LANDSCAPE
             (ValueError "No template configured for landscape"));
    vm_compute; reflexivity.
Defined.

Lemma generate_network_error_escapes_witness :
  fst (PostGenerationService.generate Examples.offline_world Examples.both_layouts
         [Examples.jane; Examples.no_url] "out" "cache" true initial_state)
  = Raise (RequestException "Connection refused").
Proof.
  rewrite (generate_network_error_escapes Examples.offline_world Examples.both_layouts
             "out" "cache" true Examples.jane [Examples.no_url] initial_state
             (RequestException "Connection refused"));
    try reflexivity.
  discriminate.
Defined.

Lemma generate_template_missing_escapes_witness :
  fst (PostGenerationService.generate Examples.demo_world Examples.without_template
         [Examples.jane; Examples.no_url] "out" "cache" true initial_state)
  = Raise (ValueError "Template path is not set").
Proof.
  pose (downloaded := ImageDownloadService.download Examples.demo_world (url Examples.jane)
                        "cache" (add_progress true (msg_downloading 1 Examples.jane)
                                   initial_state)).
  refine (f_equal fst
            (proj1 (generate_template_missing_escapes Examples.demo_world
                      Examples.without_template "out" "cache" true Examples.jane
                      [Examples.no_url] initial_state (snd downloaded)
                      "cache/httpexampleorgajpg.jpg" LANDSCAPE (TemplateLayout_empty LANDSCAPE)
                      _ _ _) _));
    vm_compute; reflexivity.
Defined.

(* ===================================================================== *)
(** * The composition of a post *)
(* ===================================================================== *)

Section RenderShape.

Import TemplateRenderer.

Variable W : World.






End RenderShape.


(* ===================================================================== *)
(** * Word wrap is greedy *)
(* ===================================================================== *)

Section WordWrapGreedy.

Import TemplateRenderer.

Variable W : World.
Variable font : Font.
Variable max_width : Z.

Let full := broken_when_full W font max_width.

Lemma full_grow groups current word :
  current <> [] -> full (groups ++ [current]) -> full (groups ++ [current ++ [word]]).
Proof.
  intros Hne. induction groups as [|g gs IH]; intros H; [simpl; tauto|].
  destruct gs as [|g' gs].
  - destruct current as [|w current]; [congruence|]. exact H.
  - destruct H as [H1 H2]. split; [exact H1 | apply IH; exact H2].
Qed.

Lemma full_break groups current word :
  max_width < width_of W font (PyStr.join " " (current ++ [word])) ->
  full (groups ++ [current]) -> full ((groups ++ [current]) ++ [[word]]).
Proof.
  intros Hw. induction groups as [|g gs IH]; intros H.
  - split; [exact Hw|]. split; exact I.
  - destruct gs as [|g' gs].
    + destruct H as [H1 H2]. split; [exact H1 | apply (IH H2)].
    + destruct H as [H1 H2]. split; [exact H1 | apply (IH H2)].
Qed.

Lemma wrap_loop_greedy words :
  forall groups current,
    (current = [] -> groups = []) ->
    Forall (fun g => g <> []) groups ->
    full (groups ++ [current]) ->
    exists groups' current',
      wrap_loop W font max_width words (map (PyStr.join " ") groups) current
      = (map (PyStr.join " ") groups', current')
      /\ (current' = [] -> groups' = [])
      /\ Forall (fun g => g <> []) groups'
      /\ full (groups' ++ [current'])
      /\ concat groups' ++ current' = concat groups ++ current ++ words.
Proof.
  induction words as [|word rest IH]; intros groups current Hc Hne Hfull.
  - exists groups, current. simpl. rewrite app_nil_r. auto.
  - cbn [wrap_loop].
    destruct (textsize W font
                (if nonempty current then PyStr.join " " (current ++ [word]) else word))
      as [width height] eqn:Hsize.
    destruct ((width <=? max_width) || negb (nonempty current)) eqn:Hkeep.
    + destruct (IH groups (current ++ [word])) as (g' & c' & E & Hc' & Hne' & Hg' & Hall).
      { now destruct current. }
      { exact Hne. }
      { destruct current as [|w0 cur].
        - rewrite (Hc eq_refl). split; exact I.
        - now apply full_grow. }
      exists g', c'. rewrite E. split; [reflexivity|]. split; [exact Hc'|].
      split; [exact Hne'|]. split; [exact Hg'|]. rewrite Hall. now rewrite <- !app_assoc.
    + apply orb_false_iff in Hkeep as [Hwide Hcur]. apply negb_false_iff in Hcur.
      rewrite Hcur in Hsize. apply Z.leb_gt in Hwide.
      destruct (IH (groups ++ [current]) [word]) as (g' & c' & E & Hc' & Hne' & Hg' & Hall).
      { discriminate. }
      { apply Forall_app_2; [exact Hne|]. constructor; [|constructor].
        now destruct current. }
      { apply full_break; [|exact Hfull]. unfold width_of. now rewrite Hsize. }
      exists g', c'. rewrite map_app in E. simpl in E. rewrite E.
      split; [reflexivity|]. split; [exact Hc'|]. split; [exact Hne'|].
      split; [exact Hg'|].
      rewrite Hall, concat_app. simpl. now rewrite app_nil_r, <- !app_assoc.
Qed.

Lemma full_init groups : full (groups ++ [[]]) -> full groups.
Proof.
  induction groups as [|g gs IH]; intros H; [exact I|].
  destruct gs as [|g' gs]; [split; exact I|].
  destruct H as [H1 H2]. split; [exact H1 | apply (IH H2)].
Qed.

Lemma full_lookup groups :
  full groups ->
  forall i g w g',
    groups !! i = Some g -> groups !! S i = Some (w :: g') ->
    max_width < width_of W font (PyStr.join " " (g ++ [w])).
Proof.
  induction groups as [|g0 gs IH]; intros Hfull i g w g' Hi Hnext; [discriminate|].
  destruct Hfull as [Hhead Hrest].
  destruct i as [|i].
  - simpl in Hi. injection Hi as ->. destruct gs as [|next gs]; [discriminate|].
    simpl in Hnext. injection Hnext as ->. exact Hhead.
  - apply (IH Hrest i g w g'); assumption.
Qed.

Lemma join_snoc g w :
  g <> [] -> PyStr.join " " (g ++ [w]) = PyStr.join " " g +:+ " " +:+ w.
Proof.
  induction g as [|a g IH]; intros Hne; [congruence|].
  destruct g as [|b g]; [reflexivity|].
  change (PyStr.join " " ((a :: b :: g) ++ [w]))
    with (a +:+ String " " (PyStr.join " " ((b :: g) ++ [w]))).
  rewrite IH by discriminate.
  change (PyStr.join " " (a :: b :: g)) with (a +:+ String " " (PyStr.join " " (b :: g))).
  change (String " " (PyStr.join " " (b :: g) +:+ " " +:+ w))
    with (String " " (PyStr.join " " (b :: g)) +:+ " " +:+ w).
  now rewrite !append_assoc.
Qed.

(** The lines of [_wrap_text] as groups of words, none empty, each line
    but the last followed by a word that did not fit. *)
Lemma wrap_text_groups text :
  exists groups : list (list string),
    _wrap_text W text font max_width = map (PyStr.join " ") groups
    /\ concat groups = PyStr.split text
    /\ Forall (fun g => g <> []) groups
    /\ full groups.
Proof.
  unfold _wrap_text. destruct (PyStr.truthy text) eqn:Ht; simpl negb; cbv iota.
  2:{ exists []. apply truthy_false in Ht. subst. repeat split; constructor. }
  destruct (nonempty (PyStr.split text)) eqn:Hw; simpl negb; cbv iota.
  2:{ exists []. destruct (PyStr.split text); [|discriminate]. repeat split; constructor. }
  destruct (wrap_loop_greedy (PyStr.split text) [] [])
    as (g' & c' & E & Hc' & Hne' & Hg' & Hall);
    [reflexivity | constructor | split; exact I |].
  simpl in E, Hall. rewrite E.
  destruct c' as [|w c'].
  - exists g'. cbn [nonempty]. rewrite app_nil_r in Hall.
    split; [reflexivity|]. split; [exact Hall|]. split; [exact Hne'|].
    now apply full_init.
  - exists (g' ++ [w :: c']). cbn [nonempty]. rewrite map_app.
    split; [reflexivity|]. split.
    + rewrite concat_app. simpl. now rewrite app_nil_r.
    + split; [|exact Hg']. apply Forall_app_2; [exact Hne'|].
      constructor; [discriminate | constructor].
Qed.

(** X26. [_wrap_text] is greedy: a line is ended only when it, a space
    and the first word of the next line together are wider than
    [max_width]. *)
Theorem wrap_text_breaks_when_full (text : string) (i : nat) (line next w : string)
    (rest : list string) :
  _wrap_text W text font max_width !! i = Some line ->
  _wrap_text W text font max_width !! S i = Some next ->
  PyStr.split next = w :: rest ->
  max_width < fst (textsize W font (line +:+ " " +:+ w)).
Proof.
  destruct (wrap_text_groups text) as (groups & -> & Hwords & Hne & Hfull).
  intros Hline Hnext Hsplit.
  rewrite list_lookup_fmap in Hline, Hnext.
  destruct (groups !! i) as [g|] eqn:Hg; [|discriminate].
  destruct (groups !! S i) as [g'|] eqn:Hg'; [|discriminate].
  simpl in Hline, Hnext. injection Hline as <-. injection Hnext as <-.
  assert (Hgw : Forall is_word g').
  { pose proof (split_words text) as Hall. rewrite <- Hwords in Hall.
    apply list_elem_of_lookup_2 in Hg'. rewrite Forall_forall. intros x Hx.
    rewrite Forall_forall in Hall. apply Hall. apply list_elem_of_In.
    apply in_concat. exists g'. split; apply list_elem_of_In; assumption. }
  rewrite split_join in Hsplit by exact Hgw. subst g'.
  rewrite <- join_snoc.
  - exact (full_lookup groups Hfull i g w rest Hg Hg').
  - rewrite Forall_forall in Hne. apply Hne. now apply list_elem_of_lookup_2 in Hg.
Qed.

End WordWrapGreedy.

Lemma wrap_text_breaks_when_full_witness :
  TemplateRenderer._wrap_text Examples.demo_world "aa bb" DefaultFont 30
  = ["aa"; "bb"]
  /\ 30 < fst (textsize Examples.demo_world DefaultFont ("aa" +:+ " " +:+ "bb")).
Proof.
  split; [reflexivity|].
  apply (wrap_text_breaks_when_full Examples.demo_world DefaultFont 30 "aa bb" 0
           "aa" "bb" "bb" []); reflexivity.
Defined.

(* ===================================================================== *)
(** * The application around the generation *)
(* ===================================================================== *)

Section Application.

Import SnapshotApp.

Variable W : World.
Variable template_manager : TemplateManager.t.

Lemma finished_last message st :
  last (progress (add_progress true message st)) = Some message.
Proof. cbn [add_progress progress]. apply last_snoc. Qed.

(** X27. The worker of the application never lets an exception out and
    always ends with exactly one final status, which is also the last
    line of the log: the CSV error, "No photos found in CSV" for an
    empty batch, the error that escaped [generate], or the number of
    posts made, which is never more than the number of photos read.
    Before [generate] runs nothing is sent, written or logged. *)
Theorem worker_reports_outcome (csv_path output_dir cache_dir : string) (st : State) :
  exists message st',
    worker W template_manager csv_path output_dir cache_dir st = (Ok message, st')
    /\ last (progress st') = Some message
    /\ match CSVSubmissionRepository.read_submissions W csv_path with
       | Raise err =>
           message = "Failed to parse CSV: " +:+ exn_str err
           /\ st' = add_progress true message st
       | Ok [] =>
           message = "No photos found in CSV" /\ st' = add_progress true message st
       | Ok photos =>
           match fst (PostGenerationService.generate W template_manager photos
                        output_dir cache_dir true st) with
           | Raise err => message = "Generation failed: " +:+ exn_str err
           | Ok results =>
               message = "Done. Generated " +:+ PyStr.of_Z (Z.of_nat (length results))
                         +:+ " posts in " +:+ output_dir
               /\ (length results <= length photos)%nat
           end
           /\ st' = add_progress true message
                      (snd (PostGenerationService.generate W template_manager photos
                              output_dir cache_dir true st))
       end.
Proof.
  unfold worker.
  destruct (CSVSubmissionRepository.read_submissions W csv_path) as [photos|err].
  2:{ eexists _, _. split; [reflexivity|]. split; [apply finished_last|]. now split. }
  destruct photos as [|photo photos]; cbn [TemplateRenderer.nonempty negb].
  { eexists _, _. split; [reflexivity|]. split; [apply finished_last|]. now split. }
  unfold run_bind at 1. unfold run_try, run_bind at 1.
  destruct (PostGenerationService.generate W template_manager (photo :: photos)
              output_dir cache_dir true st) as [[results|err] s1] eqn:Hgen.
  - unfold run_ret at 1. eexists _, _. split; [reflexivity|].
    split; [apply finished_last|]. cbn [fst snd]. split; [|reflexivity].
    split; [reflexivity|].
    unfold PostGenerationService.generate in Hgen.
    apply loop_outcome in Hgen as (kept & Hsub & ->).
    cbn [app]. rewrite length_map. now apply sublist_length.
  - unfold run_ret at 1. eexists _, _. split; [reflexivity|].
    split; [apply finished_last|]. cbn [fst snd]. now split.
Qed.

(** X28. [_start_generation] starts the worker only when a CSV path is
    given and a layout is registered for every orientation, and then
    logs "Starting generation..." and nothing else; otherwise it shows
    one error dialog, for the CSV first and else for the first
    orientation without layout, landscape before portrait, and leaves
    requests, files and log as they were. It never raises. *)
Theorem start_generation_prechecks (csv_path : string) (st : State) :
  match _start_generation template_manager csv_path st with
  | (Ok WorkerStarted, st') =>
      csv_path <> EmptyString
      /\ (forall o, exists layout, TemplateManager.get_layout template_manager o = Ok layout)
      /\ st' = add_progress true "Starting generation..." st
  | (Ok (ErrorDialog title message), st') =>
      st' = st
      /\ ((csv_path = EmptyString /\ title = "Missing CSV"
           /\ message = "Select the responses CSV file first.")
          \/ (csv_path <> EmptyString /\ title = "Missing Template"
              /\ exists o,
                   TemplateManager._layouts template_manager !! o = None
                   /\ message = "No template configured for " +:+ Orientation_value o
                   /\ (o = PORTRAIT ->
                       TemplateManager._layouts template_manager !! LANDSCAPE <> None)))
  | (Raise _, _) => False
  end.
Proof.
  unfold _start_generation.
  destruct (PyStr.truthy csv_path) eqn:Hcsv; cbn [negb].
  2:{ apply truthy_false in Hcsv. unfold run_ret. split; [reflexivity|]. left. now split. }
  apply truthy_true in Hcsv.
  unfold run_try, run_bind, run_lift, run_ret, report, TemplateManager.get_layout.
  destruct (TemplateManager._layouts template_manager !! LANDSCAPE) as [l1|] eqn:H1.
  2:{ cbn [is_ValueError exn_str]. split; [reflexivity|]. right. split; [exact Hcsv|].
      split; [reflexivity|]. exists LANDSCAPE. split; [exact H1|].
      split; [reflexivity | discriminate]. }
  destruct (TemplateManager._layouts template_manager !! PORTRAIT) as [l2|] eqn:H2.
  2:{ cbn [is_ValueError exn_str]. split; [reflexivity|]. right. split; [exact Hcsv|].
      split; [reflexivity|]. exists PORTRAIT. split; [exact H2|].
      split; [reflexivity | discriminate]. }
  split; [exact Hcsv|]. split; [|reflexivity].
  intros [|]; [exists l1; now rewrite H1 | exists l2; now rewrite H2].
Qed.

End Application.


(* ===================================================================== *)
(** * The slug and the runs of letters and digits *)
(* ===================================================================== *)

Section SlugWords.

Let go := PyStr.re_sub_run_go not_alnum "-".
Let joined (s : string) : string := PyStr.join "-" (alnum_runs s).

(** The hyphen that [re.sub] puts for a run at the start of the text. *)
Let front (s : string) : string :=
  match s with
  | String c _ => if not_alnum c then "-" else EmptyString
  | EmptyString => EmptyString
  end.

Lemma runs_skip c s : PyStr.isalnum c = false -> alnum_runs (String c s) = alnum_runs s.
Proof. intros H. cbn [alnum_runs]. now rewrite H. Qed.

Lemma runs_start d t :
  PyStr.isalnum d = true -> exists run runs, alnum_runs (String d t) = String d run :: runs.
Proof.
  intros H. cbn [alnum_runs]. rewrite H. destruct t as [|e t]; [now eexists _, _|].
  destruct (PyStr.isalnum e); [|now eexists _, _].
  destruct (alnum_runs (String e t)); now eexists _, _.
Qed.

Lemma runs_none s : alnum_runs s = [] <-> PyStr.all_chars not_alnum s = true.
Proof.
  induction s as [|c s IH]; [split; reflexivity|].
  cbn [PyStr.all_chars]. unfold not_alnum at 1.
  destruct (PyStr.isalnum c) eqn:Hc.
  - destruct (runs_start c s Hc) as (run & runs & ->). split; discriminate.
  - rewrite (runs_skip c s Hc). cbn [negb andb]. exact IH.
Qed.

Lemma runs_join c d t :
  PyStr.isalnum c = true -> PyStr.isalnum d = true ->
  exists run runs,
    alnum_runs (String d t) = run :: runs
    /\ alnum_runs (String c (String d t)) = String c run :: runs.
Proof.
  intros Hc Hd. destruct (runs_start d t Hd) as (run & runs & E).
  exists (String d run), runs. split; [exact E|].
  change (alnum_runs (String c (String d t)))
    with (if PyStr.isalnum c
          then if PyStr.isalnum d
               then match alnum_runs (String d t) with
                    | [] => [String c EmptyString]
                    | run :: runs => String c run :: runs
                    end
               else String c EmptyString :: alnum_runs (String d t)
          else alnum_runs (String d t)).
  now rewrite Hc, Hd, E.
Qed.

Lemma runs_apart c d t :
  PyStr.isalnum c = true -> PyStr.isalnum d = false ->
  alnum_runs (String c (String d t)) = String c EmptyString :: alnum_runs (String d t).
Proof.
  intros Hc Hd.
  change (alnum_runs (String c (String d t)))
    with (if PyStr.isalnum c
          then if PyStr.isalnum d
               then match alnum_runs (String d t) with
                    | [] => [String c EmptyString]
                    | run :: runs => String c run :: runs
                    end
               else String c EmptyString :: alnum_runs (String d t)
          else alnum_runs (String d t)).
  now rewrite Hc, Hd.
Qed.

(** Every run is a run. *)
Lemma runs_are_runs s : Forall is_run (alnum_runs s).
Proof.
  induction s as [|c s IH]; [constructor|].
  destruct (PyStr.isalnum c) eqn:Hc; [|now rewrite runs_skip].
  assert (Hone : is_run (String c EmptyString)).
  { split; [discriminate|]. cbn [PyStr.all_chars]. now rewrite Hc. }
  destruct s as [|d t]; [cbn [alnum_runs]; rewrite Hc; now constructor|].
  destruct (PyStr.isalnum d) eqn:Hd.
  - destruct (runs_join c d t Hc Hd) as (run & runs & E & ->). rewrite E in IH.
    inversion IH as [|? ? [_ Hrun] Hrest]; subst. constructor; [|exact Hrest].
    split; [discriminate|]. cbn [PyStr.all_chars]. now rewrite Hc.
  - rewrite (runs_apart c d t Hc Hd). now constructor.
Qed.

Lemma join_cons_char c run runs :
  PyStr.join "-" (String c run :: runs) = String c (PyStr.join "-" (run :: runs)).
Proof. destruct runs; reflexivity. Qed.

(** The runs hold the letters and digits of the text, all of them and
    in their order. *)
Lemma runs_letters s : forall b,
  PyStr.join EmptyString (alnum_runs s)
  = PyStr.re_sub_run_go not_alnum EmptyString b s.
Proof.
  induction s as [|c s IH]; intros b; [reflexivity|].
  cbn [PyStr.re_sub_run_go].
  destruct (PyStr.isalnum c) eqn:Hc.
  2:{ assert (Hn : not_alnum c = true) by (unfold not_alnum; now rewrite Hc).
      rewrite Hn, (runs_skip c s Hc), (IH true). now destruct b. }
  assert (Hn : not_alnum c = false) by (unfold not_alnum; now rewrite Hc).
  rewrite Hn, <- (IH false).
  destruct s as [|d t]; [cbn [alnum_runs]; now rewrite Hc|].
  destruct (PyStr.isalnum d) eqn:Hd.
  - destruct (runs_join c d t Hc Hd) as (run & runs & -> & ->). now destruct runs.
  - rewrite (runs_apart c d t Hc Hd). now destruct (alnum_runs (String d t)).
Qed.

(** What [re.sub] makes of a text: its runs joined by hyphens, with a
    hyphen in front when the text starts outside a run and a hyphen
    behind when it ends outside one after a run. *)
Lemma go_spec s :
  exists post,
    (post = EmptyString \/ post = "-")
    /\ (alnum_runs s = [] -> post = EmptyString)
    /\ go true s = joined s +:+ post
    /\ go false s = front s +:+ joined s +:+ post.
Proof.
  induction s as [|c s IH]; [exists EmptyString; repeat split; now left|].
  destruct IH as (post & Hpost & Hnone & Htrue & Hfalse).
  unfold go in *. cbn [PyStr.re_sub_run_go front]. unfold joined in *.
  destruct (PyStr.isalnum c) eqn:Hc.
  2:{ assert (Hn : not_alnum c = true) by (unfold not_alnum; now rewrite Hc).
      exists post. rewrite Hn, (runs_skip c s Hc), Htrue.
      split; [exact Hpost|]. split; [exact Hnone|]. split; reflexivity. }
  assert (Hn : not_alnum c = false) by (unfold not_alnum; now rewrite Hc).
  rewrite Hn.
  destruct s as [|d t].
  { exists EmptyString. cbn [alnum_runs PyStr.re_sub_run_go]. rewrite Hc.
    split; [now left|]. split; [discriminate|]. split; reflexivity. }
  rewrite Hfalse. cbn [front].
  destruct (PyStr.isalnum d) eqn:Hd.
  - assert (Hnd : not_alnum d = false) by (unfold not_alnum; now rewrite Hd).
    rewrite Hnd.
    destruct (runs_join c d t Hc Hd) as (run & runs & E & ->).
    exists post. rewrite E, join_cons_char.
    split; [exact Hpost|]. split; [discriminate|]. split; reflexivity.
  - assert (Hnd : not_alnum d = true) by (unfold not_alnum; now rewrite Hd).
    rewrite Hnd, (runs_apart c d t Hc Hd).
    destruct (alnum_runs (String d t)) as [|run runs] eqn:E.
    + rewrite (Hnone eq_refl). exists "-".
      split; [now right|]. split; [discriminate|]. split; reflexivity.
    + exists post. split; [exact Hpost|]. split; [discriminate|]. split; reflexivity.
Qed.

Lemma alnum_kept c : PyStr.isalnum c = true -> hyphen_or_space c = false.
Proof. destruct c as [[] [] [] [] [] [] [] []]; simpl; intros H; try reflexivity; discriminate. Qed.

Lemma space_not_alnum c : PyStr.isspace c = true -> PyStr.isalnum c = false.
Proof. destruct c as [[] [] [] [] [] [] [] []]; simpl; intros H; try reflexivity; discriminate. Qed.

Lemma rstrip_app_keep p a b :
  PyStr.rstrip_with p b <> EmptyString ->
  PyStr.rstrip_with p (a +:+ b) = a +:+ PyStr.rstrip_with p b.
Proof.
  intros Hb. induction a as [|c a IH]; [reflexivity|].
  change (String c a +:+ b) with (String c (a +:+ b)).
  cbn [PyStr.rstrip_with]. rewrite IH.
  change (String c a +:+ PyStr.rstrip_with p b)
    with (String c (a +:+ PyStr.rstrip_with p b)).
  destruct (a +:+ PyStr.rstrip_with p b) eqn:E; [|reflexivity].
  destruct a; [simpl in E; congruence | discriminate].
Qed.

Lemma rstrip_app_drop p a b :
  PyStr.rstrip_with p b = EmptyString ->
  PyStr.rstrip_with p (a +:+ b) = PyStr.rstrip_with p a.
Proof.
  intros Hb. induction a as [|c a IH]; [exact Hb|].
  change (String c a +:+ b) with (String c (a +:+ b)).
  cbn [PyStr.rstrip_with]. now rewrite IH.
Qed.

Lemma rstrip_run run : is_run run -> PyStr.rstrip_with hyphen_or_space run = run.
Proof.
  intros [_ Hall]. induction run as [|c run IH]; [reflexivity|].
  cbn [PyStr.all_chars] in Hall. apply andb_true_iff in Hall as [Hc Hrun].
  cbn [PyStr.rstrip_with]. rewrite (IH Hrun), (alnum_kept c Hc). now destruct run.
Qed.

(** The joined runs begin and end with a letter or digit. *)
Lemma joined_runs_clean runs :
  Forall is_run runs -> runs <> [] ->
  PyStr.join "-" runs <> EmptyString
  /\ PyStr.lstrip_with hyphen_or_space (PyStr.join "-" runs) = PyStr.join "-" runs
  /\ PyStr.rstrip_with hyphen_or_space (PyStr.join "-" runs) = PyStr.join "-" runs.
Proof.
  induction 1 as [|run runs Hrun Hruns IH]; [congruence|]. intros _.
  assert (Hhead : exists c rest, run = String c rest /\ hyphen_or_space c = false).
  { destruct Hrun as [Hne Hall]. destruct run as [|c rest]; [congruence|].
    cbn [PyStr.all_chars] in Hall. apply andb_true_iff in Hall as [Hc _].
    exists c, rest. split; [reflexivity | now apply alnum_kept]. }
  destruct Hhead as (c & rest & -> & Hc).
  destruct runs as [|next runs].
  - cbn [PyStr.join]. split; [discriminate|]. split.
    + cbn [PyStr.lstrip_with]. now rewrite Hc.
    + now apply rstrip_run.
  - destruct IH as (Hne & _ & Hr); [discriminate|].
    change (PyStr.join "-" (String c rest :: next :: runs))
      with (String c (rest +:+ String "-" (PyStr.join "-" (next :: runs)))).
    split; [discriminate|]. split.
    + cbn [PyStr.lstrip_with]. now rewrite Hc.
    + assert (Hmid : PyStr.rstrip_with hyphen_or_space
                       ("-" +:+ PyStr.join "-" (next :: runs))
                     = "-" +:+ PyStr.join "-" (next :: runs)).
      { rewrite rstrip_app_keep by (rewrite Hr; exact Hne). now rewrite Hr. }
      change (String c (rest +:+ String "-" (PyStr.join "-" (next :: runs))))
        with (String c rest +:+ ("-" +:+ PyStr.join "-" (next :: runs))).
      rewrite rstrip_app_keep by (rewrite Hmid; discriminate).
      now rewrite Hmid.
Qed.

Lemma runs_lstrip s : alnum_runs (PyStr.lstrip_with PyStr.isspace s) = alnum_runs s.
Proof.
  induction s as [|c s IH]; [reflexivity|].
  cbn [PyStr.lstrip_with]. destruct (PyStr.isspace c) eqn:Hc; [|reflexivity].
  now rewrite IH, (runs_skip c s (space_not_alnum c Hc)).
Qed.

Lemma runs_rstrip s : alnum_runs (PyStr.rstrip_with PyStr.isspace s) = alnum_runs s.
Proof.
  induction s as [|c s IH]; [reflexivity|].
  cbn [PyStr.rstrip_with].
  destruct (PyStr.rstrip_with PyStr.isspace s) as [|d r] eqn:E.
  - cbn [alnum_runs] in IH. symmetry in IH.
    destruct (PyStr.isspace c) eqn:Hspace.
    + now rewrite (runs_skip c s (space_not_alnum c Hspace)).
    + destruct (PyStr.isalnum c) eqn:Hc;
        [|rewrite (runs_skip c EmptyString Hc), (runs_skip c s Hc); now rewrite IH].
      destruct s as [|e t]; [reflexivity|].
      destruct (PyStr.isalnum e) eqn:He.
      * destruct (runs_start e t He) as (run & runs & E'). congruence.
      * rewrite (runs_apart c e t Hc He), IH. cbn [alnum_runs]. now rewrite Hc.
  - destruct (PyStr.isalnum c) eqn:Hc;
      [|rewrite (runs_skip c (String d r) Hc), (runs_skip c s Hc); exact IH].
    destruct (rstrip_prefix PyStr.isspace s) as [t Ht]. rewrite E in Ht.
    destruct s as [|e s']; [discriminate|].
    change (String d r +:+ t) with (String d (r +:+ t)) in Ht. injection Ht as -> Hs'.
    destruct (PyStr.isalnum d) eqn:Hd.
    + destruct (runs_join c d r Hc Hd) as (run & runs & E1 & ->).
      destruct (runs_join c d s' Hc Hd) as (run' & runs' & E2 & ->).
      congruence.
    + now rewrite !(runs_apart c d _ Hc Hd), IH.
Qed.

Lemma lower_append a b : PyStr.lower (a +:+ b) = PyStr.lower a +:+ PyStr.lower b.
Proof. induction a as [|c a IH]; [reflexivity|]. simpl. now rewrite IH. Qed.

Lemma lower_join runs :
  PyStr.lower (PyStr.join "-" runs) = PyStr.join "-" (map PyStr.lower runs).
Proof.
  induction runs as [|run runs IH]; [reflexivity|].
  destruct runs as [|next runs]; [reflexivity|].
  change (PyStr.join "-" (run :: next :: runs))
    with (run +:+ "-" +:+ PyStr.join "-" (next :: runs)).
  rewrite !lower_append, IH. reflexivity.
Qed.

(** The code computes the slug of the specification. *)
Lemma slug_refines value : _slug value = slug_of value.
Proof.
  unfold _slug, slug_of. fold hyphen_or_space. fold not_alnum.
  unfold PyStr.re_sub_run. fold go.
  assert (Hruns : alnum_runs (PyStr.strip value) = alnum_runs value).
  { unfold PyStr.strip, PyStr.strip_with. now rewrite runs_rstrip, runs_lstrip. }
  destruct (go_spec (PyStr.strip value)) as (post & Hpost & Hnone & _ & ->).
  unfold joined. rewrite Hruns in *.
  assert (Hfront : PyStr.lstrip_with hyphen_or_space
                     (front (PyStr.strip value) +:+ PyStr.join "-" (alnum_runs value) +:+ post)
                   = PyStr.lstrip_with hyphen_or_space
                       (PyStr.join "-" (alnum_runs value) +:+ post)).
  { unfold front. destruct (PyStr.strip value) as [|c s]; [reflexivity|].
    destruct (not_alnum c); reflexivity. }
  unfold PyStr.strip_with. rewrite Hfront.
  destruct (alnum_runs value) as [|run runs] eqn:E.
  - rewrite (Hnone eq_refl). reflexivity.
  - destruct (joined_runs_clean (run :: runs)) as (Hne & Hl & Hr);
      [rewrite <- E; apply runs_are_runs | discriminate |].
    set (j := PyStr.join "-" (run :: runs)) in *.
    assert (Hclean : PyStr.rstrip_with hyphen_or_space
                       (PyStr.lstrip_with hyphen_or_space (j +:+ post)) = j).
    { assert (Hkeep : PyStr.lstrip_with hyphen_or_space (j +:+ post) = j +:+ post).
      { destruct j as [|c j']; [congruence|].
        cbn [PyStr.lstrip_with] in Hl.
        change (String c j' +:+ post) with (String c (j' +:+ post)).
        cbn [PyStr.lstrip_with].
        destruct (hyphen_or_space c); [|reflexivity].
        exfalso. destruct (lstrip_suffix hyphen_or_space j') as [t Ht].
        rewrite Hl in Ht. apply (f_equal String.length) in Ht.
        rewrite length_append in Ht. cbn [String.length] in Ht. lia. }
      rewrite Hkeep. destruct Hpost as [-> | ->].
      - now rewrite append_empty_r.
      - rewrite rstrip_app_drop by reflexivity. exact Hr. }
    rewrite Hclean. destruct j as [|c j'] eqn:Ej; [congruence|].
    cbn [PyStr.truthy]. rewrite <- Ej. subst j. now rewrite lower_join.
Qed.

(** C9. The slug of a photo is its sequence number written by the
    format [03d], then the sanitized name and the sanitized theme, the
    three joined by underscores. The sanitized form of a text is made
    of its runs of letters and digits, in lower case, joined by single
    hyphens and cut after 60 characters, and is the placeholder "item"
    when the text has no letter and no digit; the runs hold the
    letters and digits of the text, all of them and in their order. So
    the sanitized form has at most 60
    characters, all of them small letters, digits or hyphens, never two
    hyphens in a row, and is never empty. A number that is not negative
    is written with at least three digits, zeros in front, and with
    exactly three when it is below 1000; a negative number keeps its
    sign in front of the digits. The photo of Jane O'Brien with theme
    "Sunset / Hills" and number 7 gives 007_jane-o-brien_sunset-hills. *)
Theorem filename_slug_shape (p : ParticipantPhoto) :
  filename_slug p
  = PyStr.format_0d 3 (sequence p) +:+ "_" +:+ slug_of (participant_name p)
      +:+ "_" +:+ slug_of (theme p)
  /\ (0 <= sequence p ->
      PyStr.format_0d 3 (sequence p)
      = PyStr.zeros (3 - String.length (PyStr.of_Z (sequence p))) +:+ PyStr.of_Z (sequence p)
      /\ PyStr.all_chars PyStr.isdigit (PyStr.format_0d 3 (sequence p)) = true
      /\ (3 <= String.length (PyStr.format_0d 3 (sequence p)))%nat
      /\ (sequence p < 1000 -> String.length (PyStr.format_0d 3 (sequence p)) = 3%nat))
  /\ (sequence p < 0 ->
      PyStr.format_0d 3 (sequence p)
      = "-" +:+ PyStr.zeros (2 - String.length (PyStr.of_Z (- sequence p)))
            +:+ PyStr.of_Z (- sequence p))
  /\ (forall value,
        _slug value = slug_of value
        /\ Forall is_run (alnum_runs value)
        /\ PyStr.join EmptyString (alnum_runs value)
           = PyStr.re_sub_run not_alnum EmptyString value
        /\ (alnum_runs value = [] <-> PyStr.all_chars not_alnum value = true)
        /\ (String.length (_slug value) <= 60)%nat
        /\ PyStr.all_chars slug_char (_slug value) = true
        /\ PyStr.contains "--" (_slug value) = false
        /\ _slug value <> EmptyString
        /\ (PyStr.all_chars not_alnum value = true -> _slug value = "item"))
  /\ filename_slug (mkParticipantPhoto 7 1 "Jane O'Brien!!" "Sunset / Hills"
                      "Evening light" "http://example.org/a.jpg" None None)
     = "007_jane-o-brien_sunset-hills".
Proof.
  split; [unfold filename_slug; now rewrite !slug_refines|].
  split; [apply format_nonnegative|]. split; [apply format_negative|]. split.
  - intros value. split; [apply slug_refines|]. split; [apply runs_are_runs|].
    split; [apply runs_letters|]. split; [apply runs_none | apply slug_shape].
  - vm_compute. reflexivity.
Qed.

End SlugWords.
